(** * simple_zkp_integration: the addition circuit and its HTTP proof service

    A shallow embedding of [internal/circuit/addtion.go],
    [internal/handlers/proof.go] and [pkg/models/models.go].

    The gnark library is an external collaborator.  Its deterministic
    front end (field embedding of Go values, the R1CS builder behind
    [frontend.API], witness construction, constraint solving) is written out;
    its cryptographic back end ([groth16.Setup], [Prove], [Verify] and the
    proof (de)serialisation) is an injected record of operations together
    with an explicit algebraic contract.  Calls to [log] are left out: they
    do not influence any response or any package-level variable. *)

From Stdlib Require Import ZArith List String Ascii Bool Lia.
From Stdlib Require Import Strings.Byte.
Import ListNotations.
Local Open Scope string_scope.
Local Open Scope list_scope.
Local Open Scope Z_scope.

(** ** Go values *)

(** A Go [error] value is represented by its message. *)
Definition error := string.

(** The Go idiom [(value, err)]. *)
Inductive result (A : Type) : Type :=
| Ok (a : A)
| Err (e : error).
Arguments Ok {A} a.
Arguments Err {A} e.

Definition is_ok {A} (r : result A) : bool :=
  match r with Ok _ => true | Err _ => false end.

(** Go's [int] on the 64-bit targets of the service. *)
Definition MinInt64 : Z := - 2 ^ 63.
Definition MaxInt64 : Z := 2 ^ 63 - 1.

Definition is_int (z : Z) : bool := (MinInt64 <=? z) && (z <=? MaxInt64).

(** Two's complement wrap-around of Go's [+] on [int]. *)
Definition wrap_int (z : Z) : Z := (z + 2 ^ 63) mod 2 ^ 64 - 2 ^ 63.

Definition int_add (a b : Z) : Z := wrap_int (a + b).

(** ** gnark-crypto/ecc *)
Module ecc.
(** [ecc.BN254.ScalarField()] *)
Definition BN254_ScalarField : Z :=
  21888242871839275222246405745257275088548364400416034343698204186575808495617.
End ecc.

(** ** gnark/frontend *)
Module frontend.

(** Wires of a constraint system: the constant one, the public inputs and
    the secret inputs (the addition circuit creates no internal wire). *)
Inductive WireID : Type :=
| One
| Pub (i : nat)
| Sec (i : nat).

Definition Term : Type := (Z * WireID)%type.
Definition LinearExpression : Type := list Term.

(** [frontend.Variable] (here [Var]) is [interface{}]: unset, a Go constant, or (during
    compilation) a symbolic expression over wires. *)
Inductive Var : Type :=
| Nil
| Int (v : Z)
| Expr (e : LinearExpression).

(** The struct tags [gnark:",secret"] and [gnark:",public"]. *)
Inductive Visibility : Type :=
| Secret
| Public.

Definition is_public (v : Visibility) : bool :=
  match v with Public => true | Secret => false end.

(** The interface [frontend.API], restricted to the two methods the
    repository calls.  [S] is the state of the implementation. *)
Record API (S : Type) : Type := {
  Add : Var -> Var -> S -> Var * S;
  AssertIsEqual : Var -> Var -> S -> S
}.
Arguments Add {S} _ _ _ _.
Arguments AssertIsEqual {S} _ _ _ _.

(** The interface [frontend.Circuit] ([Define]) together with what gnark's
    reflection reads off the struct: its leaves in declaration order with
    their visibility tags, and how to store variables back into them. *)
Class Circuit (C : Type) : Type := {
  Define : forall S, API S -> C -> S -> option error * S;
  Leaves : C -> list (Visibility * Var);
  SetLeaves : list Var -> C -> C
}.

(** One rank-1 constraint [L * R == O]. *)
Record R1C : Type := {
  L : LinearExpression;
  R : LinearExpression;
  O : LinearExpression
}.

Record ConstraintSystem : Type := {
  Field : Z;
  NbPublic : nat;
  NbSecret : nat;
  Constraints : list R1C
}.

(** A witness vector: public part first, then secret part. *)
Record Witness : Type := {
  PublicPart : list Z;
  SecretPart : list Z
}.

(** Embedding of a Go [int] into the field ([fr.Element.SetInt64]). *)
Definition FromInt (q v : Z) : Z := v mod q.

(** *** [r1cs.NewBuilder] *)
Record builder : Type := {
  b_field : Z;
  b_public : nat;
  b_secret : nat;
  b_constraints : list R1C;
  b_panic : option error
}.

Definition newBuilder (q : Z) : builder :=
  {| b_field := q; b_public := 0; b_secret := 0;
     b_constraints := []; b_panic := None |}.

Definition panic (msg : error) (b : builder) : builder :=
  {| b_field := b_field b; b_public := b_public b; b_secret := b_secret b;
     b_constraints := b_constraints b;
     b_panic := match b_panic b with Some e => Some e | None => Some msg end |}.

Definition PublicVariable (b : builder) : Var * builder :=
  (Expr [(1, Pub (b_public b))],
   {| b_field := b_field b; b_public := S (b_public b); b_secret := b_secret b;
      b_constraints := b_constraints b; b_panic := b_panic b |}).

Definition SecretVariable (b : builder) : Var * builder :=
  (Expr [(1, Sec (b_secret b))],
   {| b_field := b_field b; b_public := b_public b; b_secret := S (b_secret b);
      b_constraints := b_constraints b; b_panic := b_panic b |}).

Definition toVariable (q : Z) (v : Var) : option LinearExpression :=
  match v with
  | Expr e => Some e
  | Int c => Some [(FromInt q c, One)]
  | Nil => None
  end.

(** [api.Add]: the sum of two linear expressions, kept as the list of their
    terms; it adds no constraint. *)
Definition builder_Add (i1 i2 : Var) (b : builder) : Var * builder :=
  match toVariable (b_field b) i1, toVariable (b_field b) i2 with
  | Some e1, Some e2 => (Expr (e1 ++ e2), b)
  | _, _ => (Nil, panic "unrecognized R1CS input" b)
  end.

Definition addConstraint (c : R1C) (b : builder) : builder :=
  {| b_field := b_field b; b_public := b_public b; b_secret := b_secret b;
     b_constraints := b_constraints b ++ [c]; b_panic := b_panic b |}.

(** [api.AssertIsEqual]: the constraint [i1 * 1 == i2].  Releases of gnark
    differ in which of the two factors they put on the left; the solutions
    are the same. *)
Definition builder_AssertIsEqual (i1 i2 : Var) (b : builder) : builder :=
  match toVariable (b_field b) i1, toVariable (b_field b) i2 with
  | Some l, Some o => addConstraint {| L := l; R := [(1, One)]; O := o |} b
  | _, _ => panic "unrecognized R1CS input" b
  end.

Definition r1cs_API : API builder :=
  {| Add := builder_Add; AssertIsEqual := builder_AssertIsEqual |}.

(** [parseCircuit]: every leaf of the circuit struct is replaced by a
    fresh public or secret wire, whatever value it held. *)
Fixpoint allocate (leaves : list (Visibility * Var)) (b : builder)
  : list Var * builder :=
  match leaves with
  | [] => ([], b)
  | (vis, _) :: rest =>
      let (x, b1) := if is_public vis then PublicVariable b else SecretVariable b in
      let (xs, b2) := allocate rest b1 in
      (x :: xs, b2)
  end.

(** [frontend.Compile(field, r1cs.NewBuilder, &circuit)]: a panic raised
    while [Define] runs is recovered and returned as the error. *)
Definition Compile {C} `{Circuit C} (q : Z) (circuit : C) : result ConstraintSystem :=
  let (wires, b1) := allocate (Leaves circuit) (newBuilder q) in
  let (err, b2) := Define builder r1cs_API (SetLeaves wires circuit) b1 in
  match b_panic b2, err with
  | Some e, _ => Err e
  | None, Some e => Err e
  | None, None =>
      Ok {| Field := q; NbPublic := b_public b2; NbSecret := b_secret b2;
            Constraints := b_constraints b2 |}
  end.

(** *** [frontend.NewWitness] *)
Definition assign (q : Z) (v : Var) : result Z :=
  match v with
  | Int c => Ok (FromInt q c)
  | Nil => Err "can't set fr.Element with <nil>"
  | Expr _ => Err "can't set fr.Element from a symbolic variable"
  end.

Fixpoint fill (q : Z) (publicOnly : bool) (leaves : list (Visibility * Var))
  : result Witness :=
  match leaves with
  | [] => Ok {| PublicPart := []; SecretPart := [] |}
  | (vis, v) :: rest =>
      if negb (is_public vis) && publicOnly then fill q publicOnly rest
      else
        match assign q v with
        | Err e => Err e
        | Ok x =>
            match fill q publicOnly rest with
            | Err e => Err e
            | Ok w =>
                if is_public vis
                then Ok {| PublicPart := x :: PublicPart w; SecretPart := SecretPart w |}
                else Ok {| PublicPart := PublicPart w; SecretPart := x :: SecretPart w |}
            end
        end
  end.

(** [frontend.NewWitness(&assignment, field, opts...)]; [publicOnly] is
    the option [frontend.PublicOnly()]. *)
Definition NewWitness {C} `{Circuit C} (assignment : C) (q : Z) (publicOnly : bool)
  : result Witness :=
  fill q publicOnly (Leaves assignment).

(** [witness.Public()]: the projection on the public variables. *)
Definition PublicOf (w : Witness) : Witness :=
  {| PublicPart := PublicPart w; SecretPart := [] |}.

(** *** Constraint solving *)
Definition wire_value (w : Witness) (i : WireID) : Z :=
  match i with
  | One => 1
  | Pub k => nth k (PublicPart w) 0
  | Sec k => nth k (SecretPart w) 0
  end.

Fixpoint eval (q : Z) (w : Witness) (e : LinearExpression) : Z :=
  match e with
  | [] => 0
  | (c, i) :: rest => (c * wire_value w i + eval q w rest) mod q
  end.

Definition holds (q : Z) (w : Witness) (c : R1C) : bool :=
  (eval q w (L c) * eval q w (R c)) mod q =? eval q w (O c).

(** [ccs.IsSolved(witness)]: the witness has the sizes of the system and
    satisfies every constraint. *)
Definition IsSolved (ccs : ConstraintSystem) (w : Witness) : bool :=
  Nat.eqb (List.length (PublicPart w)) (NbPublic ccs)
  && Nat.eqb (List.length (SecretPart w)) (NbSecret ccs)
  && forallb (holds (Field ccs) w) (Constraints ccs).

End frontend.

(** ** gnark/backend/groth16 *)
Module groth16.

(** The cryptographic back end as an injected capability.  [Setup] and
    [Prove] are randomised: the extra [nat] is the randomness the call
    draws (toxic waste, blinding factors). *)
Record Backend : Type := {
  ProvingKey : Type;
  VerifyingKey : Type;
  Proof : Type;
  setup_fn : frontend.ConstraintSystem -> nat -> result (ProvingKey * VerifyingKey);
  prove_fn : frontend.ConstraintSystem -> ProvingKey -> frontend.Witness -> nat
             -> result Proof;
  verify_fn : Proof -> VerifyingKey -> frontend.Witness -> option error;
  write_fn : Proof -> result (list byte);
  read_fn : list byte -> result Proof
}.

Section Runtime.
Context (G : Backend).

(** Ghost trace of the calls made into the back end. *)
Inductive Event : Type :=
| EvSetup (ccs : frontend.ConstraintSystem)
| EvProve (ccs : frontend.ConstraintSystem) (pk : ProvingKey G) (w : frontend.Witness)
| EvVerify (proof : Proof G) (vk : VerifyingKey G) (w : frontend.Witness)
| EvWriteTo (proof : Proof G)
| EvReadFrom (data : list byte).

(** What the process shares with the back end: the randomness source and
    the trace. *)
Record Env : Type := {
  entropy : nat;
  trace : list Event
}.

Definition M (A : Type) : Type := Env -> A * Env.

Definition ret {A} (a : A) : M A := fun e => (a, e).

Definition bind {A B} (m : M A) (k : A -> M B) : M B :=
  fun e => let (a, e1) := m e in k a e1.

Definition emit (ev : Event) (e : Env) : Env :=
  {| entropy := entropy e; trace := trace e ++ [ev] |}.

Definition draw (e : Env) : Env :=
  {| entropy := S (entropy e); trace := trace e |}.

(** [groth16.Setup(ccs)] *)
Definition Setup (ccs : frontend.ConstraintSystem)
  : M (result (ProvingKey G * VerifyingKey G)) :=
  fun e => (setup_fn G ccs (entropy e), draw (emit (EvSetup ccs) e)).

(** [groth16.Prove(ccs, pk, witness)] *)
Definition Prove (ccs : frontend.ConstraintSystem) (pk : ProvingKey G)
  (w : frontend.Witness) : M (result (Proof G)) :=
  fun e => (prove_fn G ccs pk w (entropy e), draw (emit (EvProve ccs pk w) e)).

(** [groth16.Verify(proof, vk, publicWitness)]; [None] is the nil error. *)
Definition Verify (proof : Proof G) (vk : VerifyingKey G) (w : frontend.Witness)
  : M (option error) :=
  fun e => (verify_fn G proof vk w, emit (EvVerify proof vk w) e).

(** [proof.WriteTo(buf)] followed by [buf.Bytes()] *)
Definition WriteTo (proof : Proof G) : M (result (list byte)) :=
  fun e => (write_fn G proof, emit (EvWriteTo proof) e).

(** [groth16.NewProof(ecc.BN254)] followed by [proof.ReadFrom(buf)] *)
Definition ReadFrom (data : list byte) : M (result (Proof G)) :=
  fun e => (read_fn G data, emit (EvReadFrom data) e).

(** The algebraic contract of Groth16 as gnark implements it. *)
Record Contract : Prop := {
  (** [Prove] first solves the system and fails on an unsatisfied one. *)
  prove_solves : forall ccs pk w n proof,
    prove_fn G ccs pk w n = Ok proof -> frontend.IsSolved ccs w = true;
  (** Completeness: with keys from [Setup] on the same system, a
      satisfying witness is proved, and the proof verifies against the
      public projection of that witness. *)
  complete : forall ccs n pk vk w m,
    setup_fn G ccs n = Ok (pk, vk) ->
    frontend.IsSolved ccs w = true ->
    exists proof, prove_fn G ccs pk w m = Ok proof
                  /\ verify_fn G proof vk (frontend.PublicOf w) = None;
  (** Public-input binding: an honestly generated proof verifies against
      no other public witness. *)
  binding : forall ccs n pk vk w m proof w',
    setup_fn G ccs n = Ok (pk, vk) ->
    prove_fn G ccs pk w m = Ok proof ->
    verify_fn G proof vk w' = None ->
    frontend.PublicPart w' = frontend.PublicPart w;
  (** Serialisation round trip. *)
  read_write : forall proof,
    exists data, write_fn G proof = Ok data /\ read_fn G data = Ok proof
}.

End Runtime.

Arguments ret {G A} a.
Arguments bind {G A B} m k.

End groth16.

Notation "x <- m ;; k" := (groth16.bind m (fun x => k))
  (at level 61, m at next level, right associativity).

(** ** internal/circuit *)
Module circuit.

(** The struct [AdditionCircuit]. *)
Record AdditionCircuit : Type := {
  A : frontend.Var;
  B : frontend.Var;
  Sum : frontend.Var
}.

(** [func (circuit *AdditionCircuit) Define(api frontend.API) error] *)
Definition Define (S : Type) (api : frontend.API S)
  (circuit : AdditionCircuit) (s : S) : option error * S :=
  let (t, s1) := frontend.Add api (A circuit) (B circuit) s in
  (None, frontend.AssertIsEqual api t (Sum circuit) s1).

#[global] Instance AdditionCircuit_Circuit : frontend.Circuit AdditionCircuit := {
  frontend.Define := Define;
  frontend.Leaves c :=
    [(frontend.Secret, A c); (frontend.Secret, B c); (frontend.Public, Sum c)];
  frontend.SetLeaves l c :=
    match l with
    | [a; b; s] => {| A := a; B := b; Sum := s |}
    | _ => c
    end
}.

(** [var circuit AdditionCircuit]: the zero value. *)
Definition zero : AdditionCircuit :=
  {| A := frontend.Nil; B := frontend.Nil; Sum := frontend.Nil |}.

Section Ops.
Context (G : groth16.Backend).

(** [func Setup() (groth16.ProvingKey, groth16.VerifyingKey, error)] *)
Definition Setup
  : groth16.M G (result (groth16.ProvingKey G * groth16.VerifyingKey G)) :=
  match frontend.Compile ecc.BN254_ScalarField zero with
  | Err err => groth16.ret (Err err)
  | Ok ccs =>
      r <- groth16.Setup G ccs ;;
      match r with
      | Err err => groth16.ret (Err err)
      | Ok (pk, vk) => groth16.ret (Ok (pk, vk))
      end
  end.

(** [func GenerateProof(pk groth16.ProvingKey, a, b, sum int) (groth16.Proof, error)] *)
Definition GenerateProof (pk : groth16.ProvingKey G) (a b sum : Z)
  : groth16.M G (result (groth16.Proof G)) :=
  let assignment :=
    {| A := frontend.Int a; B := frontend.Int b; Sum := frontend.Int sum |} in
  match frontend.NewWitness assignment ecc.BN254_ScalarField false with
  | Err err => groth16.ret (Err err)
  | Ok witness =>
      match frontend.Compile ecc.BN254_ScalarField zero with
      | Err err => groth16.ret (Err err)
      | Ok ccs =>
          r <- groth16.Prove G ccs pk witness ;;
          match r with
          | Err err => groth16.ret (Err err)
          | Ok proof => groth16.ret (Ok proof)
          end
      end
  end.

(** [func VerifyProof(vk groth16.VerifyingKey, proof groth16.Proof, sum int) error] *)
Definition VerifyProof (vk : groth16.VerifyingKey G) (proof : groth16.Proof G)
  (sum : Z) : groth16.M G (option error) :=
  let publicAssignment :=
    {| A := frontend.Nil; B := frontend.Nil; Sum := frontend.Int sum |} in
  match frontend.NewWitness publicAssignment ecc.BN254_ScalarField true with
  | Err err => groth16.ret (Some err)
  | Ok publicWitness => groth16.Verify G proof vk publicWitness
  end.

End Ops.

End circuit.

(** ** pkg/models *)
Module models.

(** [ProofRequest]: the request to generate a proof. *)
Module ProofRequest.
Record t : Type := { A : Z; B : Z; Sum : Z }.
Definition zero : t := {| A := 0; B := 0; Sum := 0 |}.
End ProofRequest.

(** [ProofResponse]: the response after generating a proof. *)
Module ProofResponse.
Record t : Type := { Proof : list byte; Sum : Z; Message : string }.
End ProofResponse.

(** [VerifyRequest]: the request to verify a proof. *)
Module VerifyRequest.
Record t : Type := { Proof : list byte; Sum : Z }.
Definition zero : t := {| Proof := []; Sum := 0 |}.
End VerifyRequest.

(** [VerifyResponse]: the response after verifying a proof. *)
Module VerifyResponse.
Record t : Type := { Valid : bool; Message : string }.
End VerifyResponse.

End models.

(** ** encoding/base64 and encoding/json, as far as the handlers use them *)
Module base64.

Definition sextet (c : ascii) : option N :=
  let n := N_of_ascii c in
  (if (65 <=? n) && (n <=? 90) then Some (n - 65)
   else if (97 <=? n) && (n <=? 122) then Some (n - 71)
   else if (48 <=? n) && (n <=? 57) then Some (n + 4)
   else if n =? 43 then Some 62
   else if n =? 47 then Some 63
   else None)%N.

Definition is_pad (c : ascii) : bool := (N_of_ascii c =? 61)%N.

Definition is_newline (c : ascii) : bool :=
  ((N_of_ascii c =? 10) || (N_of_ascii c =? 13))%N.

Definition to_byte (n : N) : byte :=
  match Byte.of_N (n mod 256) with Some b => b | None => x00 end.

(** One quantum of four characters at a time; padding only in the last. *)
Fixpoint quanta (cs : list ascii) : option (list byte) :=
  match cs with
  | [] => Some []
  | c0 :: c1 :: c2 :: c3 :: rest =>
      match sextet c0, sextet c1 with
      | Some s0, Some s1 =>
          let b0 := to_byte (s0 * 4 + s1 / 16) in
          if is_pad c2 then
            match is_pad c3, rest with
            | true, [] => Some [b0]
            | _, _ => None
            end
          else
            match sextet c2 with
            | None => None
            | Some s2 =>
                let b1 := to_byte (s1 * 16 + s2 / 4) in
                if is_pad c3 then
                  match rest with
                  | [] => Some [b0; b1]
                  | _ => None
                  end
                else
                  match sextet c3, quanta rest with
                  | Some s3, Some tl => Some (b0 :: b1 :: to_byte (s2 * 64 + s3) :: tl)
                  | _, _ => None
                  end
            end
      | _, _ => None
      end%N
  | _ => None
  end.

(** [base64.StdEncoding.DecodeString]: carriage returns and line feeds are
    skipped. *)
Definition DecodeString (s : string) : option (list byte) :=
  quanta (filter (fun c => negb (is_newline c)) (list_ascii_of_string s)).

End base64.

Module json.

(** A number literal: an integer literal with its value, the literal [-0]
    (an integer for a signed destination, a syntax error for an unsigned
    one), or a literal with a fraction or an exponent part. *)
Inductive Number : Type :=
| Integer (z : Z)
| NegZero
| Fractional.

#[warnings="-register-all"] Inductive Value : Type :=
| Null
| Bool (b : bool)
| Num (n : Number)
| Str (s : string)
| Array (elems : list Value)
| Object (members : list (string * Value)).

(** What the decoder scans at the head of a request body: [None] when the
    body is empty or does not start with a well-formed JSON value. *)
Definition Body : Type := option Value.

(** [foldName]: the case folding under which an object key matches a
    struct field.  ASCII letters fold to upper case; the two non-ASCII
    runes with an ASCII fold, U+017F and U+212A in UTF-8, fold to S and K. *)
Fixpoint foldBytes (cs : list N) : list N :=
  match cs with
  | [] => []
  | 197%N :: 191%N :: rest => 83%N :: foldBytes rest
  | 226%N :: 132%N :: 170%N :: rest => 75%N :: foldBytes rest
  | c :: rest =>
      (if (97 <=? c) && (c <=? 122) then c - 32 else c)%N :: foldBytes rest
  end.

Definition foldName (s : string) : list N :=
  foldBytes (map N_of_ascii (list_ascii_of_string s)).

Definition matches (key field : string) : bool :=
  if list_eq_dec N.eq_dec (foldName key) (foldName field) then true else false.

Definition typeError (what : string) : error :=
  String.append "json: cannot unmarshal " what.

(** A JSON value stored into a Go [int]; [null] leaves the field as it is. *)
Definition into_int (v : Value) (old : Z) : result Z :=
  match v with
  | Null => Ok old
  | Num (Integer z) => if is_int z then Ok z else Err (typeError "number")
  | Num NegZero => Ok 0
  | Num Fractional => Err (typeError "number")
  | Bool _ => Err (typeError "bool")
  | Str _ => Err (typeError "string")
  | Array _ => Err (typeError "array")
  | Object _ => Err (typeError "object")
  end.

(** A JSON value stored into an element of a [[]byte]; [null] leaves the
    element as it is, and [-0] is no unsigned number. *)
Definition into_uint8 (v : Value) (old : byte) : result byte :=
  match v with
  | Null => Ok old
  | Num (Integer z) =>
      if (0 <=? z) && (z <=? 255) then Ok (base64.to_byte (Z.to_N z))
      else Err (typeError "number")
  | _ => Err (typeError "value")
  end.

(** The elements of an array stored into a slice, index by index: the
    slice the field held is reused, so an element keeps what it held at its
    index; past the end of that slice an element starts at zero. *)
Fixpoint into_elems (vs : list Value) (old : list byte) : result (list byte) :=
  match vs with
  | [] => Ok []
  | v :: rest =>
      match into_uint8 v (hd x00 old), into_elems rest (tl old) with
      | Ok b, Ok bs => Ok (b :: bs)
      | Err e, _ => Err e
      | _, Err e => Err e
      end
  end.

(** A JSON value stored into a Go [[]byte] that holds [old]: a base64
    string, an array of small numbers, or [null] for the nil slice. *)
Definition into_bytes (v : Value) (old : list byte) : result (list byte) :=
  match v with
  | Null => Ok []
  | Str s =>
      match base64.DecodeString s with
      | Some bs => Ok bs
      | None => Err "illegal base64 data"
      end
  | Array elems => into_elems elems old
  | Num _ => Err (typeError "number")
  | Bool _ => Err (typeError "bool")
  | Object _ => Err (typeError "object")
  end.

(** One exported struct field: its [json:"..."] name and how a value is
    stored into it. *)
Definition FieldTable (T : Type) : Type := list (string * (Value -> T -> result T)).

Fixpoint lookup {T} (key : string) (fields : FieldTable T)
  : option (Value -> T -> result T) :=
  match fields with
  | [] => None
  | (name, store) :: rest => if matches key name then Some store else lookup key rest
  end.

(** The members of an object are stored in order, so a repeated key
    overrides; a key that matches no field is skipped; missing fields keep
    their zero value. *)
Fixpoint object {T} (fields : FieldTable T) (members : list (string * Value)) (acc : T)
  : result T :=
  match members with
  | [] => Ok acc
  | (key, v) :: rest =>
      match lookup key fields with
      | None => object fields rest acc
      | Some store =>
          match store v acc with
          | Err e => Err e
          | Ok acc1 => object fields rest acc1
          end
      end
  end.

(** [json.NewDecoder(body).Decode(&dst)] for a struct destination that
    starts at its zero value. *)
Definition Decode {T} (fields : FieldTable T) (zero : T) (body : Body) : result T :=
  match body with
  | None => Err "invalid character or unexpected end of JSON input"
  | Some Null => Ok zero
  | Some (Object members) => object fields members zero
  | Some (Bool _) => Err (typeError "bool")
  | Some (Num _) => Err (typeError "number")
  | Some (Str _) => Err (typeError "string")
  | Some (Array _) => Err (typeError "array")
  end.

Definition mapr {X Y} (f : X -> Y) (r : result X) : result Y :=
  match r with Ok x => Ok (f x) | Err e => Err e end.

(** The field tables reflection derives from the struct tags. *)
Definition ProofRequest_fields : FieldTable models.ProofRequest.t :=
  [ ("a", fun v r => mapr (fun x =>
       {| models.ProofRequest.A := x;
          models.ProofRequest.B := models.ProofRequest.B r;
          models.ProofRequest.Sum := models.ProofRequest.Sum r |})
       (into_int v (models.ProofRequest.A r)));
    ("b", fun v r => mapr (fun x =>
       {| models.ProofRequest.A := models.ProofRequest.A r;
          models.ProofRequest.B := x;
          models.ProofRequest.Sum := models.ProofRequest.Sum r |})
       (into_int v (models.ProofRequest.B r)));
    ("sum", fun v r => mapr (fun x =>
       {| models.ProofRequest.A := models.ProofRequest.A r;
          models.ProofRequest.B := models.ProofRequest.B r;
          models.ProofRequest.Sum := x |})
       (into_int v (models.ProofRequest.Sum r))) ].

Definition VerifyRequest_fields : FieldTable models.VerifyRequest.t :=
  [ ("proof", fun v r => mapr (fun x =>
       {| models.VerifyRequest.Proof := x;
          models.VerifyRequest.Sum := models.VerifyRequest.Sum r |})
       (into_bytes v (models.VerifyRequest.Proof r)));
    ("sum", fun v r => mapr (fun x =>
       {| models.VerifyRequest.Proof := models.VerifyRequest.Proof r;
          models.VerifyRequest.Sum := x |})
       (into_int v (models.VerifyRequest.Sum r))) ].

End json.

(** ** net/http *)
Module http.
Definition StatusOK : Z := 200.
Definition StatusBadRequest : Z := 400.
Definition StatusInternalServerError : Z := 500.
End http.

(** ** internal/handlers *)
Module handlers.

(** What a handler writes: the payloads the handlers encode. *)
Inductive Payload : Type :=
| ErrorBody (message : string)
| ProofBody (r : models.ProofResponse.t)
| VerifyBody (r : models.VerifyResponse.t)
| HealthBody.

(** The outcome of serving one request: a status code with a JSON payload,
    or a run-time panic (the server then aborts the connection). *)
Inductive Response : Type :=
| Respond (status : Z) (payload : Payload)
| Aborted.

Definition status_of (r : Response) : option Z :=
  match r with Respond s _ => Some s | Aborted => None end.

(** [func respondWithJSON(w, status, payload)] *)
Definition respondWithJSON (status : Z) (payload : Payload) : Response :=
  Respond status payload.

(** [func respondWithError(w, status, message)] *)
Definition respondWithError (status : Z) (message : string) : Response :=
  respondWithJSON status (ErrorBody message).

Definition msg_generated : string :=
  "Proof generated successfully. This proves you know two numbers that add up to the sum, without revealing the numbers themselves!".

Definition msg_invalid : string :=
  "Proof is invalid. The prover does not know valid numbers that add up to the given sum.".

Definition msg_valid : string :=
  "Proof is valid! The prover knows two numbers that add up to the sum (without revealing them).".

Section Handlers.
Context (G : groth16.Backend).

(** The package-level variables, with the back end's environment.
    [setupOnce] is the done flag of the [sync.Once]; the two keys are
    interface values, nil until assigned. *)
Record Process : Type := {
  provingKey : option (groth16.ProvingKey G);
  verifyingKey : option (groth16.VerifyingKey G);
  setupOnce : bool;
  setupErr : option error;
  env : groth16.Env G
}.

(** A freshly started process. *)
Definition start (seed : nat) : Process :=
  {| provingKey := None; verifyingKey := None; setupOnce := false; setupErr := None;
     env := {| groth16.entropy := seed; groth16.trace := [] |} |}.

Definition with_env (p : Process) (e : groth16.Env G) : Process :=
  {| provingKey := provingKey p; verifyingKey := verifyingKey p;
     setupOnce := setupOnce p; setupErr := setupErr p; env := e |}.

(** The closure passed to [setupOnce.Do]:
    [provingKey, verifyingKey, setupErr = circuit.Setup()]. *)
Definition setup_closure (p : Process) : Process :=
  let (r, e1) := circuit.Setup G (env p) in
  match r with
  | Ok (pk, vk) =>
      {| provingKey := Some pk; verifyingKey := Some vk;
         setupOnce := setupOnce p; setupErr := None; env := e1 |}
  | Err err =>
      {| provingKey := None; verifyingKey := None;
         setupOnce := setupOnce p; setupErr := Some err; env := e1 |}
  end.

(** [sync.Once.Do] as seen by a single goroutine. *)
Definition Once_Do (f : Process -> Process) (p : Process) : Process :=
  if setupOnce p then p
  else
    let p1 := f p in
    {| provingKey := provingKey p1; verifyingKey := verifyingKey p1;
       setupOnce := true; setupErr := setupErr p1; env := env p1 |}.

(** [func initializeKeys()] *)
Definition initializeKeys (p : Process) : Process := Once_Do setup_closure p.

(** [func GenerateProof(w http.ResponseWriter, r *http.Request)].  A nil
    proving key makes the back end panic; no response is written then. *)
Definition GenerateProof (body : json.Body) (p : Process) : Response * Process :=
  let p1 := initializeKeys p in
  match setupErr p1 with
  | Some err =>
      (respondWithError http.StatusInternalServerError
         (String.append "Setup failed: " err), p1)
  | None =>
      match json.Decode json.ProofRequest_fields models.ProofRequest.zero body with
      | Err _ => (respondWithError http.StatusBadRequest "Invalid request body", p1)
      | Ok req =>
          match provingKey p1 with
          | None => (Aborted, p1)
          | Some pk =>
              let (r, e1) :=
                circuit.GenerateProof G pk (models.ProofRequest.A req)
                  (models.ProofRequest.B req) (models.ProofRequest.Sum req) (env p1) in
              match r with
              | Err _ =>
                  (respondWithError http.StatusInternalServerError
                     "Failed to generate proof", with_env p1 e1)
              | Ok proof =>
                  let (wr, e2) := groth16.WriteTo G proof e1 in
                  match wr with
                  | Err _ =>
                      (respondWithError http.StatusInternalServerError
                         "Failed to serialize proof", with_env p1 e2)
                  | Ok proofBytes =>
                      (respondWithJSON http.StatusOK
                         (ProofBody
                            {| models.ProofResponse.Proof := proofBytes;
                               models.ProofResponse.Sum := models.ProofRequest.Sum req;
                               models.ProofResponse.Message := msg_generated |}),
                       with_env p1 e2)
                  end
              end
          end
      end
  end.

(** [func VerifyProof(w http.ResponseWriter, r *http.Request)].  A nil
    verifying key makes the back end panic; no response is written then. *)
Definition VerifyProof (body : json.Body) (p : Process) : Response * Process :=
  let p1 := initializeKeys p in
  match setupErr p1 with
  | Some err =>
      (respondWithError http.StatusInternalServerError
         (String.append "Setup failed: " err), p1)
  | None =>
      match json.Decode json.VerifyRequest_fields models.VerifyRequest.zero body with
      | Err _ => (respondWithError http.StatusBadRequest "Invalid request body", p1)
      | Ok req =>
          let (rd, e1) := groth16.ReadFrom G (models.VerifyRequest.Proof req) (env p1) in
          match rd with
          | Err _ =>
              (respondWithError http.StatusBadRequest "Invalid proof format",
               with_env p1 e1)
          | Ok proof =>
              match verifyingKey p1 with
              | None => (Aborted, with_env p1 e1)
              | Some vk =>
                  let (err, e2) :=
                    circuit.VerifyProof G vk proof (models.VerifyRequest.Sum req) e1 in
                  match err with
                  | Some _ =>
                      (respondWithJSON http.StatusOK
                         (VerifyBody
                            {| models.VerifyResponse.Valid := false;
                               models.VerifyResponse.Message := msg_invalid |}),
                       with_env p1 e2)
                  | None =>
                      (respondWithJSON http.StatusOK
                         (VerifyBody
                            {| models.VerifyResponse.Valid := true;
                               models.VerifyResponse.Message := msg_valid |}),
                       with_env p1 e2)
                  end
              end
          end
      end
  end.

(** [func HealthCheck(w http.ResponseWriter, r *http.Request)] *)
Definition HealthCheck (p : Process) : Response * Process :=
  (respondWithJSON http.StatusOK HealthBody, p).

(** The routes registered in [main]. *)
Inductive Request : Type :=
| PostGenerate (body : json.Body)
| PostVerify (body : json.Body)
| GetHealth.

Definition serve1 (r : Request) (p : Process) : Response * Process :=
  match r with
  | PostGenerate body => GenerateProof body p
  | PostVerify body => VerifyProof body p
  | GetHealth => HealthCheck p
  end.

(** Requests served one after the other. *)
Fixpoint serve (rs : list Request) (p : Process) : list Response * Process :=
  match rs with
  | [] => ([], p)
  | r :: rest =>
      let (resp, p1) := serve1 r p in
      let (resps, p2) := serve rest p1 in
      (resp :: resps, p2)
  end.

(** How often the back end's [Setup] has run. *)
Definition is_setup (ev : groth16.Event G) : bool :=
  match ev with groth16.EvSetup _ _ => true | _ => false end.

Definition setup_runs (p : Process) : nat :=
  List.length (filter is_setup (groth16.trace G (env p))).

End Handlers.

End handlers.

(** ** Concurrent callers of [initializeKeys]

    Goroutines interleave at the granularity of the operations of
    [sync.Once]: [Do] loads the done flag and returns when it is set;
    otherwise [doSlow] takes the mutex, loads the flag again, runs the
    closure, stores the flag and releases the mutex (the two deferred calls,
    in that order).  After [initializeKeys] returns, the handler reads the
    package-level variables. *)
Module concurrent.

Section Interleaving.
Context (G : groth16.Backend).

(** What a handler reads once [initializeKeys] has returned. *)
Definition Snapshot : Type :=
  (option error * option (groth16.ProvingKey G) * option (groth16.VerifyingKey G))%type.

Definition snapshot (p : handlers.Process G) : Snapshot :=
  (handlers.setupErr G p, handlers.provingKey G p, handlers.verifyingKey G p).

(** Where a goroutine stands. *)
Inductive pc : Type :=
| AtDo        (* Do: o.done.Load() *)
| AtLock      (* doSlow: o.m.Lock() *)
| AtRecheck   (* doSlow: o.done.Load(), mutex held *)
| AtCall      (* doSlow: f() *)
| AtStore     (* deferred o.done.Store(1) *)
| AtUnlock    (* deferred o.m.Unlock() *)
| AtRead      (* initializeKeys has returned: the handler reads setupErr and the keys *)
| Seen (s : Snapshot).

Record Config : Type := {
  proc : handlers.Process G;
  mutex : bool;
  threads : list pc
}.

Definition init (seed : nat) (n : nat) : Config :=
  {| proc := handlers.start G seed; mutex := false; threads := repeat AtDo n |}.

Fixpoint update (i : nat) (x : pc) (l : list pc) : list pc :=
  match l, i with
  | [], _ => []
  | _ :: tl, O => x :: tl
  | hd :: tl, S j => hd :: update j x tl
  end.

Definition set_done (p : handlers.Process G) : handlers.Process G :=
  {| handlers.provingKey := handlers.provingKey G p;
     handlers.verifyingKey := handlers.verifyingKey G p;
     handlers.setupOnce := true;
     handlers.setupErr := handlers.setupErr G p;
     handlers.env := handlers.env G p |}.

(** One step of goroutine [i]; [None] when it is blocked on the mutex, has
    finished, or does not exist. *)
Definition step (i : nat) (c : Config) : option Config :=
  let move x := {| proc := proc c; mutex := mutex c; threads := update i x (threads c) |} in
  match nth_error (threads c) i with
  | None => None
  | Some AtDo =>
      Some (move (if handlers.setupOnce G (proc c) then AtRead else AtLock))
  | Some AtLock =>
      if mutex c then None
      else Some {| proc := proc c; mutex := true;
                   threads := update i AtRecheck (threads c) |}
  | Some AtRecheck =>
      Some (move (if handlers.setupOnce G (proc c) then AtUnlock else AtCall))
  | Some AtCall =>
      Some {| proc := handlers.setup_closure G (proc c); mutex := mutex c;
              threads := update i AtStore (threads c) |}
  | Some AtStore =>
      Some {| proc := set_done (proc c); mutex := mutex c;
              threads := update i AtUnlock (threads c) |}
  | Some AtUnlock =>
      Some {| proc := proc c; mutex := false; threads := update i AtRead (threads c) |}
  | Some AtRead => Some (move (Seen (snapshot (proc c))))
  | Some (Seen _) => None
  end.

(** A schedule names the goroutine that is offered the next step; a
    goroutine that cannot move leaves the configuration as it is. *)
Fixpoint run (sched : list nat) (c : Config) : Config :=
  match sched with
  | [] => c
  | i :: rest => run rest (match step i c with Some c1 => c1 | None => c end)
  end.

(** The number of steps actually taken along a schedule. *)
Fixpoint taken (sched : list nat) (c : Config) : nat :=
  match sched with
  | [] => O
  | i :: rest =>
      match step i c with
      | Some c1 => S (taken rest c1)
      | None => taken rest c
      end
  end.

Definition finished (x : pc) : bool :=
  match x with Seen _ => true | _ => false end.

Definition returned (x : pc) : bool :=
  match x with AtRead | Seen _ => true | _ => false end.

Definition in_critical (x : pc) : bool :=
  match x with AtRecheck | AtCall | AtStore | AtUnlock => true | _ => false end.

(** Steps a goroutine has left at most. *)
Definition weight (x : pc) : nat :=
  match x with
  | AtDo => 7 | AtLock => 6 | AtRecheck => 5 | AtCall => 4
  | AtStore => 3 | AtUnlock => 2 | AtRead => 1 | Seen _ => 0
  end%nat.

Definition load (l : list pc) : nat :=
  fold_right (fun x acc => (weight x + acc)%nat) O l.

Definition measure (c : Config) : nat := load (threads c).

(** A goroutine that can move: it has not finished and is not waiting for
    a mutex that is held. *)
Definition enabled (m : bool) (x : pc) : bool :=
  match x with
  | Seen _ => false
  | AtLock => negb m
  | _ => true
  end.

(** *** The invariant of the interleaving *)
Section Invariant.
Context (seed : nat).

(** The three states the process goes through: fresh, closure run, done
    flag stored. *)
Definition fresh : handlers.Process G := handlers.start G seed.
Definition closed : handlers.Process G := handlers.setup_closure G fresh.
Definition settled : handlers.Process G := set_done closed.

Definition critical (l : list pc) : nat := List.length (filter in_critical l).

Definition at_store (x : pc) : bool :=
  match x with AtStore => true | _ => false end.

(** What the position of a goroutine says about the done flag. *)
Definition local_ok (done : bool) (x : pc) : Prop :=
  match x with
  | AtCall | AtStore => done = false
  | AtUnlock | AtRead => done = true
  | Seen s => done = true /\ s = snapshot settled
  | _ => True
  end.

Definition phase_ok (c : Config) : Prop :=
  let p := proc c in
  (handlers.setupOnce G p = true /\ p = settled)
  \/ (handlers.setupOnce G p = false
      /\ existsb at_store (threads c) = true /\ p = closed)
  \/ (handlers.setupOnce G p = false
      /\ existsb at_store (threads c) = false /\ p = fresh).

Record Inv (c : Config) : Prop := {
  inv_mutex : critical (threads c) = if mutex c then 1%nat else 0%nat;
  inv_phase : phase_ok c;
  inv_local : Forall (local_ok (handlers.setupOnce G (proc c))) (threads c)
}.

End Invariant.

End Interleaving.

End concurrent.

(** ** A back end without cryptography

    Keys are the randomness of the setup, a proof records the public inputs
    it was made for and the key it was made with.  It implements the
    contract, and serialises proofs bit by bit. *)
Module mock.

Record proof : Type := { claim : list Z; key : nat }.

Fixpoint enc_pos (p : positive) : list byte :=
  match p with
  | xH => [x01]
  | xO p' => x02 :: enc_pos p'
  | xI p' => x03 :: enc_pos p'
  end.

Fixpoint dec_pos (bs : list byte) : option (positive * list byte) :=
  match bs with
  | x01 :: rest => Some (xH, rest)
  | x02 :: rest =>
      match dec_pos rest with Some (p, r) => Some (xO p, r) | None => None end
  | x03 :: rest =>
      match dec_pos rest with Some (p, r) => Some (xI p, r) | None => None end
  | _ => None
  end.

Definition enc_Z (z : Z) : list byte :=
  match z with
  | Z0 => [x00]
  | Zpos p => x04 :: enc_pos p
  | Zneg p => x05 :: enc_pos p
  end.

Definition dec_Z (bs : list byte) : option (Z * list byte) :=
  match bs with
  | x00 :: rest => Some (0, rest)
  | x04 :: rest =>
      match dec_pos rest with Some (p, r) => Some (Zpos p, r) | None => None end
  | x05 :: rest =>
      match dec_pos rest with Some (p, r) => Some (Zneg p, r) | None => None end
  | _ => None
  end.

Fixpoint enc_list (l : list Z) : list byte :=
  match l with
  | [] => [x00]
  | z :: tl => x06 :: enc_Z z ++ enc_list tl
  end.

Fixpoint dec_list (fuel : nat) (bs : list byte) : option (list Z * list byte) :=
  match fuel with
  | O => None
  | S f =>
      match bs with
      | x00 :: rest => Some ([], rest)
      | x06 :: rest =>
          match dec_Z rest with
          | Some (z, r) =>
              match dec_list f r with
              | Some (tl, r') => Some (z :: tl, r')
              | None => None
              end
          | None => None
          end
      | _ => None
      end
  end.

Definition encode (p : proof) : list byte :=
  enc_Z (Z.of_nat (key p)) ++ enc_list (claim p).

Definition decode (bs : list byte) : result proof :=
  match dec_Z bs with
  | Some (k, r) =>
      if k <? 0 then Err "invalid proof encoding"
      else
        match dec_list (List.length r) r with
        | Some (l, _) => Ok {| claim := l; key := Z.to_nat k |}
        | None => Err "invalid proof encoding"
        end
  | None => Err "invalid proof encoding"
  end.

Definition same_claim (l1 l2 : list Z) : bool :=
  if list_eq_dec Z.eq_dec l1 l2 then true else false.

(** The setup fails when the randomness source yields nothing. *)
Definition setup (ccs : frontend.ConstraintSystem) (n : nat) : result (nat * nat) :=
  match n with
  | O => Err "setup: randomness source exhausted"
  | S _ => Ok (n, n)
  end.

Definition prove (ccs : frontend.ConstraintSystem) (pk : nat) (w : frontend.Witness)
  (n : nat) : result proof :=
  if frontend.IsSolved ccs w
  then Ok {| claim := frontend.PublicPart w; key := pk |}
  else Err "constraint is not satisfied".

Definition verify (p : proof) (vk : nat) (w : frontend.Witness) : option error :=
  if Nat.eqb (key p) vk && same_claim (claim p) (frontend.PublicPart w)
  then None
  else Some "pairing doesn't match".

Definition backend : groth16.Backend :=
  {| groth16.ProvingKey := nat;
     groth16.VerifyingKey := nat;
     groth16.Proof := proof;
     groth16.setup_fn := setup;
     groth16.prove_fn := prove;
     groth16.verify_fn := verify;
     groth16.write_fn := fun p => Ok (encode p);
     groth16.read_fn := decode |}.

(** The same back end with a verifier that breaks down on every call. *)
Definition broken : groth16.Backend :=
  {| groth16.ProvingKey := nat;
     groth16.VerifyingKey := nat;
     groth16.Proof := proof;
     groth16.setup_fn := setup;
     groth16.prove_fn := prove;
     groth16.verify_fn := fun _ _ _ => Some "internal fault: pairing engine unavailable";
     groth16.write_fn := fun p => Ok (encode p);
     groth16.read_fn := decode |}.

End mock.

(** ** Derived notions used in the statements *)

(** The constraint system of the addition circuit: one constraint
    [(A + B) * 1 == Sum] over one public and two secret wires. *)
Definition addition_ccs (q : Z) : frontend.ConstraintSystem :=
  {| frontend.Field := q;
     frontend.NbPublic := 1;
     frontend.NbSecret := 2;
     frontend.Constraints :=
       [ {| frontend.L := [(1, frontend.Sec 0); (1, frontend.Sec 1)];
            frontend.R := [(1, frontend.One)];
            frontend.O := [(1, frontend.Pub 0)] |} ] |}.

(** The full witness of the assignment [A = a, B = b, Sum = sum]. *)
Definition full_witness (q a b sum : Z) : frontend.Witness :=
  {| frontend.PublicPart := [frontend.FromInt q sum];
     frontend.SecretPart := [frontend.FromInt q a; frontend.FromInt q b] |}.

(** The public witness of [Sum = sum]. *)
Definition public_witness (q sum : Z) : frontend.Witness :=
  {| frontend.PublicPart := [frontend.FromInt q sum]; frontend.SecretPart := [] |}.

Definition bn254_ccs : frontend.ConstraintSystem := addition_ccs ecc.BN254_ScalarField.

(** The process states that arise: a fresh start followed by requests. *)
Definition reachable (G : groth16.Backend) (p : handlers.Process G) : Prop :=
  exists seed rs, p = snd (handlers.serve G rs (handlers.start G seed)).

(** The keys of a process come from [Setup] on the addition circuit. *)
Definition keys_from_setup (G : groth16.Backend) (p : handlers.Process G) : Prop :=
  handlers.setupOnce G p = true ->
  handlers.setupErr G p = None ->
  exists n pk vk,
    groth16.setup_fn G bn254_ccs n = Ok (pk, vk)
    /\ handlers.provingKey G p = Some pk
    /\ handlers.verifyingKey G p = Some vk.

Definition ProofRequest_of (a b sum : Z) : models.ProofRequest.t :=
  {| models.ProofRequest.A := a; models.ProofRequest.B := b;
     models.ProofRequest.Sum := sum |}.

Definition VerifyRequest_of (data : list byte) (sum : Z) : models.VerifyRequest.t :=
  {| models.VerifyRequest.Proof := data; models.VerifyRequest.Sum := sum |}.

Definition decodes_generate (body : json.Body) (a b sum : Z) : Prop :=
  json.Decode json.ProofRequest_fields models.ProofRequest.zero body
  = Ok (ProofRequest_of a b sum).

Definition decodes_verify (body : json.Body) (data : list byte) (sum : Z) : Prop :=
  json.Decode json.VerifyRequest_fields models.VerifyRequest.zero body
  = Ok (VerifyRequest_of data sum).

Definition setup_failed_response (err : error) : handlers.Response :=
  handlers.Respond 500 (handlers.ErrorBody (String.append "Setup failed: " err)).

Definition valid_response : handlers.Response :=
  handlers.Respond 200
    (handlers.VerifyBody
       {| models.VerifyResponse.Valid := true;
          models.VerifyResponse.Message := handlers.msg_valid |}).

Definition invalid_response : handlers.Response :=
  handlers.Respond 200
    (handlers.VerifyBody
       {| models.VerifyResponse.Valid := false;
          models.VerifyResponse.Message := handlers.msg_invalid |}).

Definition proof_response (data : list byte) (sum : Z) : handlers.Response :=
  handlers.Respond 200
    (handlers.ProofBody
       {| models.ProofResponse.Proof := data;
          models.ProofResponse.Sum := sum;
          models.ProofResponse.Message := handlers.msg_generated |}).

(** ** Concrete requests used as examples *)

Definition number (z : Z) : json.Value := json.Num (json.Integer z).

Definition generate_body (a b sum : Z) : json.Body :=
  Some (json.Object [("a", number a); ("b", number b); ("sum", number sum)]).

Definition verify_body (proof64 : string) (sum : Z) : json.Body :=
  Some (json.Object [("proof", json.Str proof64); ("sum", number sum)]).

(** The body [{}]. *)
Definition empty_object : json.Body := Some (json.Object []).

(** What the back end without cryptography issues for the public sum 8
    under the key 1, and its base64 form. *)
Definition proof_of_8 : list byte := [x04; x01; x06; x04; x02; x02; x02; x01; x00].
Definition proof_of_8_base64 : string := "BAEGBAICAgEA".

(** Bytes that are no proof encoding, in base64 ("hello"). *)
Definition garbage_base64 : string := "aGVsbG8=".

Definition garbage : list byte := [x68; x65; x6c; x6c; x6f].

(** ** Malformed request bodies, stated on the JSON value *)

(** The Go type of a request field. *)
Inductive Kind : Type :=
| KInt
| KBytes.

Definition ill_typed_elem (v : json.Value) : bool :=
  match v with
  | json.Null => false
  | json.Num (json.Integer z) => negb ((0 <=? z) && (z <=? 255))
  | json.Num json.NegZero => true
  | _ => true
  end.

(** A value that cannot be stored in a field of the given Go type; [null]
    is accepted by every field. *)
Definition ill_typed (k : Kind) (v : json.Value) : bool :=
  match k, v with
  | _, json.Null => false
  | KInt, json.Num (json.Integer z) => negb (is_int z)
  | KInt, json.Num json.NegZero => false
  | KInt, _ => true
  | KBytes, json.Str s =>
      match base64.DecodeString s with Some _ => false | None => true end
  | KBytes, json.Array elems => existsb ill_typed_elem elems
  | KBytes, _ => true
  end.

Definition Schema : Type := list (string * Kind).

Definition schema_generate : Schema := [("a", KInt); ("b", KInt); ("sum", KInt)].
Definition schema_verify : Schema := [("proof", KBytes); ("sum", KInt)].

Fixpoint kind_of (key : string) (schema : Schema) : option Kind :=
  match schema with
  | [] => None
  | (name, k) :: rest => if json.matches key name then Some k else kind_of key rest
  end.

Definition bad_member (schema : Schema) (m : string * json.Value) : bool :=
  match kind_of (fst m) schema with
  | Some k => ill_typed k (snd m)
  | None => false
  end.

(** A body is malformed for an endpoint when no JSON value can be scanned
    at its head, when that first value is neither an object nor [null], or
    when it is an object with an ill-typed value under the name of a field
    of that endpoint's request struct.  What follows the first value is not
    read, members naming no field of that struct are skipped, and absent
    fields do not count. *)
Definition malformed (schema : Schema) (body : json.Body) : bool :=
  match body with
  | None => true
  | Some json.Null => false
  | Some (json.Object members) => existsb (bad_member schema) members
  | Some _ => true
  end.

Definition bad_request_response : handlers.Response :=
  handlers.Respond 400 (handlers.ErrorBody "Invalid request body").

Definition bad_proof_response : handlers.Response :=
  handlers.Respond 400 (handlers.ErrorBody "Invalid proof format").

(** The constraint system a call into the back end was given, if any. *)
Definition uses_addition_ccs (G : groth16.Backend) (ev : groth16.Event G) : Prop :=
  match ev with
  | groth16.EvSetup _ ccs => ccs = bn254_ccs
  | groth16.EvProve _ ccs _ _ => ccs = bn254_ccs
  | _ => True
  end.

(** The constraint system a call to [Setup] or [Prove] was given is [ccs]. *)
Definition given_system (G : groth16.Backend) (ccs : frontend.ConstraintSystem)
  (ev : groth16.Event G) : Prop :=
  match ev with
  | groth16.EvSetup _ c => c = ccs
  | groth16.EvProve _ c _ _ => c = ccs
  | _ => True
  end.

(** The decoded values of a generate request are Go [int] values. *)
Definition int_request (r : models.ProofRequest.t) : Prop :=
  is_int (models.ProofRequest.A r) = true
  /\ is_int (models.ProofRequest.B r) = true
  /\ is_int (models.ProofRequest.Sum r) = true.

(** Two process states hold the same package-level variables. *)
Definition same_globals (G : groth16.Backend) (p p' : handlers.Process G) : Prop :=
  handlers.provingKey G p' = handlers.provingKey G p
  /\ handlers.verifyingKey G p' = handlers.verifyingKey G p
  /\ handlers.setupOnce G p' = handlers.setupOnce G p
  /\ handlers.setupErr G p' = handlers.setupErr G p.

Definition prove_failed_response : handlers.Response :=
  handlers.Respond 500 (handlers.ErrorBody "Failed to generate proof").

(** The answer to a request in a process whose setup has failed. *)
Definition answer_when_failed (err : error) (r : handlers.Request)
  (resp : handlers.Response) : Prop :=
  match r with
  | handlers.GetHealth => resp = handlers.Respond 200 handlers.HealthBody
  | _ => resp = setup_failed_response err
  end.

(** A process whose setup has failed: the randomness source gave nothing. *)
Definition failed_process : handlers.Process mock.backend :=
  snd (handlers.GenerateProof mock.backend (generate_body 5 3 8)
         (handlers.start mock.backend 0)).

(** ** encoding/base64 and encoding/json: the encoding direction *)
Module wire.

(** The alphabet of [base64.StdEncoding]. *)
Definition alphabet (n : N) : ascii :=
  ascii_of_N
    (if n <? 26 then 65 + n
     else if n <? 52 then 71 + n
     else if n <? 62 then n - 4
     else if n =? 62 then 43
     else 47)%N.

Definition pad : ascii := ascii_of_N 61.

(** Three bytes at a time; the last quantum is padded. *)
Fixpoint encode_quanta (bs : list byte) : list ascii :=
  match bs with
  | [] => []
  | [b0] =>
      let n0 := Byte.to_N b0 in
      [alphabet (n0 / 4); alphabet ((n0 mod 4) * 16); pad; pad]%N
  | [b0; b1] =>
      let n0 := Byte.to_N b0 in
      let n1 := Byte.to_N b1 in
      [alphabet (n0 / 4); alphabet ((n0 mod 4) * 16 + n1 / 16);
       alphabet ((n1 mod 16) * 4); pad]%N
  | b0 :: b1 :: b2 :: rest =>
      let n0 := Byte.to_N b0 in
      let n1 := Byte.to_N b1 in
      let n2 := Byte.to_N b2 in
      (alphabet (n0 / 4) :: alphabet ((n0 mod 4) * 16 + n1 / 16)
       :: alphabet ((n1 mod 16) * 4 + n2 / 64) :: alphabet (n2 mod 64)
       :: encode_quanta rest)%N
  end.

(** [base64.StdEncoding.EncodeToString] *)
Definition EncodeToString (bs : list byte) : string :=
  string_of_list_ascii (encode_quanta bs).

(** How [encoding/json] writes a [[]byte]: the nil slice as [null], any
    other as a base64 string. *)
Definition of_bytes (bs : list byte) : json.Value :=
  match bs with
  | [] => json.Null
  | _ => json.Str (EncodeToString bs)
  end.

(** [json.NewEncoder(w).Encode(payload)] for the payloads the handlers
    pass: the three response structs with their [json:"..."] names, and the
    two string maps, whose keys are written in sorted order. *)
Definition of_payload (p : handlers.Payload) : json.Value :=
  match p with
  | handlers.ErrorBody message => json.Object [("error", json.Str message)]
  | handlers.ProofBody r =>
      json.Object
        [("proof", of_bytes (models.ProofResponse.Proof r));
         ("sum", json.Num (json.Integer (models.ProofResponse.Sum r)));
         ("message", json.Str (models.ProofResponse.Message r))]
  | handlers.VerifyBody r =>
      json.Object
        [("valid", json.Bool (models.VerifyResponse.Valid r));
         ("message", json.Str (models.VerifyResponse.Message r))]
  | handlers.HealthBody =>
      json.Object [("service", json.Str "zkp-api"); ("status", json.Str "healthy")]
  end.

End wire.

(** ** net/http: requests, response writers and handlers *)
Module web.

(** [http.Header], for keys in canonical form. *)
Definition Header : Type := list (string * string).

(** [Header.Set]: the value replaces whatever the key held. *)
Definition Header_Set (k v : string) (h : Header) : Header :=
  (k, v) :: filter (fun kv => negb (String.eqb (fst kv) k)) h.

Fixpoint Header_Get (k : string) (h : Header) : option string :=
  match h with
  | [] => None
  | (k', v) :: rest => if String.eqb k' k then Some v else Header_Get k rest
  end.

Inductive Content : Type :=
| NoContent
| JSON (v : json.Value)
| Text (s : string).

(** An [http.ResponseWriter]: the header map the handler edits, the status
    line with the headers as they stood when it was written, the body, and
    whether the handler panicked. *)
Record ResponseWriter : Type := {
  header : Header;
  sent : option (Z * Header);
  content : Content;
  panicked : bool
}.

Definition fresh_writer : ResponseWriter :=
  {| header := []; sent := None; content := NoContent; panicked := false |}.

(** [w.Header().Set(k, v)] *)
Definition Set_ (k v : string) (w : ResponseWriter) : ResponseWriter :=
  {| header := Header_Set k v (header w); sent := sent w; content := content w;
     panicked := panicked w |}.

(** [w.WriteHeader(status)]: only the first call counts. *)
Definition WriteHeader (status : Z) (w : ResponseWriter) : ResponseWriter :=
  match sent w with
  | Some _ => w
  | None =>
      {| header := header w; sent := Some (status, header w); content := content w;
         panicked := panicked w |}
  end.

(** Writing the body, with the implicit [WriteHeader(200)]. *)
Definition Write (c : Content) (w : ResponseWriter) : ResponseWriter :=
  let w1 := WriteHeader http.StatusOK w in
  {| header := header w1; sent := sent w1; content := c; panicked := panicked w1 |}.

(** [http.Error(w, message, code)] *)
Definition Error (message : string) (code : Z) (w : ResponseWriter) : ResponseWriter :=
  Write (Text (String.append message (String (ascii_of_N 10) EmptyString)))
    (WriteHeader code
       (Set_ "X-Content-Type-Options" "nosniff"
          (Set_ "Content-Type" "text/plain; charset=utf-8" w))).

Definition panic (w : ResponseWriter) : ResponseWriter :=
  {| header := header w; sent := sent w; content := content w; panicked := true |}.

(** The part of an [*http.Request] the service reads. *)
Record Request : Type := {
  Method : string;
  Path : string;
  Body : json.Body
}.

Definition status (w : ResponseWriter) : option Z :=
  match sent w with Some (s, _) => Some s | None => None end.

Definition sent_headers (w : ResponseWriter) : Header :=
  match sent w with Some (_, h) => h | None => [] end.

Section Handlers.
Context (G : groth16.Backend).

(** An [http.Handler] of the process. *)
Definition Handler : Type :=
  Request -> ResponseWriter -> handlers.Process G -> ResponseWriter * handlers.Process G.

(** What [respondWithJSON] does to the writer: the content type, the
    status line, the encoded payload. *)
Definition write_response (resp : handlers.Response) (w : ResponseWriter)
  : ResponseWriter :=
  match resp with
  | handlers.Respond status payload =>
      Write (JSON (wire.of_payload payload))
        (WriteHeader status (Set_ "Content-Type" "application/json" w))
  | handlers.Aborted => panic w
  end.

(** The three handler functions as [http.Handler]s. *)
Definition GenerateProof : Handler :=
  fun r w p =>
    let (resp, p1) := handlers.GenerateProof G (Body r) p in (write_response resp w, p1).

Definition VerifyProof : Handler :=
  fun r w p =>
    let (resp, p1) := handlers.VerifyProof G (Body r) p in (write_response resp w, p1).

Definition HealthCheck : Handler :=
  fun r w p =>
    let (resp, p1) := handlers.HealthCheck G p in (write_response resp w, p1).

End Handlers.

End web.

(** ** gorilla/mux, as far as [main] uses it *)
Module mux.

Definition slash : ascii := ascii_of_N 47.
Definition dot : ascii := ascii_of_N 46.

Definition is_slash (c : ascii) : bool := Ascii.eqb c slash.

(** The path elements between slashes. *)
Fixpoint elements (cs cur : list ascii) : list (list ascii) :=
  match cs with
  | [] => [rev cur]
  | c :: rest =>
      if is_slash c then rev cur :: elements rest [] else elements rest (c :: cur)
  end.

Definition same_chars (x y : list ascii) : bool :=
  if list_eq_dec ascii_dec x y then true else false.

(** One element of a rooted path: empty elements and [.] are dropped, [..]
    drops the element before it, if there is one. *)
Definition clean_element (kept : list (list ascii)) (e : list ascii)
  : list (list ascii) :=
  if same_chars e [] then kept
  else if same_chars e [dot] then kept
  else if same_chars e [dot; dot] then tl kept
  else e :: kept.

Fixpoint join (es : list (list ascii)) : list ascii :=
  match es with
  | [] => []
  | [e] => e
  | e :: rest => e ++ slash :: join rest
  end.

(** [path.Clean] on a rooted path. *)
Definition Clean_rooted (p : list ascii) : list ascii :=
  slash :: join (rev (fold_left clean_element (elements p []) [])).

(** [cleanPath]: the canonical form of a request path, keeping a trailing
    slash. *)
Definition cleanPath (path : string) : string :=
  match list_ascii_of_string path with
  | [] => "/"
  | c :: cs =>
      let p := if is_slash c then c :: cs else slash :: c :: cs in
      let np := Clean_rooted p in
      string_of_list_ascii
        (if is_slash (last p slash) && negb (same_chars np [slash])
         then np ++ [slash] else np)
  end.

Section Routing.
Context (G : groth16.Backend).

(** A route built by [HandleFunc(path, f).Methods(...)]. *)
Record Route : Type := {
  template : string;
  methods : list string;
  handler : web.Handler G
}.

(** A router with its routes and the middlewares given to [Use]. *)
Record Router : Type := {
  routes : list Route;
  middlewares : list (web.Handler G -> web.Handler G)
}.

Inductive RouteMatch : Type :=
| Matched (h : web.Handler G)
| MethodMismatch
| NotFound.

Definition allows (rt : Route) (method : string) : bool :=
  existsb (String.eqb method) (methods rt).

(** The first route whose path and method both match wins; a route whose
    path alone matches leaves a method mismatch behind. *)
Fixpoint match_routes (rts : list Route) (r : web.Request) (mismatch : bool)
  : RouteMatch :=
  match rts with
  | [] => if mismatch then MethodMismatch else NotFound
  | rt :: rest =>
      if String.eqb (web.Path r) (template rt)
      then if allows rt (web.Method r) then Matched (handler rt)
           else match_routes rest r true
      else match_routes rest r mismatch
  end.

(** The middlewares wrap the handler of a matched route, the first one
    outermost. *)
Definition wrap (mws : list (web.Handler G -> web.Handler G)) (h : web.Handler G)
  : web.Handler G :=
  fold_right (fun mw acc => mw acc) h mws.

(** [Router.ServeHTTP]: a path that is not clean is redirected; a matched
    route runs behind the middlewares; a method mismatch is answered 405 and
    anything else 404, both without the middlewares. *)
Definition ServeHTTP (rt : Router) : web.Handler G :=
  fun r w p =>
    let cp := cleanPath (web.Path r) in
    if negb (String.eqb cp (web.Path r))
    then (web.WriteHeader 301 (web.Set_ "Location" cp w), p)
    else
      match match_routes (routes rt) r false with
      | Matched h => wrap (middlewares rt) h r w p
      | MethodMismatch => (web.WriteHeader 405 w, p)
      | NotFound => (web.Error "404 page not found" 404 w, p)
      end.

End Routing.

End mux.

(** ** cmd/server *)
Module server.

Section Main.
Context (G : groth16.Backend).

(** [func corsMiddleware(next http.Handler) http.Handler] *)
Definition corsMiddleware (next : web.Handler G) : web.Handler G :=
  fun r w p =>
    let w1 := web.Set_ "Access-Control-Allow-Origin" "*" w in
    let w2 := web.Set_ "Access-Control-Allow-Methods" "GET, POST, OPTIONS" w1 in
    let w3 := web.Set_ "Access-Control-Allow-Headers" "Content-Type, Authorization" w2 in
    if String.eqb (web.Method r) "OPTIONS"
    then (web.WriteHeader http.StatusOK w3, p)
    else next r w3 p.

(** The router [main] builds. *)
Definition router : mux.Router G :=
  {| mux.routes :=
       [ {| mux.template := "/api/proof/generate"; mux.methods := ["POST"];
            mux.handler := web.GenerateProof G |};
         {| mux.template := "/api/proof/verify"; mux.methods := ["POST"];
            mux.handler := web.VerifyProof G |};
         {| mux.template := "/health"; mux.methods := ["GET"];
            mux.handler := web.HealthCheck G |} ];
     mux.middlewares := [corsMiddleware] |}.

End Main.

(** The headers [corsMiddleware] sets. *)
Definition cors_headers : web.Header :=
  [ ("Access-Control-Allow-Headers", "Content-Type, Authorization");
    ("Access-Control-Allow-Methods", "GET, POST, OPTIONS");
    ("Access-Control-Allow-Origin", "*") ].

End server.

(** ** Notions used in the further statements *)

(** A request that reaches one of the two proof handlers. *)
Definition is_proof_request (r : handlers.Request) : bool :=
  match r with
  | handlers.GetHealth => false
  | _ => true
  end.

(** A member of a JSON object whose key names a field of the table. *)
Definition known_member {T} (fields : json.FieldTable T) (m : string * json.Value)
  : bool :=
  match json.lookup (fst m) fields with Some _ => true | None => false end.

Definition serialize_failed_response : handlers.Response :=
  handlers.Respond 500 (handlers.ErrorBody "Failed to serialize proof").

(** The numbers below 64. *)
Definition sextets : list N := map N.of_nat (seq 0 64).

(** A request was answered, with one of the three status codes the
    handlers use. *)
Definition answered (resp : handlers.Response) : Prop :=
  match resp with
  | handlers.Respond s _ => s = 200 \/ s = 400 \/ s = 500
  | handlers.Aborted => False
  end.

(** The calls into the back end a generate request with this body adds to
    the trace, in a process [p1] that has been through [initializeKeys]:
    none unless the setup succeeded and the body decodes; then [Prove] on the
    addition system with the proving key of the process, the witness of the
    decoded values and the next randomness, followed by [WriteTo] on the
    proof when [Prove] returned one. *)
Definition generate_calls (G : groth16.Backend) (p1 : handlers.Process G)
  (body : json.Body) : list (groth16.Event G) :=
  match handlers.setupErr G p1,
        json.Decode json.ProofRequest_fields models.ProofRequest.zero body,
        handlers.provingKey G p1 with
  | None, Ok req, Some pk =>
      let w := full_witness ecc.BN254_ScalarField (models.ProofRequest.A req)
                 (models.ProofRequest.B req) (models.ProofRequest.Sum req) in
      match groth16.prove_fn G bn254_ccs pk w (groth16.entropy G (handlers.env G p1)) with
      | Ok proof => [groth16.EvProve G bn254_ccs pk w; groth16.EvWriteTo G proof]
      | Err _ => [groth16.EvProve G bn254_ccs pk w]
      end
  | _, _, _ => []
  end.

(** The calls a verify request with this body adds: none unless the setup
    succeeded and the body decodes; then [ReadFrom] on the decoded proof
    bytes, followed, when they deserialise, by [Verify] on the proof read,
    the verifying key of the process and the public witness of the decoded
    sum. *)
Definition verify_calls (G : groth16.Backend) (p1 : handlers.Process G)
  (body : json.Body) : list (groth16.Event G) :=
  match handlers.setupErr G p1,
        json.Decode json.VerifyRequest_fields models.VerifyRequest.zero body with
  | None, Ok req =>
      let data := models.VerifyRequest.Proof req in
      match groth16.read_fn G data, handlers.verifyingKey G p1 with
      | Ok proof, Some vk =>
          [groth16.EvReadFrom G data;
           groth16.EvVerify G proof vk
             (public_witness ecc.BN254_ScalarField (models.VerifyRequest.Sum req))]
      | _, _ => [groth16.EvReadFrom G data]
      end
  | _, _ => []
  end.

Definition proves_or_writes (G : groth16.Backend) (ev : groth16.Event G) : bool :=
  match ev with
  | groth16.EvProve _ _ _ _ | groth16.EvWriteTo _ _ => true
  | _ => false
  end.

Definition reads_or_verifies (G : groth16.Backend) (ev : groth16.Event G) : bool :=
  match ev with
  | groth16.EvReadFrom _ _ | groth16.EvVerify _ _ _ _ => true
  | _ => false
  end.

(** The writer after a preflight request went through [corsMiddleware]. *)
Definition preflight_writer : web.ResponseWriter :=
  {| web.header := server.cors_headers;
     web.sent := Some (200, server.cors_headers);
     web.content := web.NoContent;
     web.panicked := false |}.

(** The writer after a handler answered behind [corsMiddleware]. *)
Definition json_writer (status : Z) (payload : handlers.Payload) : web.ResponseWriter :=
  {| web.header := ("Content-Type", "application/json") :: server.cors_headers;
     web.sent := Some (status, ("Content-Type", "application/json") :: server.cors_headers);
     web.content := web.JSON (wire.of_payload payload);
     web.panicked := false |}.

(** A handler that answers with what [f] returns, through [respondWithJSON]. *)
Definition answers_with (G : groth16.Backend) (next : web.Handler G)
  (f : web.Request -> handlers.Process G -> handlers.Response * handlers.Process G)
  : Prop :=
  forall r w p, next r w p = (web.write_response (fst (f r p)) w, snd (f r p)).

Definition request (method path : string) (body : json.Body) : web.Request :=
  {| web.Method := method; web.Path := path; web.Body := body |}.

(** The requests that reach one of the two proof handlers through the
    router. *)
Definition reaches_proof_handler (r : web.Request) : Prop :=
  web.Method r = "POST"
  /\ (web.Path r = "/api/proof/generate" \/ web.Path r = "/api/proof/verify").

(** The three handlers [main] registers, each with the function it runs. *)
Definition served_handlers (G : groth16.Backend)
  : list (web.Handler G
          * (web.Request -> handlers.Process G -> handlers.Response * handlers.Process G)) :=
  [ (web.GenerateProof G, fun r => handlers.GenerateProof G (web.Body r));
    (web.VerifyProof G, fun r => handlers.VerifyProof G (web.Body r));
    (web.HealthCheck G, fun _ => handlers.HealthCheck G) ].

(** * Properties *)

(** ** The front end on the addition circuit *)

Lemma q_large : 2 ^ 66 < ecc.BN254_ScalarField.
Proof. reflexivity. Qed.

Lemma is_int_bounds (z : Z) : is_int z = true -> - 2 ^ 63 <= z < 2 ^ 63.
Proof.
  unfold is_int, MinInt64, MaxInt64.
  rewrite andb_true_iff, !Z.leb_le. lia.
Qed.

(** Go's addition agrees with integer addition when the sum is in range. *)
Lemma wrap_int_id (z : Z) : is_int z = true -> wrap_int z = z.
Proof.
  intros H. apply is_int_bounds in H. unfold wrap_int.
  assert (H64 : 2 ^ 64 = 2 * 2 ^ 63) by reflexivity.
  rewrite Z.mod_small by lia. lia.
Qed.

(** Compilation depends on the shape of the circuit only. *)
Lemma Compile_shape (q : Z) (c : circuit.AdditionCircuit) :
  frontend.Compile q c = Ok (addition_ccs q).
Proof. destruct c; reflexivity. Qed.

Lemma NewWitness_full (q a b sum : Z) :
  frontend.NewWitness
    {| circuit.A := frontend.Int a; circuit.B := frontend.Int b;
       circuit.Sum := frontend.Int sum |} q false
  = Ok (full_witness q a b sum).
Proof. reflexivity. Qed.

Lemma NewWitness_public (q : Z) (x y : frontend.Var) (sum : Z) :
  frontend.NewWitness
    {| circuit.A := x; circuit.B := y; circuit.Sum := frontend.Int sum |} q true
  = Ok (public_witness q sum).
Proof. reflexivity. Qed.

Lemma PublicOf_full (q a b sum : Z) :
  frontend.PublicOf (full_witness q a b sum) = public_witness q sum.
Proof. reflexivity. Qed.

(** The constraint is equality in the field. *)
Lemma IsSolved_field (q a b sum : Z) :
  1 < q ->
  frontend.IsSolved (addition_ccs q) (full_witness q a b sum)
  = ((a + b - sum) mod q =? 0).
Proof.
  intros Hq.
  unfold frontend.IsSolved, addition_ccs, full_witness, frontend.holds, frontend.FromInt.
  cbn [frontend.PublicPart frontend.SecretPart frontend.NbPublic frontend.NbSecret
       frontend.Constraints frontend.Field frontend.L frontend.R frontend.O
       List.length Nat.eqb forallb andb frontend.eval frontend.wire_value nth].
  rewrite !Z.mul_1_l, !Z.add_0_r, andb_true_r.
  rewrite (Z.mod_small 1 q) by lia.
  rewrite Z.mul_1_r, !Z.mod_mod by lia.
  rewrite <- Zplus_mod.
  destruct (Z.eqb_spec ((a + b) mod q) (sum mod q)) as [E | E];
    destruct (Z.eqb_spec ((a + b - sum) mod q) 0) as [F | F]; try reflexivity; exfalso.
  - apply F. rewrite Zminus_mod, E, Z.sub_diag. apply Z.mod_0_l. lia.
  - apply E.
    replace (a + b) with ((a + b - sum) + sum) by ring.
    rewrite Zplus_mod, F, Z.add_0_l, Z.mod_mod by lia. reflexivity.
Qed.

(** On Go [int] values the field relation is the integer relation. *)
Lemma IsSolved_int (a b sum : Z) :
  is_int a = true -> is_int b = true -> is_int sum = true ->
  frontend.IsSolved bn254_ccs (full_witness ecc.BN254_ScalarField a b sum)
  = (a + b =? sum).
Proof.
  intros Ha Hb Hs.
  apply is_int_bounds in Ha, Hb, Hs.
  pose proof q_large as Hq.
  unfold bn254_ccs. rewrite IsSolved_field by lia.
  set (q := ecc.BN254_ScalarField) in *.
  assert (H66 : 2 ^ 66 = 4 * 2 ^ 64) by reflexivity.
  assert (H63 : 2 ^ 64 = 2 * 2 ^ 63) by reflexivity.
  destruct (Z.eqb_spec (a + b) sum) as [E | E].
  - subst sum. rewrite Z.sub_diag, Z.mod_0_l by lia. reflexivity.
  - apply Z.eqb_neq. intro F.
    apply Z.mod_divide in F; [| lia].
    destruct F as [k Hk].
    assert (k = 0) by nia.
    subst k. lia.
Qed.

(** Distinct Go [int] values are distinct field elements. *)
Lemma FromInt_injective (x y : Z) :
  is_int x = true -> is_int y = true ->
  frontend.FromInt ecc.BN254_ScalarField x = frontend.FromInt ecc.BN254_ScalarField y ->
  x = y.
Proof.
  intros Hx Hy E.
  apply is_int_bounds in Hx, Hy.
  pose proof q_large as Hq.
  unfold frontend.FromInt in E.
  set (q := ecc.BN254_ScalarField) in *.
  assert (H66 : 2 ^ 66 = 4 * 2 ^ 64) by reflexivity.
  assert (H63 : 2 ^ 64 = 2 * 2 ^ 63) by reflexivity.
  assert (F : (x - y) mod q = 0).
  { rewrite Zminus_mod, E, Z.sub_diag. apply Z.mod_0_l. lia. }
  apply Z.mod_divide in F; [| lia].
  destruct F as [k Hk].
  assert (k = 0) by nia.
  subst k. lia.
Qed.

(** ** Decoding request bodies *)

Lemma into_int_range (v : json.Value) (old x : Z) :
  is_int old = true -> json.into_int v old = Ok x -> is_int x = true.
Proof.
  intros Hold H.
  destruct v as [| b | [z | |] | s | l | m]; simpl in H; try discriminate.
  - inversion H; subst; assumption.
  - destruct (is_int z) eqn:Hz; [inversion H; subst; assumption | discriminate].
  - inversion H; subst; reflexivity.
Qed.

Ltac by_key key :=
  cbn [json.lookup json.ProofRequest_fields json.VerifyRequest_fields];
  destruct (json.matches key "a");
  [| destruct (json.matches key "b");
     [| destruct (json.matches key "sum") ] ].

Lemma object_ProofRequest_range (members : list (string * json.Value)) :
  forall acc r,
    int_request acc ->
    json.object json.ProofRequest_fields members acc = Ok r ->
    int_request r.
Proof.
  induction members as [| [key v] rest IH]; intros acc r Hacc H.
  - simpl in H. inversion H; subst; assumption.
  - destruct Hacc as (Ha & Hb & Hs).
    cbn [json.object] in H. revert H. by_key key; intros H.
    + unfold json.mapr in H.
      destruct (json.into_int v (models.ProofRequest.A acc)) eqn:E; [| discriminate].
      apply IH in H; [assumption |].
      repeat split; cbn; eauto using into_int_range.
    + unfold json.mapr in H.
      destruct (json.into_int v (models.ProofRequest.B acc)) eqn:E; [| discriminate].
      apply IH in H; [assumption |].
      repeat split; cbn; eauto using into_int_range.
    + unfold json.mapr in H.
      destruct (json.into_int v (models.ProofRequest.Sum acc)) eqn:E; [| discriminate].
      apply IH in H; [assumption |].
      repeat split; cbn; eauto using into_int_range.
    + apply IH in H; [assumption | repeat split; assumption].
Qed.

(** Every request the generate handler decodes carries Go [int] values. *)
Lemma decodes_generate_range (body : json.Body) (a b sum : Z) :
  decodes_generate body a b sum ->
  is_int a = true /\ is_int b = true /\ is_int sum = true.
Proof.
  unfold decodes_generate, json.Decode. intros H.
  assert (Z0 : int_request models.ProofRequest.zero) by (repeat split; reflexivity).
  destruct body as [[| b0 | n | s | l | m] |]; try discriminate.
  - inversion H; subst. repeat split; reflexivity.
  - apply object_ProofRequest_range in H; [exact H | exact Z0].
Qed.

Lemma object_VerifyRequest_range (members : list (string * json.Value)) :
  forall acc r,
    is_int (models.VerifyRequest.Sum acc) = true ->
    json.object json.VerifyRequest_fields members acc = Ok r ->
    is_int (models.VerifyRequest.Sum r) = true.
Proof.
  induction members as [| [key v] rest IH]; intros acc r Hacc H.
  - simpl in H. inversion H; subst; assumption.
  - cbn [json.object json.lookup json.VerifyRequest_fields] in H. revert H.
    destruct (json.matches key "proof"); [| destruct (json.matches key "sum")]; intros H.
    + unfold json.mapr in H.
      destruct (json.into_bytes v (models.VerifyRequest.Proof acc)) eqn:E;
        [| discriminate].
      apply IH in H; assumption.
    + unfold json.mapr in H.
      destruct (json.into_int v (models.VerifyRequest.Sum acc)) eqn:E; [| discriminate].
      apply IH in H; [assumption |]. cbn. eauto using into_int_range.
    + apply IH in H; assumption.
Qed.

Lemma decodes_verify_range (body : json.Body) (data : list byte) (sum : Z) :
  decodes_verify body data sum -> is_int sum = true.
Proof.
  unfold decodes_verify, json.Decode. intros H.
  destruct body as [[| b0 | n | s | l | m] |]; try discriminate.
  - inversion H; subst. reflexivity.
  - apply object_VerifyRequest_range in H; [exact H | reflexivity].
Qed.

(** ** The handlers, step by step *)
Section HandlerFacts.
Context (G : groth16.Backend).

Local Abbreviation Process := (handlers.Process G).
Local Abbreviation initializeKeys := (handlers.initializeKeys G).
Local Abbreviation setupErr := (handlers.setupErr G).
Local Abbreviation setupOnce := (handlers.setupOnce G).
Local Abbreviation provingKey := (handlers.provingKey G).
Local Abbreviation verifyingKey := (handlers.verifyingKey G).
Local Abbreviation env := (handlers.env G).
Local Abbreviation q := ecc.BN254_ScalarField.

Lemma same_globals_refl (p : Process) : same_globals G p p.
Proof. repeat split. Qed.

Lemma same_globals_trans (p1 p2 p3 : Process) :
  same_globals G p1 p2 -> same_globals G p2 p3 -> same_globals G p1 p3.
Proof.
  intros (A1 & B1 & C1 & D1) (A2 & B2 & C2 & D2).
  repeat split; congruence.
Qed.

Lemma same_globals_with_env (p : Process) (e : groth16.Env G) :
  same_globals G p (handlers.with_env G p e).
Proof. repeat split. Qed.

Lemma Setup_run (e : groth16.Env G) :
  circuit.Setup G e
  = (groth16.setup_fn G bn254_ccs (groth16.entropy G e),
     groth16.draw G (groth16.emit G (groth16.EvSetup G bn254_ccs) e)).
Proof.
  unfold circuit.Setup. rewrite Compile_shape.
  unfold groth16.bind, groth16.Setup, groth16.ret. fold bn254_ccs.
  destruct (groth16.setup_fn G bn254_ccs (groth16.entropy G e)) as [[pk vk] | err];
    reflexivity.
Qed.

Lemma initializeKeys_done (p : Process) : setupOnce (initializeKeys p) = true.
Proof.
  unfold handlers.initializeKeys, handlers.Once_Do.
  destruct (setupOnce p) eqn:E; [exact E | reflexivity].
Qed.

Lemma initializeKeys_idle (p : Process) :
  setupOnce p = true -> initializeKeys p = p.
Proof.
  intros H. unfold handlers.initializeKeys, handlers.Once_Do. rewrite H. reflexivity.
Qed.

Lemma initializeKeys_keys (p : Process) :
  keys_from_setup G p -> keys_from_setup G (initializeKeys p).
Proof.
  intros Hp. destruct (setupOnce p) eqn:E.
  - rewrite initializeKeys_idle by exact E. exact Hp.
  - unfold handlers.initializeKeys, handlers.Once_Do, handlers.setup_closure.
    rewrite E, Setup_run.
    destruct (groth16.setup_fn G bn254_ccs (groth16.entropy G (env p)))
      as [[pk vk] | err] eqn:F; intros _ Herr; cbn in *.
    + exists (groth16.entropy G (env p)), pk, vk. repeat split. exact F.
    + discriminate.
Qed.

Lemma keys_same_globals (p p' : Process) :
  same_globals G p p' -> keys_from_setup G p -> keys_from_setup G p'.
Proof.
  intros (A1 & B1 & C1 & D1) Hp H1 H2.
  rewrite C1 in H1. rewrite D1 in H2.
  destruct (Hp H1 H2) as (n & pk & vk & S1 & S2 & S3).
  exists n, pk, vk. repeat split; congruence.
Qed.

(** The generate handler once the keys are there and the body decodes. *)
Lemma GenerateProof_ready (p : Process) (body : json.Body) (a b sum : Z)
  (pk : groth16.ProvingKey G) :
  setupErr (initializeKeys p) = None ->
  provingKey (initializeKeys p) = Some pk ->
  decodes_generate body a b sum ->
  let p1 := initializeKeys p in
  let w := full_witness q a b sum in
  let e1 := groth16.draw G (groth16.emit G (groth16.EvProve G bn254_ccs pk w) (env p1)) in
  handlers.GenerateProof G body p =
  match groth16.prove_fn G bn254_ccs pk w (groth16.entropy G (env p1)) with
  | Err _ =>
      (handlers.Respond 500 (handlers.ErrorBody "Failed to generate proof"),
       handlers.with_env G p1 e1)
  | Ok proof =>
      let e2 := groth16.emit G (groth16.EvWriteTo G proof) e1 in
      match groth16.write_fn G proof with
      | Err _ =>
          (handlers.Respond 500 (handlers.ErrorBody "Failed to serialize proof"),
           handlers.with_env G p1 e2)
      | Ok data => (proof_response data sum, handlers.with_env G p1 e2)
      end
  end.
Proof.
  intros Herr Hpk Hdec. cbv zeta.
  unfold handlers.GenerateProof. cbv zeta.
  unfold decodes_generate in Hdec.
  rewrite Herr, Hdec, Hpk.
  unfold circuit.GenerateProof. cbv zeta.
  cbn [models.ProofRequest.A models.ProofRequest.B models.ProofRequest.Sum ProofRequest_of].
  rewrite NewWitness_full, Compile_shape. fold bn254_ccs.
  unfold groth16.bind, groth16.Prove, groth16.ret, groth16.WriteTo.
  destruct (groth16.prove_fn G bn254_ccs pk (full_witness q a b sum)
              (groth16.entropy G (env (initializeKeys p)))) as [proof | err];
    [| reflexivity].
  destruct (groth16.write_fn G proof) as [data | err]; reflexivity.
Qed.

(** The verify handler once the keys are there and the body decodes. *)
Lemma VerifyProof_ready (p : Process) (body : json.Body) (data : list byte) (sum : Z)
  (vk : groth16.VerifyingKey G) :
  setupErr (initializeKeys p) = None ->
  verifyingKey (initializeKeys p) = Some vk ->
  decodes_verify body data sum ->
  let p1 := initializeKeys p in
  let e1 := groth16.emit G (groth16.EvReadFrom G data) (env p1) in
  handlers.VerifyProof G body p =
  match groth16.read_fn G data with
  | Err _ =>
      (handlers.Respond 400 (handlers.ErrorBody "Invalid proof format"),
       handlers.with_env G p1 e1)
  | Ok proof =>
      let w := public_witness q sum in
      let e2 := groth16.emit G (groth16.EvVerify G proof vk w) e1 in
      match groth16.verify_fn G proof vk w with
      | Some _ => (invalid_response, handlers.with_env G p1 e2)
      | None => (valid_response, handlers.with_env G p1 e2)
      end
  end.
Proof.
  intros Herr Hvk Hdec. cbv zeta.
  unfold handlers.VerifyProof. cbv zeta.
  unfold decodes_verify in Hdec.
  rewrite Herr, Hdec.
  unfold groth16.ReadFrom.
  cbn [models.VerifyRequest.Proof models.VerifyRequest.Sum VerifyRequest_of].
  destruct (groth16.read_fn G data) as [proof | err]; [| reflexivity].
  cbn [handlers.verifyingKey handlers.with_env]. rewrite Hvk.
  unfold circuit.VerifyProof. cbv zeta.
  rewrite NewWitness_public.
  unfold groth16.Verify.
  destruct (groth16.verify_fn G proof vk (public_witness q sum)); reflexivity.
Qed.

(** Whatever a handler does, the package-level variables are those
    [initializeKeys] left. *)
Lemma GenerateProof_globals (body : json.Body) (p : Process) :
  same_globals G (initializeKeys p) (snd (handlers.GenerateProof G body p)).
Proof.
  unfold handlers.GenerateProof. cbv zeta.
  destruct (setupErr (initializeKeys p)); [apply same_globals_refl |].
  destruct (json.Decode _ _ body) as [req | e]; [| apply same_globals_refl].
  destruct (provingKey (initializeKeys p)) as [pk |]; [| apply same_globals_refl].
  destruct (circuit.GenerateProof G pk _ _ _ _) as [[proof | e] e1];
    [| apply same_globals_with_env].
  destruct (groth16.WriteTo G proof e1) as [[data | e] e2]; apply same_globals_with_env.
Qed.

Lemma VerifyProof_globals (body : json.Body) (p : Process) :
  same_globals G (initializeKeys p) (snd (handlers.VerifyProof G body p)).
Proof.
  unfold handlers.VerifyProof. cbv zeta.
  destruct (setupErr (initializeKeys p)); [apply same_globals_refl |].
  destruct (json.Decode _ _ body) as [req | e]; [| apply same_globals_refl].
  destruct (groth16.ReadFrom G _ _) as [[proof | e] e1];
    [| apply same_globals_with_env].
  cbn [handlers.verifyingKey handlers.with_env].
  destruct (verifyingKey (initializeKeys p)) as [vk |]; [| apply same_globals_with_env].
  destruct (circuit.VerifyProof G vk proof _ e1) as [[e |] e2];
    apply same_globals_with_env.
Qed.

Lemma serve1_keys (r : handlers.Request) (p : Process) :
  keys_from_setup G p -> keys_from_setup G (snd (handlers.serve1 G r p)).
Proof.
  intros Hp. destruct r as [body | body |]; cbn [handlers.serve1].
  - eapply keys_same_globals; [apply GenerateProof_globals | apply initializeKeys_keys, Hp].
  - eapply keys_same_globals; [apply VerifyProof_globals | apply initializeKeys_keys, Hp].
  - exact Hp.
Qed.

Lemma serve_cons (r : handlers.Request) (rs : list handlers.Request) (p : Process) :
  handlers.serve G (r :: rs) p
  = (fst (handlers.serve1 G r p)
       :: fst (handlers.serve G rs (snd (handlers.serve1 G r p))),
     snd (handlers.serve G rs (snd (handlers.serve1 G r p)))).
Proof.
  cbn [handlers.serve].
  destruct (handlers.serve1 G r p) as [resp p1]. cbn [fst snd].
  destruct (handlers.serve G rs p1) as [resps p2]. reflexivity.
Qed.

Lemma serve_keys (rs : list handlers.Request) :
  forall p, keys_from_setup G p -> keys_from_setup G (snd (handlers.serve G rs p)).
Proof.
  induction rs as [| r rest IH]; intros p Hp.
  - exact Hp.
  - rewrite serve_cons. cbn [snd]. apply IH, serve1_keys, Hp.
Qed.

Lemma reachable_keys (p : Process) : reachable G p -> keys_from_setup G p.
Proof.
  intros (seed & rs & ->). apply serve_keys.
  intros H. discriminate.
Qed.

(** Once the setup has run, serving requests leaves the package-level
    variables alone and never runs the setup again. *)
Lemma serve1_settled (r : handlers.Request) (p : Process) :
  setupOnce p = true ->
  same_globals G p (snd (handlers.serve1 G r p))
  /\ handlers.setup_runs G (snd (handlers.serve1 G r p)) = handlers.setup_runs G p.
Proof.
  intros Hdone.
  destruct r as [body | body |]; cbn [handlers.serve1].
  - split.
    + pose proof (GenerateProof_globals body p) as H.
      rewrite initializeKeys_idle in H by exact Hdone. exact H.
    + unfold handlers.GenerateProof. cbv zeta.
      rewrite initializeKeys_idle by exact Hdone.
      destruct (setupErr p); [reflexivity |].
      destruct (json.Decode _ _ body) as [req | e]; [| reflexivity].
      destruct (provingKey p) as [pk |]; [| reflexivity].
      unfold circuit.GenerateProof. cbv zeta.
      rewrite NewWitness_full, Compile_shape.
      unfold groth16.bind, groth16.Prove, groth16.ret, groth16.WriteTo.
      destruct (groth16.prove_fn G _ pk _ _) as [proof | e].
      * destruct (groth16.write_fn G proof) as [data | e];
          unfold handlers.setup_runs; cbn;
          rewrite !filter_app; cbn; rewrite !app_nil_r; reflexivity.
      * unfold handlers.setup_runs; cbn.
        rewrite !filter_app; cbn; rewrite !app_nil_r; reflexivity.
  - split.
    + pose proof (VerifyProof_globals body p) as H.
      rewrite initializeKeys_idle in H by exact Hdone. exact H.
    + unfold handlers.VerifyProof. cbv zeta.
      rewrite initializeKeys_idle by exact Hdone.
      destruct (setupErr p); [reflexivity |].
      destruct (json.Decode _ _ body) as [req | e]; [| reflexivity].
      unfold groth16.ReadFrom.
      destruct (groth16.read_fn G _) as [proof | e].
      * cbn [handlers.verifyingKey handlers.with_env].
        destruct (verifyingKey p) as [vk |].
        -- unfold circuit.VerifyProof. cbv zeta. rewrite NewWitness_public.
           unfold groth16.Verify.
           destruct (groth16.verify_fn G proof vk _);
             unfold handlers.setup_runs; cbn;
             rewrite !filter_app; cbn; rewrite !app_nil_r; reflexivity.
        -- unfold handlers.setup_runs; cbn.
           rewrite !filter_app; cbn; rewrite !app_nil_r; reflexivity.
      * unfold handlers.setup_runs; cbn.
        rewrite !filter_app; cbn; rewrite !app_nil_r; reflexivity.
  - split; [apply same_globals_refl | reflexivity].
Qed.

Lemma serve_settled (rs : list handlers.Request) :
  forall p,
    setupOnce p = true ->
    same_globals G p (snd (handlers.serve G rs p))
    /\ handlers.setup_runs G (snd (handlers.serve G rs p)) = handlers.setup_runs G p.
Proof.
  induction rs as [| r rest IH]; intros p Hdone.
  - split; [apply same_globals_refl | reflexivity].
  - rewrite serve_cons. cbn [snd].
    destruct (serve1_settled r p Hdone) as [Hg Hn].
    assert (Hdone1 : setupOnce (snd (handlers.serve1 G r p)) = true).
    { destruct Hg as (_ & _ & Hd & _). rewrite Hd. exact Hdone. }
    destruct (IH _ Hdone1) as [Hg' Hn'].
    split; [eapply same_globals_trans; eassumption | congruence].
Qed.

End HandlerFacts.

(** ** The back end without cryptography meets the contract *)

Lemma dec_enc_pos (p : positive) (rest : list byte) :
  mock.dec_pos (mock.enc_pos p ++ rest) = Some (p, rest).
Proof.
  induction p as [p IH | p IH |]; cbn [mock.enc_pos app mock.dec_pos].
  - rewrite IH. reflexivity.
  - rewrite IH. reflexivity.
  - reflexivity.
Qed.

Lemma dec_enc_Z (z : Z) (rest : list byte) :
  mock.dec_Z (mock.enc_Z z ++ rest) = Some (z, rest).
Proof.
  destruct z as [| p | p]; cbn [mock.enc_Z app mock.dec_Z].
  - reflexivity.
  - rewrite dec_enc_pos. reflexivity.
  - rewrite dec_enc_pos. reflexivity.
Qed.

Lemma dec_enc_list (l : list Z) :
  forall fuel rest,
    (List.length l < fuel)%nat ->
    mock.dec_list fuel (mock.enc_list l ++ rest) = Some (l, rest).
Proof.
  induction l as [| z tl IH]; intros fuel rest Hfuel.
  - destruct fuel as [| f]; [inversion Hfuel | reflexivity].
  - destruct fuel as [| f]; [inversion Hfuel |].
    cbn [mock.enc_list app mock.dec_list].
    rewrite <- app_assoc, dec_enc_Z, IH; [reflexivity |].
    cbn [List.length] in Hfuel. lia.
Qed.

Lemma enc_list_length (l : list Z) :
  (List.length l < List.length (mock.enc_list l))%nat.
Proof.
  induction l as [| z tl IH]; cbn [mock.enc_list List.length].
  - lia.
  - rewrite length_app. lia.
Qed.

Lemma decode_encode (p : mock.proof) : mock.decode (mock.encode p) = Ok p.
Proof.
  destruct p as [l k]. unfold mock.decode, mock.encode. cbn [mock.claim mock.key].
  rewrite dec_enc_Z.
  destruct (Z.ltb_spec (Z.of_nat k) 0) as [H | _]; [lia |].
  rewrite <- (app_nil_r (mock.enc_list l)) at 2.
  rewrite dec_enc_list.
  - rewrite Nat2Z.id. reflexivity.
  - apply enc_list_length.
Qed.

Lemma mock_contract : groth16.Contract mock.backend.
Proof.
  constructor; cbn.
  - intros ccs pk w n proof. unfold mock.prove.
    destruct (frontend.IsSolved ccs w); [reflexivity | discriminate].
  - intros ccs n pk vk w m Hsetup Hsolved.
    unfold mock.setup in Hsetup. destruct n as [| n']; [discriminate |].
    inversion Hsetup; subst pk vk.
    exists {| mock.claim := frontend.PublicPart w; mock.key := S n' |}.
    unfold mock.prove, mock.verify, mock.same_claim. rewrite Hsolved.
    cbn [mock.claim mock.key frontend.PublicOf frontend.PublicPart].
    rewrite Nat.eqb_refl.
    destruct (list_eq_dec Z.eq_dec _ _) as [_ | N]; [split; reflexivity | congruence].
  - intros ccs n pk vk w m proof w' _ Hprove Hverify.
    unfold mock.prove in Hprove.
    destruct (frontend.IsSolved ccs w); [| discriminate].
    inversion Hprove; subst proof.
    unfold mock.verify, mock.same_claim in Hverify. cbn [mock.claim mock.key] in Hverify.
    destruct (Nat.eqb pk vk); [| discriminate].
    destruct (list_eq_dec Z.eq_dec _ _) as [E | _]; [symmetry; exact E | discriminate].
  - intros proof. exists (mock.encode proof). split; [reflexivity | apply decode_encode].
Qed.

(** ** Completeness of the round trip *)

(** C1. Completeness: under the Groth16 contract, in every process state
    reachable by serving requests in which the one-time setup succeeds, a
    generate request whose decoded values satisfy [sum = a + b] is answered
    with status 200 and proof bytes, and a later verify request carrying
    those bytes and the same sum (whatever requests were served in between)
    is answered with status 200 and [valid: true]. *)
Theorem generate_then_verify_is_valid
  (G : groth16.Backend) (p : handlers.Process G) (body : json.Body) (a b sum : Z) :
  groth16.Contract G ->
  reachable G p ->
  handlers.setupErr G (handlers.initializeKeys G p) = None ->
  decodes_generate body a b sum ->
  sum = a + b ->
  exists data,
    fst (handlers.GenerateProof G body p) = proof_response data sum
    /\ forall rs body',
         decodes_verify body' data sum ->
         fst (handlers.VerifyProof G body'
                (snd (handlers.serve G rs (snd (handlers.GenerateProof G body p)))))
         = valid_response.
Proof.
  intros HG Hreach Herr Hdec Hsum.
  pose proof (initializeKeys_keys G p (reachable_keys G p Hreach)) as Hkeys.
  destruct (Hkeys (initializeKeys_done G p) Herr) as (n & pk & vk & Hsetup & Hpk & Hvk).
  destruct (decodes_generate_range body a b sum Hdec) as (Ha & Hb & Hs).
  assert (Hsolved : frontend.IsSolved bn254_ccs
                      (full_witness ecc.BN254_ScalarField a b sum) = true).
  { rewrite IsSolved_int by assumption. apply Z.eqb_eq. congruence. }
  destruct (groth16.complete G HG bn254_ccs n pk vk _
              (groth16.entropy G (handlers.env G (handlers.initializeKeys G p)))
              Hsetup Hsolved) as (proof & Hprove & Hverify).
  destruct (groth16.read_write G HG proof) as (data & Hwrite & Hread).
  pose proof (GenerateProof_ready G p body a b sum pk Herr Hpk Hdec) as Hgen.
  cbv zeta in Hgen. rewrite Hprove, Hwrite in Hgen.
  exists data. split; [rewrite Hgen; reflexivity |].
  intros rs body' Hdec'.
  set (p2 := snd (handlers.GenerateProof G body p)) in *.
  assert (Hg2 : same_globals G (handlers.initializeKeys G p) p2)
    by apply GenerateProof_globals.
  assert (Hdone2 : handlers.setupOnce G p2 = true).
  { destruct Hg2 as (_ & _ & Hd & _). rewrite Hd. apply initializeKeys_done. }
  destruct (serve_settled G rs p2 Hdone2) as [Hg3 _].
  set (p3 := snd (handlers.serve G rs p2)) in *.
  pose proof (same_globals_trans G _ _ _ Hg2 Hg3) as (_ & Hvk3 & Hd3 & He3).
  assert (Hidle : handlers.initializeKeys G p3 = p3).
  { apply initializeKeys_idle. rewrite Hd3. apply initializeKeys_done. }
  assert (Herr3 : handlers.setupErr G (handlers.initializeKeys G p3) = None)
    by (rewrite Hidle; congruence).
  assert (Hvk3' : handlers.verifyingKey G (handlers.initializeKeys G p3) = Some vk)
    by (rewrite Hidle; congruence).
  pose proof (VerifyProof_ready G p3 body' data sum vk Herr3 Hvk3' Hdec') as Hver.
  cbv zeta in Hver. rewrite Hread in Hver.
  rewrite PublicOf_full in Hverify. rewrite Hverify in Hver.
  rewrite Hver. reflexivity.
Qed.

Lemma reachable_start (G : groth16.Backend) (seed : nat) :
  reachable G (handlers.start G seed).
Proof. exists seed, []. reflexivity. Defined.

Lemma generate_then_verify_is_valid_witness :
  exists data,
    fst (handlers.GenerateProof mock.backend (generate_body 5 3 8)
           (handlers.start mock.backend 1))
    = proof_response data 8
    /\ forall rs body',
         decodes_verify body' data 8 ->
         fst (handlers.VerifyProof mock.backend body'
                (snd (handlers.serve mock.backend rs
                        (snd (handlers.GenerateProof mock.backend (generate_body 5 3 8)
                                (handlers.start mock.backend 1))))))
         = valid_response.
Proof.
  apply (generate_then_verify_is_valid mock.backend (handlers.start mock.backend 1)
           (generate_body 5 3 8) 5 3 8).
  - exact mock_contract.
  - apply reachable_start.
  - reflexivity.
  - reflexivity.
  - reflexivity.
Defined.

(** ** Soundness of proof generation *)

(** C2. Soundness: in every reachable process state in which the setup
    succeeds, a generate request whose decoded values have [a + b <> sum]
    (read as integer addition or as Go's wrapping addition) reaches the back
    end: the handler invokes [Prove] on the violating assignment, and its
    answer is whatever [Prove] decides (a failure of [Prove] is answered with
    500 "Failed to generate proof", a success is not).  Under the Groth16
    contract [Prove] fails there, so the answer is that 500, and the only
    call made into the back end is that [Prove]. *)
Theorem violated_relation_fails_in_backend
  (G : groth16.Backend) (p : handlers.Process G) (body : json.Body) (a b sum : Z) :
  reachable G p ->
  handlers.setupErr G (handlers.initializeKeys G p) = None ->
  decodes_generate body a b sum ->
  a + b <> sum \/ int_add a b <> sum ->
  exists pk,
    handlers.provingKey G (handlers.initializeKeys G p) = Some pk
    /\ (let outcome :=
          groth16.prove_fn G bn254_ccs pk (full_witness ecc.BN254_ScalarField a b sum)
            (groth16.entropy G (handlers.env G (handlers.initializeKeys G p))) in
        let after := handlers.GenerateProof G body p in
        (exists rest,
            groth16.trace G (handlers.env G (snd after))
            = groth16.trace G (handlers.env G (handlers.initializeKeys G p))
              ++ groth16.EvProve G bn254_ccs pk
                   (full_witness ecc.BN254_ScalarField a b sum) :: rest)
        /\ (is_ok outcome = false -> fst after = prove_failed_response)
        /\ (is_ok outcome = true -> fst after <> prove_failed_response)
        /\ (groth16.Contract G ->
            is_ok outcome = false
            /\ fst after = prove_failed_response
            /\ groth16.trace G (handlers.env G (snd after))
               = groth16.trace G (handlers.env G (handlers.initializeKeys G p))
                 ++ [groth16.EvProve G bn254_ccs pk
                       (full_witness ecc.BN254_ScalarField a b sum)])).
Proof.
  intros Hreach Herr Hdec Hviolated.
  pose proof (initializeKeys_keys G p (reachable_keys G p Hreach)) as Hkeys.
  destruct (Hkeys (initializeKeys_done G p) Herr) as (n & pk & vk & Hsetup & Hpk & Hvk).
  destruct (decodes_generate_range body a b sum Hdec) as (Ha & Hb & Hs).
  assert (Hneq : a + b <> sum).
  { destruct Hviolated as [N | N]; [exact N |].
    intros E. apply N. unfold int_add. rewrite E. apply wrap_int_id, Hs. }
  exists pk. split; [exact Hpk |]. cbv zeta.
  rewrite (GenerateProof_ready G p body a b sum pk Herr Hpk Hdec). cbv zeta.
  destruct (groth16.prove_fn G bn254_ccs pk (full_witness ecc.BN254_ScalarField a b sum)
              (groth16.entropy G (handlers.env G (handlers.initializeKeys G p))))
    as [proof | err] eqn:Hprove.
  - repeat split.
    + destruct (groth16.write_fn G proof) as [data | err];
        eexists; cbn; rewrite <- app_assoc; reflexivity.
    + discriminate.
    + intros _. unfold prove_failed_response, proof_response.
      destruct (groth16.write_fn G proof); cbn; congruence.
    + exfalso. apply (groth16.prove_solves G H) in Hprove.
      rewrite IsSolved_int in Hprove by assumption.
      apply Z.eqb_eq in Hprove. contradiction.
    + exfalso. apply (groth16.prove_solves G H) in Hprove.
      rewrite IsSolved_int in Hprove by assumption.
      apply Z.eqb_eq in Hprove. contradiction.
    + exfalso. apply (groth16.prove_solves G H) in Hprove.
      rewrite IsSolved_int in Hprove by assumption.
      apply Z.eqb_eq in Hprove. contradiction.
  - repeat split.
    + eexists. cbn. reflexivity.
    + discriminate.
Qed.

Lemma violated_relation_fails_in_backend_witness :
  fst (handlers.GenerateProof mock.backend (generate_body 5 3 9)
         (handlers.start mock.backend 1))
  = prove_failed_response.
Proof.
  destruct (violated_relation_fails_in_backend mock.backend
              (handlers.start mock.backend 1) (generate_body 5 3 9) 5 3 9)
    as (pk & _ & _ & _ & _ & Hcontract).
  - apply reachable_start.
  - reflexivity.
  - reflexivity.
  - left. discriminate.
  - destruct (Hcontract mock_contract) as (_ & Hresp & _). exact Hresp.
Defined.

(** ** Sum binding *)

(** C7. Sum binding: under the Groth16 contract, when a generate request
    for the public sum [sum] was answered with proof bytes, a later verify
    request carrying those bytes with any other sum [sum'] is answered with
    status 200 and [valid: false]. *)
Theorem proof_is_bound_to_its_sum
  (G : groth16.Backend) (p : handlers.Process G) (body : json.Body)
  (a b sum : Z) (data : list byte) :
  groth16.Contract G ->
  reachable G p ->
  handlers.setupErr G (handlers.initializeKeys G p) = None ->
  decodes_generate body a b sum ->
  fst (handlers.GenerateProof G body p) = proof_response data sum ->
  forall rs body' sum',
    decodes_verify body' data sum' ->
    sum' <> sum ->
    fst (handlers.VerifyProof G body'
           (snd (handlers.serve G rs (snd (handlers.GenerateProof G body p)))))
    = invalid_response.
Proof.
  intros HG Hreach Herr Hdec Hresp rs body' sum' Hdec' Hneq.
  pose proof (initializeKeys_keys G p (reachable_keys G p Hreach)) as Hkeys.
  destruct (Hkeys (initializeKeys_done G p) Herr) as (n & pk & vk & Hsetup & Hpk & Hvk).
  destruct (decodes_generate_range body a b sum Hdec) as (Ha & Hb & Hs).
  pose proof (decodes_verify_range body' data sum' Hdec') as Hs'.
  pose proof (GenerateProof_ready G p body a b sum pk Herr Hpk Hdec) as Hgen.
  cbv zeta in Hgen.
  destruct (groth16.prove_fn G bn254_ccs pk (full_witness ecc.BN254_ScalarField a b sum)
              (groth16.entropy G (handlers.env G (handlers.initializeKeys G p))))
    as [proof | err] eqn:Hprove;
    [| rewrite Hgen in Hresp; discriminate].
  destruct (groth16.read_write G HG proof) as (data' & Hwrite & Hread).
  rewrite Hwrite in Hgen.
  assert (data' = data).
  { rewrite Hgen in Hresp. cbn in Hresp. unfold proof_response in Hresp. congruence. }
  subst data'.
  set (p2 := snd (handlers.GenerateProof G body p)) in *.
  assert (Hg2 : same_globals G (handlers.initializeKeys G p) p2)
    by apply GenerateProof_globals.
  assert (Hdone2 : handlers.setupOnce G p2 = true).
  { destruct Hg2 as (_ & _ & Hd & _). rewrite Hd. apply initializeKeys_done. }
  destruct (serve_settled G rs p2 Hdone2) as [Hg3 _].
  set (p3 := snd (handlers.serve G rs p2)) in *.
  pose proof (same_globals_trans G _ _ _ Hg2 Hg3) as (_ & Hvk3 & Hd3 & He3).
  assert (Hidle : handlers.initializeKeys G p3 = p3).
  { apply initializeKeys_idle. rewrite Hd3. apply initializeKeys_done. }
  assert (Herr3 : handlers.setupErr G (handlers.initializeKeys G p3) = None)
    by (rewrite Hidle; congruence).
  assert (Hvk3' : handlers.verifyingKey G (handlers.initializeKeys G p3) = Some vk)
    by (rewrite Hidle; congruence).
  rewrite (VerifyProof_ready G p3 body' data sum' vk Herr3 Hvk3' Hdec'). cbv zeta.
  rewrite Hread.
  destruct (groth16.verify_fn G proof vk (public_witness ecc.BN254_ScalarField sum'))
    as [e |] eqn:Hverify; [reflexivity |].
  exfalso. apply Hneq.
  pose proof (groth16.binding G HG _ _ _ _ _ _ _ _ Hsetup Hprove Hverify) as Hbind.
  cbn in Hbind. inversion Hbind as [Hq].
  apply FromInt_injective; assumption.
Qed.

Lemma proof_is_bound_to_its_sum_witness :
  fst (handlers.VerifyProof mock.backend (verify_body proof_of_8_base64 9)
         (snd (handlers.serve mock.backend []
                 (snd (handlers.GenerateProof mock.backend (generate_body 5 3 8)
                         (handlers.start mock.backend 1))))))
  = invalid_response.
Proof.
  apply (proof_is_bound_to_its_sum mock.backend (handlers.start mock.backend 1)
           (generate_body 5 3 8) 5 3 8 proof_of_8 mock_contract
           (reachable_start mock.backend 1)) with (sum' := 9).
  - reflexivity.
  - reflexivity.
  - reflexivity.
  - reflexivity.
  - discriminate.
Defined.

(** ** Status codes of the verify handler *)

Lemma VerifyRequest_eta (r : models.VerifyRequest.t) :
  r = VerifyRequest_of (models.VerifyRequest.Proof r) (models.VerifyRequest.Sum r).
Proof. destruct r; reflexivity. Qed.

Lemma VerifyProof_setup_failed (G : groth16.Backend) (p : handlers.Process G)
  (body : json.Body) (err : error) :
  handlers.setupErr G (handlers.initializeKeys G p) = Some err ->
  handlers.VerifyProof G body p = (setup_failed_response err, handlers.initializeKeys G p).
Proof.
  intros H. unfold handlers.VerifyProof. cbv zeta. rewrite H. reflexivity.
Qed.

Lemma GenerateProof_setup_failed (G : groth16.Backend) (p : handlers.Process G)
  (body : json.Body) (err : error) :
  handlers.setupErr G (handlers.initializeKeys G p) = Some err ->
  handlers.GenerateProof G body p
  = (setup_failed_response err, handlers.initializeKeys G p).
Proof.
  intros H. unfold handlers.GenerateProof. cbv zeta. rewrite H. reflexivity.
Qed.

Lemma VerifyProof_bad_body (G : groth16.Backend) (p : handlers.Process G)
  (body : json.Body) :
  handlers.setupErr G (handlers.initializeKeys G p) = None ->
  is_ok (json.Decode json.VerifyRequest_fields models.VerifyRequest.zero body) = false ->
  handlers.VerifyProof G body p = (bad_request_response, handlers.initializeKeys G p).
Proof.
  intros H Hbad. unfold handlers.VerifyProof. cbv zeta. rewrite H.
  destruct (json.Decode _ _ body); [discriminate | reflexivity].
Qed.

Lemma GenerateProof_bad_body (G : groth16.Backend) (p : handlers.Process G)
  (body : json.Body) :
  handlers.setupErr G (handlers.initializeKeys G p) = None ->
  is_ok (json.Decode json.ProofRequest_fields models.ProofRequest.zero body) = false ->
  handlers.GenerateProof G body p = (bad_request_response, handlers.initializeKeys G p).
Proof.
  intros H Hbad. unfold handlers.GenerateProof. cbv zeta. rewrite H.
  destruct (json.Decode _ _ body); [discriminate | reflexivity].
Qed.

(** C4, as stated, fails on the code.  With the setup failed, proof bytes
    that do not deserialise are answered with 500, not 400; and a verifier
    that breaks down internally on well-formed proof bytes is answered with
    200 and [valid: false], not 500. *)
Lemma verify_status_counterexample :
  (decodes_verify (verify_body garbage_base64 8) garbage 8
   /\ is_ok (groth16.read_fn mock.backend garbage) = false
   /\ handlers.status_of
        (fst (handlers.VerifyProof mock.backend (verify_body garbage_base64 8)
                (handlers.start mock.backend 0)))
      = Some 500)
  /\ (decodes_verify (verify_body proof_of_8_base64 8) proof_of_8 8
      /\ groth16.read_fn mock.broken proof_of_8
         = Ok {| mock.claim := [8]; mock.key := 1 |}
      /\ groth16.verify_fn mock.broken {| mock.claim := [8]; mock.key := 1 |} 1%nat
           (public_witness ecc.BN254_ScalarField 8)
         = Some "internal fault: pairing engine unavailable"
      /\ fst (handlers.VerifyProof mock.broken (verify_body proof_of_8_base64 8)
                (handlers.start mock.broken 1))
         = invalid_response).
Proof. repeat split. Qed.

(** C4, amended.  In every reachable process state the verify handler
    answers: 500 with the setup error when the setup has failed, whatever the
    body holds, and in no other case; otherwise 400 when the body does not
    decode, and 400 when the decoded proof bytes do not deserialise;
    otherwise 200, with [valid: true] when [circuit.VerifyProof] returns nil
    and [valid: false] for every error it returns. *)
Theorem verify_status_by_case
  (G : groth16.Backend) (p : handlers.Process G) (body : json.Body) :
  reachable G p ->
  let p1 := handlers.initializeKeys G p in
  let resp := fst (handlers.VerifyProof G body p) in
  (forall err, handlers.setupErr G p1 = Some err -> resp = setup_failed_response err)
  /\ (handlers.setupErr G p1 = None ->
      (is_ok (json.Decode json.VerifyRequest_fields models.VerifyRequest.zero body) = false ->
       resp = bad_request_response)
      /\ (forall data sum,
            decodes_verify body data sum ->
            (is_ok (groth16.read_fn G data) = false -> resp = bad_proof_response)
            /\ (forall proof,
                  groth16.read_fn G data = Ok proof ->
                  exists vk,
                    handlers.verifyingKey G p1 = Some vk
                    /\ resp =
                       match groth16.verify_fn G proof vk
                               (public_witness ecc.BN254_ScalarField sum) with
                       | None => valid_response
                       | Some _ => invalid_response
                       end)))
  /\ (handlers.status_of resp = Some 500 <-> handlers.setupErr G p1 <> None).
Proof.
  intros Hreach p1 resp.
  pose proof (initializeKeys_keys G p (reachable_keys G p Hreach)) as Hkeys.
  assert (Hcases :
    handlers.setupErr G p1 = None ->
    forall data sum,
      decodes_verify body data sum ->
      exists vk,
        handlers.verifyingKey G p1 = Some vk
        /\ resp =
           match groth16.read_fn G data with
           | Err _ => bad_proof_response
           | Ok proof =>
               match groth16.verify_fn G proof vk
                       (public_witness ecc.BN254_ScalarField sum) with
               | None => valid_response
               | Some _ => invalid_response
               end
           end).
  { intros Herr data sum Hdec.
    destruct (Hkeys (initializeKeys_done G p) Herr) as (n & pk & vk & _ & _ & Hvk).
    exists vk. split; [exact Hvk |].
    subst resp.
    rewrite (VerifyProof_ready G p body data sum vk Herr Hvk Hdec). cbv zeta.
    destruct (groth16.read_fn G data) as [proof | e]; [| reflexivity].
    destruct (groth16.verify_fn G proof vk _); reflexivity. }
  split; [| split].
  - intros err Herr. subst resp.
    rewrite (VerifyProof_setup_failed G p body err Herr). reflexivity.
  - intros Herr. split.
    + intros Hbad. subst resp.
      rewrite (VerifyProof_bad_body G p body Herr Hbad). reflexivity.
    + intros data sum Hdec.
      destruct (Hcases Herr data sum Hdec) as (vk & Hvk & Hresp).
      split.
      * intros Hbad. rewrite Hresp.
        destruct (groth16.read_fn G data); [discriminate | reflexivity].
      * intros proof Hread. exists vk. split; [exact Hvk |].
        rewrite Hresp, Hread. reflexivity.
  - destruct (handlers.setupErr G p1) as [err |] eqn:Herr.
    + subst resp. rewrite (VerifyProof_setup_failed G p body err Herr).
      split; [intros _; discriminate | reflexivity].
    + split; [| intros N; contradiction].
      intros H500. exfalso.
      destruct (json.Decode json.VerifyRequest_fields models.VerifyRequest.zero body)
        as [req | e] eqn:Hdec.
      * rewrite (VerifyRequest_eta req) in Hdec.
        destruct (Hcases eq_refl _ _ Hdec) as (vk & _ & Hresp).
        rewrite Hresp in H500.
        destruct (groth16.read_fn G _) as [proof | e]; [| discriminate].
        destruct (groth16.verify_fn G proof vk _); discriminate.
      * subst resp. rewrite (VerifyProof_bad_body G p body Herr) in H500.
        -- discriminate.
        -- rewrite Hdec. reflexivity.
Qed.

Lemma verify_status_by_case_witness :
  handlers.status_of
    (fst (handlers.VerifyProof mock.backend (verify_body garbage_base64 8)
            (handlers.start mock.backend 1)))
  = Some 500
  <-> handlers.setupErr mock.backend
        (handlers.initializeKeys mock.backend (handlers.start mock.backend 1))
      <> None.
Proof.
  exact (proj2 (proj2 (verify_status_by_case mock.backend (handlers.start mock.backend 1)
                         (verify_body garbage_base64 8)
                         (reachable_start mock.backend 1)))).
Defined.

(** ** The setup outcome is final *)

Lemma serve_failed (G : groth16.Backend) (p : handlers.Process G) (err : error)
  (rs : list handlers.Request) :
  handlers.setupOnce G p = true ->
  handlers.setupErr G p = Some err ->
  snd (handlers.serve G rs p) = p
  /\ Forall2 (answer_when_failed err) rs (fst (handlers.serve G rs p)).
Proof.
  intros Hdone Herr.
  assert (Herr1 : handlers.setupErr G (handlers.initializeKeys G p) = Some err)
    by (rewrite initializeKeys_idle; assumption).
  induction rs as [| r rest [IHp IHr]].
  - split; [reflexivity | constructor].
  - rewrite serve_cons. cbn [fst snd].
    assert (H1 : handlers.serve1 G r p
                 = (fst (handlers.serve1 G r p), p)
                 /\ answer_when_failed err r (fst (handlers.serve1 G r p))).
    { destruct r as [body | body |]; cbn [handlers.serve1].
      - rewrite (GenerateProof_setup_failed G p body err Herr1).
        rewrite initializeKeys_idle by assumption. split; reflexivity.
      - rewrite (VerifyProof_setup_failed G p body err Herr1).
        rewrite initializeKeys_idle by assumption. split; reflexivity.
      - split; reflexivity. }
    destruct H1 as [Hs Ha].
    assert (Hp : snd (handlers.serve1 G r p) = p) by (rewrite Hs; reflexivity).
    rewrite Hp. split; [exact IHp | constructor; assumption].
Qed.

(** C5. Once the one-time setup has run, its outcome is final.  Serving any
    further requests never runs [Setup] again and leaves the two keys, the
    error and the done flag as they are; and when the outcome is a failure,
    every generate or verify request is answered with 500 and that same
    setup error, and the process state does not change at all. *)
Theorem setup_outcome_is_final
  (G : groth16.Backend) (p : handlers.Process G) (rs : list handlers.Request) :
  handlers.setupOnce G p = true ->
  handlers.setup_runs G (snd (handlers.serve G rs p)) = handlers.setup_runs G p
  /\ handlers.provingKey G (snd (handlers.serve G rs p)) = handlers.provingKey G p
  /\ handlers.verifyingKey G (snd (handlers.serve G rs p)) = handlers.verifyingKey G p
  /\ handlers.setupErr G (snd (handlers.serve G rs p)) = handlers.setupErr G p
  /\ handlers.setupOnce G (snd (handlers.serve G rs p)) = true
  /\ (forall err,
        handlers.setupErr G p = Some err ->
        snd (handlers.serve G rs p) = p
        /\ Forall2 (answer_when_failed err) rs (fst (handlers.serve G rs p))).
Proof.
  intros Hdone.
  destruct (serve_settled G rs p Hdone) as [(Hpk & Hvk & Hd & He) Hruns].
  split; [exact Hruns |].
  split; [exact Hpk |].
  split; [exact Hvk |].
  split; [exact He |].
  split; [congruence |].
  intros err Herr. apply serve_failed; assumption.
Qed.

Lemma setup_outcome_is_final_witness :
  handlers.setup_runs mock.backend
    (snd (handlers.serve mock.backend
            [handlers.PostGenerate (generate_body 5 3 8);
             handlers.PostVerify (verify_body proof_of_8_base64 8)]
            failed_process))
  = handlers.setup_runs mock.backend failed_process.
Proof.
  apply (setup_outcome_is_final mock.backend failed_process
           [handlers.PostGenerate (generate_body 5 3 8);
            handlers.PostVerify (verify_body proof_of_8_base64 8)]).
  reflexivity.
Defined.

(** ** Malformed request bodies *)

Lemma into_int_ok (v : json.Value) (old : Z) :
  is_ok (json.into_int v old) = negb (ill_typed KInt v).
Proof.
  destruct v as [| b | [z | |] | s | l | m]; cbn; try reflexivity.
  destruct (is_int z); reflexivity.
Qed.

Lemma into_uint8_ok (v : json.Value) (old : byte) :
  is_ok (json.into_uint8 v old) = negb (ill_typed_elem v).
Proof.
  destruct v as [| b | [z | |] | s | l | m]; cbn; try reflexivity.
  destruct ((0 <=? z) && (z <=? 255)); reflexivity.
Qed.

Lemma into_elems_ok (vs : list json.Value) :
  forall old, is_ok (json.into_elems vs old) = negb (existsb ill_typed_elem vs).
Proof.
  induction vs as [| v rest IH]; intros old; [reflexivity |].
  cbn [json.into_elems existsb].
  pose proof (into_uint8_ok v (hd x00 old)) as Hv.
  destruct (json.into_uint8 v (hd x00 old)) as [x | e]; cbn [is_ok] in Hv;
    destruct (ill_typed_elem v); cbn [negb] in Hv; try discriminate; cbn [orb negb].
  - specialize (IH (tl old)). destruct (json.into_elems rest (tl old)); exact IH.
  - reflexivity.
Qed.

Lemma into_bytes_ok (v : json.Value) (old : list byte) :
  is_ok (json.into_bytes v old) = negb (ill_typed KBytes v).
Proof.
  destruct v as [| b | [z | |] | s | l | m]; cbn; try reflexivity.
  - destruct (base64.DecodeString s); reflexivity.
  - apply into_elems_ok.
Qed.

Lemma object_generate_ok (members : list (string * json.Value)) :
  forall acc,
    is_ok (json.object json.ProofRequest_fields members acc)
    = negb (existsb (bad_member schema_generate) members).
Proof.
  induction members as [| [key v] rest IH]; intros acc; [reflexivity |].
  cbn [json.object existsb].
  unfold bad_member at 1. cbn [fst snd kind_of schema_generate].
  by_key key.
  - pose proof (into_int_ok v (models.ProofRequest.A acc)) as Hv.
    destruct (json.into_int v (models.ProofRequest.A acc)); cbn [json.mapr is_ok] in Hv |- *;
      destruct (ill_typed KInt v); cbn [negb] in Hv; try discriminate; cbn [orb negb];
      [apply IH | reflexivity].
  - pose proof (into_int_ok v (models.ProofRequest.B acc)) as Hv.
    destruct (json.into_int v (models.ProofRequest.B acc)); cbn [json.mapr is_ok] in Hv |- *;
      destruct (ill_typed KInt v); cbn [negb] in Hv; try discriminate; cbn [orb negb];
      [apply IH | reflexivity].
  - pose proof (into_int_ok v (models.ProofRequest.Sum acc)) as Hv.
    destruct (json.into_int v (models.ProofRequest.Sum acc)); cbn [json.mapr is_ok] in Hv |- *;
      destruct (ill_typed KInt v); cbn [negb] in Hv; try discriminate; cbn [orb negb];
      [apply IH | reflexivity].
  - cbn. apply IH.
Qed.

Lemma object_verify_ok (members : list (string * json.Value)) :
  forall acc,
    is_ok (json.object json.VerifyRequest_fields members acc)
    = negb (existsb (bad_member schema_verify) members).
Proof.
  induction members as [| [key v] rest IH]; intros acc; [reflexivity |].
  cbn [json.object existsb].
  unfold bad_member at 1. cbn [fst snd kind_of schema_verify].
  cbn [json.lookup json.VerifyRequest_fields].
  destruct (json.matches key "proof"); [| destruct (json.matches key "sum")].
  - pose proof (into_bytes_ok v (models.VerifyRequest.Proof acc)) as Hv.
    destruct (json.into_bytes v (models.VerifyRequest.Proof acc));
      cbn [json.mapr is_ok] in Hv |- *;
      destruct (ill_typed KBytes v); cbn [negb] in Hv; try discriminate; cbn [orb negb];
      [apply IH | reflexivity].
  - pose proof (into_int_ok v (models.VerifyRequest.Sum acc)) as Hv.
    destruct (json.into_int v (models.VerifyRequest.Sum acc)); cbn [json.mapr is_ok] in Hv |- *;
      destruct (ill_typed KInt v); cbn [negb] in Hv; try discriminate; cbn [orb negb];
      [apply IH | reflexivity].
  - cbn. apply IH.
Qed.

(** The decoder rejects exactly the malformed bodies. *)
Lemma Decode_generate_ok (body : json.Body) :
  is_ok (json.Decode json.ProofRequest_fields models.ProofRequest.zero body)
  = negb (malformed schema_generate body).
Proof.
  destruct body as [[| b | n | s | l | m] |]; try reflexivity.
  apply object_generate_ok.
Qed.

Lemma Decode_verify_ok (body : json.Body) :
  is_ok (json.Decode json.VerifyRequest_fields models.VerifyRequest.zero body)
  = negb (malformed schema_verify body).
Proof.
  destruct body as [[| b | n | s | l | m] |]; try reflexivity.
  apply object_verify_ok.
Qed.

(** C8, as stated, fails on the code: a body in which every field is
    absent is accepted by the generate handler, which proves [0 + 0 = 0] and
    answers 200; and a verify body without the proof field reaches the back
    end's deserialiser before it is answered. *)
Lemma absent_fields_counterexample :
  fst (handlers.GenerateProof mock.backend empty_object (handlers.start mock.backend 1))
  = proof_response [x04; x01; x06; x00; x00] 0
  /\ handlers.VerifyProof mock.backend (Some (json.Object [("sum", number 8)]))
       (handlers.initializeKeys mock.backend (handlers.start mock.backend 1))
     = (bad_proof_response,
        handlers.with_env mock.backend
          (handlers.initializeKeys mock.backend (handlers.start mock.backend 1))
          {| groth16.entropy := 2;
             groth16.trace :=
               [groth16.EvSetup mock.backend bn254_ccs;
                groth16.EvReadFrom mock.backend []] |}).
Proof. split; reflexivity. Qed.

(** C8, amended.  Once the setup has succeeded, each handler answers a body
    that is malformed for its endpoint (no JSON value can be scanned at its
    head, or that first value is neither an object nor null, or it is an
    object holding an ill-typed value under the name of a field of that
    endpoint's request struct: a, b, sum for generate; proof, sum for verify)
    with 400 "Invalid request body" and makes no call into the back end.
    Every other body passes the decoder of that endpoint: what follows the
    first value is not read, a member naming no field of the endpoint's
    struct is skipped (so an ill-typed proof sent to generate is not
    rejected), and an absent field takes its zero value. *)
Theorem malformed_body_is_rejected
  (G : groth16.Backend) (p : handlers.Process G) (body : json.Body) :
  handlers.setupErr G (handlers.initializeKeys G p) = None ->
  (malformed schema_generate body = true ->
   handlers.GenerateProof G body p = (bad_request_response, handlers.initializeKeys G p))
  /\ (malformed schema_verify body = true ->
      handlers.VerifyProof G body p = (bad_request_response, handlers.initializeKeys G p))
  /\ (malformed schema_generate body = false ->
      fst (handlers.GenerateProof G body p) <> bad_request_response)
  /\ (malformed schema_verify body = false ->
      fst (handlers.VerifyProof G body p) <> bad_request_response)
  /\ json.Decode json.ProofRequest_fields models.ProofRequest.zero empty_object
     = Ok models.ProofRequest.zero
  /\ json.Decode json.VerifyRequest_fields models.VerifyRequest.zero empty_object
     = Ok models.VerifyRequest.zero
  /\ (forall v,
        json.Decode json.ProofRequest_fields models.ProofRequest.zero
          (Some (json.Object [("proof", v)]))
        = Ok models.ProofRequest.zero).
Proof.
  intros Herr.
  split; [| split; [| split; [| split; [| split; [| split]]]]];
    try reflexivity; try (intros v; reflexivity).
  - intros Hbad. apply GenerateProof_bad_body; [exact Herr |].
    rewrite Decode_generate_ok, Hbad. reflexivity.
  - intros Hbad. apply VerifyProof_bad_body; [exact Herr |].
    rewrite Decode_verify_ok, Hbad. reflexivity.
  - intros Hgood. pose proof (Decode_generate_ok body) as Hok.
    rewrite Hgood in Hok.
    unfold handlers.GenerateProof. cbv zeta. rewrite Herr.
    destruct (json.Decode json.ProofRequest_fields models.ProofRequest.zero body)
      as [req | e]; [| discriminate].
    destruct (handlers.provingKey G (handlers.initializeKeys G p)) as [pk |];
      [| discriminate].
    destruct (circuit.GenerateProof G pk _ _ _ _) as [[proof | e] e1];
      [| discriminate].
    destruct (groth16.WriteTo G proof e1) as [[data | e] e2]; discriminate.
  - intros Hgood. pose proof (Decode_verify_ok body) as Hok.
    rewrite Hgood in Hok.
    unfold handlers.VerifyProof. cbv zeta. rewrite Herr.
    destruct (json.Decode json.VerifyRequest_fields models.VerifyRequest.zero body)
      as [req | e]; [| discriminate].
    destruct (groth16.ReadFrom G _ _) as [[proof | e] e1]; [| discriminate].
    cbn [handlers.verifyingKey handlers.with_env].
    destruct (handlers.verifyingKey G (handlers.initializeKeys G p)) as [vk |];
      [| discriminate].
    destruct (circuit.VerifyProof G vk proof _ e1) as [[e |] e2]; discriminate.
Qed.

Lemma malformed_body_is_rejected_witness :
  handlers.GenerateProof mock.backend
    (Some (json.Object [("a", json.Str "five"); ("b", number 3); ("sum", number 8)]))
    (handlers.start mock.backend 1)
  = (bad_request_response,
     handlers.initializeKeys mock.backend (handlers.start mock.backend 1)).
Proof.
  apply (malformed_body_is_rejected mock.backend (handlers.start mock.backend 1)
           (Some (json.Object [("a", json.Str "five"); ("b", number 3);
                               ("sum", number 8)]))).
  - reflexivity.
  - reflexivity.
Defined.

(** ** Verification reads public data only *)

Lemma circuit_VerifyProof_run (G : groth16.Backend) (vk : groth16.VerifyingKey G)
  (proof : groth16.Proof G) (sum : Z) (e : groth16.Env G) :
  circuit.VerifyProof G vk proof sum e
  = (groth16.verify_fn G proof vk (public_witness ecc.BN254_ScalarField sum),
     groth16.emit G
       (groth16.EvVerify G proof vk (public_witness ecc.BN254_ScalarField sum)) e).
Proof.
  unfold circuit.VerifyProof. cbv zeta. rewrite NewWitness_public. reflexivity.
Qed.

(** C9. Verification depends on public data only.  The public witness
    built for verification is the single field element of [Sum], whatever
    the secret leaves of the assignment hold; [circuit.VerifyProof] returns
    what the back end's verifier returns on the proof, the verifying key and
    that witness; and the answer of the verify handler to a request is the
    same in any two process states that hold the same verifying key, whatever
    was proved in them before. *)
Theorem verification_reads_public_data_only (G : groth16.Backend) :
  (forall (x y : frontend.Var) (sum : Z),
      frontend.NewWitness
        {| circuit.A := x; circuit.B := y; circuit.Sum := frontend.Int sum |}
        ecc.BN254_ScalarField true
      = Ok {| frontend.PublicPart := [frontend.FromInt ecc.BN254_ScalarField sum];
              frontend.SecretPart := [] |})
  /\ (forall vk proof sum e,
        fst (circuit.VerifyProof G vk proof sum e)
        = groth16.verify_fn G proof vk
            {| frontend.PublicPart := [frontend.FromInt ecc.BN254_ScalarField sum];
               frontend.SecretPart := [] |})
  /\ (forall (p p' : handlers.Process G) (body : json.Body),
        handlers.setupErr G (handlers.initializeKeys G p) = None ->
        handlers.setupErr G (handlers.initializeKeys G p') = None ->
        handlers.verifyingKey G (handlers.initializeKeys G p)
        = handlers.verifyingKey G (handlers.initializeKeys G p') ->
        fst (handlers.VerifyProof G body p) = fst (handlers.VerifyProof G body p')).
Proof.
  split; [| split].
  - intros x y sum. apply NewWitness_public.
  - intros vk proof sum e. rewrite circuit_VerifyProof_run. reflexivity.
  - intros p p' body Herr Herr' Hvk.
    unfold handlers.VerifyProof. cbv zeta. rewrite Herr, Herr'.
    destruct (json.Decode json.VerifyRequest_fields models.VerifyRequest.zero body)
      as [req | e]; [| reflexivity].
    unfold groth16.ReadFrom.
    destruct (groth16.read_fn G (models.VerifyRequest.Proof req)) as [proof | e];
      [| reflexivity].
    cbn [handlers.verifyingKey handlers.with_env]. rewrite <- Hvk.
    destruct (handlers.verifyingKey G (handlers.initializeKeys G p)) as [vk |];
      [| reflexivity].
    rewrite !circuit_VerifyProof_run.
    destruct (groth16.verify_fn G proof vk _); reflexivity.
Qed.

Lemma verification_reads_public_data_only_witness :
  fst (handlers.VerifyProof mock.backend (verify_body proof_of_8_base64 8)
         (handlers.start mock.backend 1))
  = fst (handlers.VerifyProof mock.backend (verify_body proof_of_8_base64 8)
           (snd (handlers.GenerateProof mock.backend (generate_body 5 3 8)
                   (handlers.start mock.backend 1)))).
Proof.
  apply (proj2 (proj2 (verification_reads_public_data_only mock.backend))).
  - reflexivity.
  - reflexivity.
  - reflexivity.
Defined.

(** ** Inputs live in the scalar field *)

Lemma circuit_GenerateProof_run (G : groth16.Backend) (pk : groth16.ProvingKey G)
  (a b sum : Z) (e : groth16.Env G) :
  is_ok (fst (circuit.GenerateProof G pk a b sum e))
  = is_ok (groth16.prove_fn G bn254_ccs pk (full_witness ecc.BN254_ScalarField a b sum)
             (groth16.entropy G e)).
Proof.
  unfold circuit.GenerateProof. cbv zeta.
  rewrite NewWitness_full, Compile_shape. fold bn254_ccs.
  unfold groth16.bind, groth16.Prove, groth16.ret.
  destruct (groth16.prove_fn G bn254_ccs pk _ _); reflexivity.
Qed.

(** C10. The inputs are embedded into the BN254 scalar field and the
    constraint is equality there: the witness of [(a, b, sum)] holds the
    three values modulo the field prime and satisfies the compiled system
    exactly when [a + b - sum] is zero modulo that prime.  So, under the
    Groth16 contract and with a proving key from the setup, proving
    [(-1, 1, 0)] succeeds, while the triple [(MaxInt64, 1, MinInt64)], which
    satisfies [a + b == sum] under Go's wrapping addition, fails. *)
Theorem inputs_are_field_elements
  (G : groth16.Backend) (n : nat) (pk : groth16.ProvingKey G)
  (vk : groth16.VerifyingKey G) (e : groth16.Env G) :
  groth16.Contract G ->
  groth16.setup_fn G bn254_ccs n = Ok (pk, vk) ->
  (forall a b sum,
      frontend.NewWitness
        {| circuit.A := frontend.Int a; circuit.B := frontend.Int b;
           circuit.Sum := frontend.Int sum |} ecc.BN254_ScalarField false
      = Ok {| frontend.PublicPart := [sum mod ecc.BN254_ScalarField];
              frontend.SecretPart :=
                [a mod ecc.BN254_ScalarField; b mod ecc.BN254_ScalarField] |}
      /\ frontend.IsSolved bn254_ccs (full_witness ecc.BN254_ScalarField a b sum)
         = ((a + b - sum) mod ecc.BN254_ScalarField =? 0))
  /\ is_ok (fst (circuit.GenerateProof G pk (-1) 1 0 e)) = true
  /\ is_int MaxInt64 = true
  /\ is_int MinInt64 = true
  /\ int_add MaxInt64 1 = MinInt64
  /\ is_ok (fst (circuit.GenerateProof G pk MaxInt64 1 MinInt64 e)) = false.
Proof.
  intros HG Hsetup.
  split; [| split; [| split; [| split; [| split]]]]; try reflexivity.
  - intros a b sum. split; [reflexivity |].
    apply IsSolved_field. reflexivity.
  - rewrite circuit_GenerateProof_run.
    destruct (groth16.complete G HG bn254_ccs n pk vk
                (full_witness ecc.BN254_ScalarField (-1) 1 0) (groth16.entropy G e)
                Hsetup) as (proof & Hprove & _).
    + rewrite IsSolved_int; reflexivity.
    + rewrite Hprove. reflexivity.
  - rewrite circuit_GenerateProof_run.
    destruct (groth16.prove_fn G bn254_ccs pk
                (full_witness ecc.BN254_ScalarField MaxInt64 1 MinInt64)
                (groth16.entropy G e)) as [proof | err] eqn:Hprove; [| reflexivity].
    apply (groth16.prove_solves G HG) in Hprove.
    rewrite IsSolved_int in Hprove by reflexivity.
    discriminate.
Qed.

Lemma inputs_are_field_elements_witness :
  is_ok (fst (circuit.GenerateProof mock.backend 1%nat (-1) 1 0
                {| groth16.entropy := 2; groth16.trace := [] |})) = true
  /\ is_ok (fst (circuit.GenerateProof mock.backend 1%nat MaxInt64 1 MinInt64
                   {| groth16.entropy := 2; groth16.trace := [] |})) = false.
Proof.
  destruct (inputs_are_field_elements mock.backend 1 1%nat 1%nat
              {| groth16.entropy := 2; groth16.trace := [] |} mock_contract)
    as (_ & Hneg & _ & _ & _ & Hover).
  - reflexivity.
  - split; assumption.
Defined.

(** ** One constraint system for setup and proving *)

Lemma initializeKeys_trace (G : groth16.Backend) (p : handlers.Process G) :
  groth16.trace G (handlers.env G (handlers.initializeKeys G p))
  = groth16.trace G (handlers.env G p)
    ++ (if handlers.setupOnce G p then [] else [groth16.EvSetup G bn254_ccs]).
Proof.
  unfold handlers.initializeKeys, handlers.Once_Do, handlers.setup_closure.
  destruct (handlers.setupOnce G p); [rewrite app_nil_r; reflexivity |].
  rewrite Setup_run.
  destruct (groth16.setup_fn G bn254_ccs _) as [[pk vk] | err]; reflexivity.
Qed.

Lemma serve1_uses_addition_ccs (G : groth16.Backend) (r : handlers.Request)
  (p : handlers.Process G) :
  Forall (uses_addition_ccs G) (groth16.trace G (handlers.env G p)) ->
  Forall (uses_addition_ccs G)
    (groth16.trace G (handlers.env G (snd (handlers.serve1 G r p)))).
Proof.
  intros Hp.
  assert (H1 : Forall (uses_addition_ccs G)
                 (groth16.trace G (handlers.env G (handlers.initializeKeys G p)))).
  { rewrite initializeKeys_trace. apply Forall_app. split; [exact Hp |].
    destruct (handlers.setupOnce G p); repeat constructor. }
  destruct r as [body | body |]; cbn [handlers.serve1]; [| | exact Hp].
  - unfold handlers.GenerateProof. cbv zeta.
    destruct (handlers.setupErr G (handlers.initializeKeys G p)); [exact H1 |].
    destruct (json.Decode _ _ body) as [req | e]; [| exact H1].
    destruct (handlers.provingKey G (handlers.initializeKeys G p)) as [pk |];
      [| exact H1].
    unfold circuit.GenerateProof. cbv zeta.
    rewrite NewWitness_full, Compile_shape. fold bn254_ccs.
    unfold groth16.bind, groth16.Prove, groth16.ret, groth16.WriteTo.
    destruct (groth16.prove_fn G bn254_ccs pk _ _) as [proof | e].
    + destruct (groth16.write_fn G proof) as [data | e]; cbn;
        repeat (apply Forall_app; split); try exact H1; repeat constructor.
    + cbn. apply Forall_app. split; [exact H1 | repeat constructor].
  - unfold handlers.VerifyProof. cbv zeta.
    destruct (handlers.setupErr G (handlers.initializeKeys G p)); [exact H1 |].
    destruct (json.Decode _ _ body) as [req | e]; [| exact H1].
    unfold groth16.ReadFrom.
    destruct (groth16.read_fn G _) as [proof | e].
    + cbn [handlers.verifyingKey handlers.with_env].
      destruct (handlers.verifyingKey G (handlers.initializeKeys G p)) as [vk |].
      * rewrite circuit_VerifyProof_run.
        destruct (groth16.verify_fn G proof vk _); cbn;
          repeat (apply Forall_app; split); try exact H1; repeat constructor.
      * cbn. apply Forall_app. split; [exact H1 | repeat constructor].
    + cbn. apply Forall_app. split; [exact H1 | repeat constructor].
Qed.

Lemma serve_uses_addition_ccs (G : groth16.Backend) (rs : list handlers.Request) :
  forall p : handlers.Process G,
    Forall (uses_addition_ccs G) (groth16.trace G (handlers.env G p)) ->
    Forall (uses_addition_ccs G)
      (groth16.trace G (handlers.env G (snd (handlers.serve G rs p)))).
Proof.
  induction rs as [| r rest IH]; intros p Hp; [exact Hp |].
  rewrite serve_cons. cbn [snd]. apply IH, serve1_uses_addition_ccs, Hp.
Qed.

(** The first call of [initializeKeys] in a fresh process, when the back
    end's setup returns keys. *)
Lemma initializeKeys_start (G : groth16.Backend) (seed : nat)
  (pk : groth16.ProvingKey G) (vk : groth16.VerifyingKey G) :
  groth16.setup_fn G bn254_ccs seed = Ok (pk, vk) ->
  handlers.initializeKeys G (handlers.start G seed)
  = {| handlers.provingKey := Some pk;
       handlers.verifyingKey := Some vk;
       handlers.setupOnce := true;
       handlers.setupErr := None;
       handlers.env :=
         {| groth16.entropy := S seed;
            groth16.trace := [groth16.EvSetup G bn254_ccs] |} |}.
Proof.
  intros Hsetup.
  unfold handlers.initializeKeys, handlers.Once_Do, handlers.setup_closure.
  cbn [handlers.start handlers.setupOnce handlers.env].
  rewrite Setup_run. cbn [groth16.entropy]. rewrite Hsetup. reflexivity.
Qed.

(** A proof made with the key of a setup on the addition system verifies
    against the other key of that setup, through the handlers. *)
Lemma generate_verify_with_setup_keys
  (G : groth16.Backend) (p : handlers.Process G) (body : json.Body) (a b sum : Z)
  (n : nat) (pk : groth16.ProvingKey G) (vk : groth16.VerifyingKey G) :
  groth16.Contract G ->
  groth16.setup_fn G bn254_ccs n = Ok (pk, vk) ->
  handlers.setupErr G (handlers.initializeKeys G p) = None ->
  handlers.provingKey G (handlers.initializeKeys G p) = Some pk ->
  handlers.verifyingKey G (handlers.initializeKeys G p) = Some vk ->
  decodes_generate body a b sum ->
  sum = a + b ->
  exists proof data,
    groth16.prove_fn G bn254_ccs pk (full_witness ecc.BN254_ScalarField a b sum)
      (groth16.entropy G (handlers.env G (handlers.initializeKeys G p))) = Ok proof
    /\ groth16.write_fn G proof = Ok data
    /\ groth16.verify_fn G proof vk (public_witness ecc.BN254_ScalarField sum) = None
    /\ forall rs body',
         decodes_verify body' data sum ->
         fst (handlers.VerifyProof G body'
                (snd (handlers.serve G rs (snd (handlers.GenerateProof G body p)))))
         = valid_response.
Proof.
  intros HG Hsetup Herr Hpk Hvk Hdec Hsum.
  destruct (decodes_generate_range body a b sum Hdec) as (Ha & Hb & Hs).
  assert (Hsolved : frontend.IsSolved bn254_ccs
                      (full_witness ecc.BN254_ScalarField a b sum) = true).
  { rewrite IsSolved_int by assumption. apply Z.eqb_eq. congruence. }
  destruct (groth16.complete G HG bn254_ccs n pk vk _
              (groth16.entropy G (handlers.env G (handlers.initializeKeys G p)))
              Hsetup Hsolved) as (proof & Hprove & Hverify).
  destruct (groth16.read_write G HG proof) as (data & Hwrite & Hread).
  rewrite PublicOf_full in Hverify.
  exists proof, data.
  split; [exact Hprove |]. split; [exact Hwrite |]. split; [exact Hverify |].
  intros rs body' Hdec'.
  set (p2 := snd (handlers.GenerateProof G body p)) in *.
  assert (Hg2 : same_globals G (handlers.initializeKeys G p) p2)
    by apply GenerateProof_globals.
  assert (Hdone2 : handlers.setupOnce G p2 = true).
  { destruct Hg2 as (_ & _ & Hd & _). rewrite Hd. apply initializeKeys_done. }
  destruct (serve_settled G rs p2 Hdone2) as [Hg3 _].
  set (p3 := snd (handlers.serve G rs p2)) in *.
  pose proof (same_globals_trans G _ _ _ Hg2 Hg3) as (_ & Hvk3 & Hd3 & He3).
  assert (Hidle : handlers.initializeKeys G p3 = p3).
  { apply initializeKeys_idle. rewrite Hd3. apply initializeKeys_done. }
  assert (Herr3 : handlers.setupErr G (handlers.initializeKeys G p3) = None)
    by (rewrite Hidle; congruence).
  assert (Hvk3' : handlers.verifyingKey G (handlers.initializeKeys G p3) = Some vk)
    by (rewrite Hidle; congruence).
  rewrite (VerifyProof_ready G p3 body' data sum vk Herr3 Hvk3' Hdec'). cbv zeta.
  rewrite Hread, Hverify. reflexivity.
Qed.

(** C6. One constraint system serves setup and proving.  There is a system
    to which every value of the circuit struct compiles, so the compilation
    in [Setup] and the one repeated in each [GenerateProof] yield it, and in
    every run every call to the back end's [Setup] and [Prove] is given it.
    In the first generate request of a process (the body decoding to [a],
    [b], [sum]), [Setup] is called on that system and, when it returns keys,
    [Prove] is called next on the same system with the proving key of that
    very call and the witness of the request.  Under the Groth16 contract
    and with [sum = a + b], the calls are exactly [Setup], [Prove], [WriteTo],
    the proof made with the per-call compilation verifies against the
    verifying key of that setup, and a later verify request with the returned
    bytes and sum is answered [valid: true].  (In the embedding compilation is
    a function of the circuit value; that two runs of it agree is part of
    that.) *)
Theorem one_constraint_system
  (G : groth16.Backend) (seed : nat) (body : json.Body) (a b sum : Z) :
  decodes_generate body a b sum ->
  exists ccs,
    (forall c : circuit.AdditionCircuit,
        frontend.Compile ecc.BN254_ScalarField c = Ok ccs)
    /\ (forall seed' rs,
          Forall (given_system G ccs)
            (groth16.trace G
               (handlers.env G (snd (handlers.serve G rs (handlers.start G seed'))))))
    /\ (forall pk vk,
          groth16.setup_fn G ccs seed = Ok (pk, vk) ->
          let run := handlers.GenerateProof G body (handlers.start G seed) in
          let w := full_witness ecc.BN254_ScalarField a b sum in
          (exists rest,
              groth16.trace G (handlers.env G (snd run))
              = groth16.EvSetup G ccs :: groth16.EvProve G ccs pk w :: rest)
          /\ (groth16.Contract G ->
              sum = a + b ->
              exists proof data,
                groth16.prove_fn G ccs pk w (S seed) = Ok proof
                /\ fst run = proof_response data sum
                /\ groth16.trace G (handlers.env G (snd run))
                   = [groth16.EvSetup G ccs; groth16.EvProve G ccs pk w;
                      groth16.EvWriteTo G proof]
                /\ groth16.verify_fn G proof vk
                     (public_witness ecc.BN254_ScalarField sum) = None
                /\ forall rs body',
                     decodes_verify body' data sum ->
                     fst (handlers.VerifyProof G body'
                            (snd (handlers.serve G rs (snd run))))
                     = valid_response)).
Proof.
  intros Hdec. exists bn254_ccs.
  split; [intros c; apply Compile_shape |].
  split.
  { intros seed' rs.
    eapply Forall_impl; [| apply serve_uses_addition_ccs; constructor].
    intros ev Hev. destruct ev; exact Hev. }
  intros pk vk Hsetup run w.
  pose proof (initializeKeys_start G seed pk vk Hsetup) as Hinit.
  assert (Herr : handlers.setupErr G (handlers.initializeKeys G (handlers.start G seed))
                 = None) by (rewrite Hinit; reflexivity).
  assert (Hpk : handlers.provingKey G (handlers.initializeKeys G (handlers.start G seed))
                = Some pk) by (rewrite Hinit; reflexivity).
  assert (Hvk : handlers.verifyingKey G (handlers.initializeKeys G (handlers.start G seed))
                = Some vk) by (rewrite Hinit; reflexivity).
  pose proof (GenerateProof_ready G (handlers.start G seed) body a b sum pk Herr Hpk Hdec)
    as Hgen.
  cbv zeta in Hgen. fold run in Hgen. rewrite Hinit in Hgen.
  cbn [handlers.env groth16.entropy] in Hgen. fold w in Hgen.
  split.
  - rewrite Hgen.
    destruct (groth16.prove_fn G bn254_ccs pk w (S seed)) as [proof | e].
    + destruct (groth16.write_fn G proof) as [data | e]; eexists; reflexivity.
    + eexists; reflexivity.
  - intros HG Hsum.
    destruct (generate_verify_with_setup_keys G (handlers.start G seed) body a b sum
                seed pk vk HG Hsetup Herr Hpk Hvk Hdec Hsum)
      as (proof & data & Hprove & Hwrite & Hverify & Hlater).
    rewrite Hinit in Hprove. cbn [handlers.env groth16.entropy] in Hprove.
    exists proof, data. fold w in Hprove.
    rewrite Hprove, Hwrite in Hgen.
    split; [exact Hprove |].
    split; [rewrite Hgen; reflexivity |].
    split; [rewrite Hgen; reflexivity |].
    split; [exact Hverify | exact Hlater].
Qed.

Lemma one_constraint_system_witness :
  exists (proof : groth16.Proof mock.backend) (data : list byte),
    fst (handlers.GenerateProof mock.backend (generate_body 5 3 8)
           (handlers.start mock.backend 1))
    = proof_response data 8
    /\ groth16.verify_fn mock.backend proof 1%nat
         (public_witness ecc.BN254_ScalarField 8) = None.
Proof.
  destruct (one_constraint_system mock.backend 1 (generate_body 5 3 8) 5 3 8 eq_refl)
    as (ccs & _ & _ & Hrun).
  destruct (Hrun 1%nat 1%nat eq_refl) as (_ & Hcontract).
  destruct (Hcontract mock_contract eq_refl)
    as (proof & data & _ & Hresp & _ & Hverify & _).
  exists proof, data. split; [exact Hresp | exact Hverify].
Defined.

(** ** Concurrent callers of the setup *)
Section ConcurrentFacts.
Context (G : groth16.Backend) (seed : nat).

Local Abbreviation pc := (concurrent.pc G).
Local Abbreviation Config := (concurrent.Config G).

Local Abbreviation fresh := (concurrent.fresh G seed).
Local Abbreviation closed := (concurrent.closed G seed).
Local Abbreviation settled := (concurrent.settled G seed).
Local Abbreviation critical := (concurrent.critical G).
Local Abbreviation at_store := (concurrent.at_store G).
Local Abbreviation local_ok := (concurrent.local_ok G seed).
Local Abbreviation phase_ok := (concurrent.phase_ok G seed).
Local Abbreviation Inv := (concurrent.Inv G seed).
Local Abbreviation load := (concurrent.load G).
Local Abbreviation enabled := (concurrent.enabled G).

Lemma setup_closure_once (p : handlers.Process G) :
  handlers.setupOnce G (handlers.setup_closure G p) = handlers.setupOnce G p.
Proof.
  unfold handlers.setup_closure.
  destruct (circuit.Setup G (handlers.env G p)) as [[[pk vk] | err] e1]; reflexivity.
Qed.

Lemma settled_is_initializeKeys : settled = handlers.initializeKeys G fresh.
Proof. reflexivity. Qed.

Lemma closed_not_done : handlers.setupOnce G closed = false.
Proof. unfold concurrent.closed. rewrite setup_closure_once. reflexivity. Qed.

Lemma setup_runs_fresh : handlers.setup_runs G fresh = 0%nat.
Proof. reflexivity. Qed.

Lemma setup_runs_closed : handlers.setup_runs G closed = 1%nat.
Proof.
  unfold concurrent.closed, handlers.setup_closure. rewrite Setup_run.
  destruct (groth16.setup_fn G bn254_ccs _) as [[pk vk] | err]; reflexivity.
Qed.

Lemma setup_runs_settled : handlers.setup_runs G settled = 1%nat.
Proof. exact setup_runs_closed. Qed.

Lemma update_split (l : list pc) :
  forall i x y,
    nth_error l i = Some x ->
    exists l1 l2, l = l1 ++ x :: l2 /\ concurrent.update G i y l = l1 ++ y :: l2.
Proof.
  induction l as [| hd tl IH]; intros i x y H.
  - destruct i; discriminate.
  - destruct i as [| j]; cbn in H.
    + inversion H; subst. exists [], tl. split; reflexivity.
    + destruct (IH j x y H) as (l1 & l2 & E1 & E2).
      exists (hd :: l1), l2. cbn. rewrite <- E1, E2. split; reflexivity.
Qed.

Lemma critical_app (l1 l2 : list pc) :
  critical (l1 ++ l2) = (critical l1 + critical l2)%nat.
Proof. unfold concurrent.critical. rewrite filter_app, length_app. reflexivity. Qed.

Lemma critical_cons (x : pc) (l : list pc) :
  critical (x :: l)
  = ((if concurrent.in_critical G x then 1 else 0) + critical l)%nat.
Proof. unfold concurrent.critical. cbn. destruct (concurrent.in_critical G x); reflexivity. Qed.

Lemma critical_mid (l1 l2 : list pc) (x : pc) :
  critical (l1 ++ x :: l2)
  = (critical l1 + (if concurrent.in_critical G x then 1 else 0) + critical l2)%nat.
Proof. rewrite critical_app, critical_cons. lia. Qed.

Lemma no_critical_no_store (l : list pc) :
  critical l = 0%nat -> existsb at_store l = false.
Proof.
  induction l as [| x tl IH]; [reflexivity |].
  rewrite critical_cons. intros H.
  destruct x; cbn in *; try discriminate; apply IH; lia.
Qed.

Lemma no_critical_local (l : list pc) (d : bool) :
  critical l = 0%nat -> Forall (local_ok d) l -> Forall (local_ok true) l.
Proof.
  induction l as [| x tl IH]; intros Hc Hl; [constructor |].
  rewrite critical_cons in Hc. inversion Hl; subst.
  constructor.
  - destruct x; cbn in *; try discriminate; try exact I; try reflexivity.
    destruct H1 as [_ Hs]. split; [reflexivity | exact Hs].
  - apply IH; [lia | assumption].
Qed.

Lemma existsb_mid (l1 l2 : list pc) (x : pc) :
  existsb at_store (l1 ++ x :: l2)
  = existsb at_store l1 || at_store x || existsb at_store l2.
Proof. rewrite existsb_app. cbn. rewrite orb_assoc. reflexivity. Qed.

Lemma Forall_mid (P : pc -> Prop) (l1 l2 : list pc) (x : pc) :
  Forall P (l1 ++ x :: l2) <-> Forall P l1 /\ P x /\ Forall P l2.
Proof.
  rewrite Forall_app. split.
  - intros [H1 H2]. inversion H2; subst. repeat split; assumption.
  - intros (H1 & Hx & H2). split; [assumption | constructor; assumption].
Qed.

Lemma Inv_init (n : nat) : Inv (concurrent.init G seed n).
Proof.
  assert (Hc : critical (repeat (concurrent.AtDo G) n) = 0%nat).
  { induction n as [| k IH]; [reflexivity | exact IH]. }
  assert (Hl : Forall (local_ok false) (repeat (concurrent.AtDo G) n)).
  { clear Hc. induction n as [| k IH]; constructor; [exact I | exact IH]. }
  constructor; cbn.
  - exact Hc.
  - right. right. repeat split. cbn. apply no_critical_no_store, Hc.
  - exact Hl.
Qed.

Ltac at_thread Hnth y :=
  let l1 := fresh "l1" in
  let l2 := fresh "l2" in
  let El := fresh "El" in
  let Eu := fresh "Eu" in
  destruct (update_split _ _ _ y Hnth) as (l1 & l2 & El & Eu);
  rewrite Eu; rewrite El in *; clear Eu El.

Ltac unfold_inv Hm Hp Hl :=
  unfold concurrent.phase_ok in *;
  cbn [concurrent.proc concurrent.mutex concurrent.threads] in *;
  rewrite ?critical_mid, ?existsb_mid in *;
  rewrite Forall_mid in Hl;
  cbn [concurrent.in_critical concurrent.at_store orb] in *;
  rewrite ?orb_false_r, ?orb_true_r in *.

(** Every step of every goroutine preserves the invariant. *)
Lemma step_inv (i : nat) (c c' : Config) :
  Inv c -> concurrent.step G i c = Some c' -> Inv c'.
Proof.
  intros [Hm Hp Hl] Hstep. unfold concurrent.step in Hstep.
  destruct (nth_error (concurrent.threads G c) i) as [x |] eqn:Hnth; [| discriminate].
  destruct c as [p m l]. cbn [concurrent.proc concurrent.mutex concurrent.threads] in *.
  destruct x as [| | | | | | | s].
  - (* AtDo *)
    inversion Hstep; subst c'; clear Hstep.
    destruct (handlers.setupOnce G p) eqn:Hd.
    + at_thread Hnth (concurrent.AtRead G). unfold_inv Hm Hp Hl.
      destruct Hl as (H1 & _ & H2).
      constructor; cbn [concurrent.proc concurrent.mutex concurrent.threads].
      * rewrite critical_mid. exact Hm.
      * unfold concurrent.phase_ok. cbn [concurrent.proc concurrent.threads].
        rewrite existsb_mid. cbn [concurrent.at_store orb]. rewrite orb_false_r. exact Hp.
      * rewrite Hd. apply Forall_mid. repeat split; try assumption.
    + at_thread Hnth (concurrent.AtLock G). unfold_inv Hm Hp Hl.
      destruct Hl as (H1 & _ & H2).
      constructor; cbn [concurrent.proc concurrent.mutex concurrent.threads].
      * rewrite critical_mid. exact Hm.
      * unfold concurrent.phase_ok. cbn [concurrent.proc concurrent.threads].
        rewrite existsb_mid. cbn [concurrent.at_store orb]. rewrite orb_false_r. exact Hp.
      * rewrite Hd. apply Forall_mid. repeat split; try assumption.
  - (* AtLock *)
    destruct m; [discriminate |].
    inversion Hstep; subst c'; clear Hstep.
    at_thread Hnth (concurrent.AtRecheck G). unfold_inv Hm Hp Hl.
    destruct Hl as (H1 & _ & H2).
    constructor; cbn [concurrent.proc concurrent.mutex concurrent.threads].
    * rewrite critical_mid. cbn [concurrent.in_critical]. lia.
    * unfold concurrent.phase_ok. cbn [concurrent.proc concurrent.threads].
      rewrite existsb_mid. cbn [concurrent.at_store orb]. rewrite orb_false_r. exact Hp.
    * apply Forall_mid. repeat split; try assumption.
  - (* AtRecheck *)
    inversion Hstep; subst c'; clear Hstep.
    destruct (handlers.setupOnce G p) eqn:Hd.
    + at_thread Hnth (concurrent.AtUnlock G). unfold_inv Hm Hp Hl.
      destruct Hl as (H1 & _ & H2).
      constructor; cbn [concurrent.proc concurrent.mutex concurrent.threads].
      * rewrite critical_mid. exact Hm.
      * unfold concurrent.phase_ok. cbn [concurrent.proc concurrent.threads].
        rewrite existsb_mid. cbn [concurrent.at_store orb]. rewrite orb_false_r. exact Hp.
      * rewrite Hd. apply Forall_mid. repeat split; try assumption.
    + at_thread Hnth (concurrent.AtCall G). unfold_inv Hm Hp Hl.
      destruct Hl as (H1 & _ & H2).
      constructor; cbn [concurrent.proc concurrent.mutex concurrent.threads].
      * rewrite critical_mid. exact Hm.
      * unfold concurrent.phase_ok. cbn [concurrent.proc concurrent.threads].
        rewrite existsb_mid. cbn [concurrent.at_store orb]. rewrite orb_false_r. exact Hp.
      * rewrite Hd. apply Forall_mid. repeat split; try assumption.
  - (* AtCall *)
    inversion Hstep; subst c'; clear Hstep.
    at_thread Hnth (concurrent.AtStore G). unfold_inv Hm Hp Hl.
    destruct Hl as (H1 & Hd & H2). cbn [concurrent.local_ok] in Hd.
    assert (Hc : critical l1 = 0%nat /\ critical l2 = 0%nat) by (destruct m; lia).
    destruct Hc as [Hc1 Hc2].
    assert (Hfresh : p = fresh).
    { destruct Hp as [[Hx _] | [(_ & Hx & _) | (_ & _ & Hx)]].
      - congruence.
      - rewrite (no_critical_no_store l1 Hc1), (no_critical_no_store l2 Hc2) in Hx.
        discriminate.
      - exact Hx. }
    subst p.
    constructor; cbn [concurrent.proc concurrent.mutex concurrent.threads].
    * rewrite critical_mid. exact Hm.
    * unfold concurrent.phase_ok. cbn [concurrent.proc concurrent.threads].
      rewrite existsb_mid. cbn [concurrent.at_store orb]. rewrite orb_true_r.
      right. left. repeat split. apply closed_not_done.
    * rewrite setup_closure_once, Hd. apply Forall_mid.
      rewrite Hd in H1, H2. repeat split; assumption.
  - (* AtStore *)
    inversion Hstep; subst c'; clear Hstep.
    at_thread Hnth (concurrent.AtUnlock G). unfold_inv Hm Hp Hl.
    destruct Hl as (H1 & Hd & H2). cbn [concurrent.local_ok] in Hd.
    assert (Hc : critical l1 = 0%nat /\ critical l2 = 0%nat) by (destruct m; lia).
    destruct Hc as [Hc1 Hc2].
    assert (Hclosed : p = closed).
    { destruct Hp as [[Hx _] | [(_ & _ & Hx) | (_ & Hx & _)]].
      - congruence.
      - exact Hx.
      - discriminate. }
    subst p.
    constructor; cbn [concurrent.proc concurrent.mutex concurrent.threads].
    * rewrite critical_mid. exact Hm.
    * unfold concurrent.phase_ok. cbn [concurrent.proc concurrent.threads].
      left. split; reflexivity.
    * cbn [concurrent.set_done handlers.setupOnce]. apply Forall_mid.
      repeat split; [eapply no_critical_local; eassumption | eapply no_critical_local; eassumption].
  - (* AtUnlock *)
    inversion Hstep; subst c'; clear Hstep.
    at_thread Hnth (concurrent.AtRead G). unfold_inv Hm Hp Hl.
    destruct Hl as (H1 & Hd & H2). cbn [concurrent.local_ok] in Hd.
    assert (Hc : critical l1 = 0%nat /\ critical l2 = 0%nat) by (destruct m; lia).
    destruct Hc as [Hc1 Hc2].
    constructor; cbn [concurrent.proc concurrent.mutex concurrent.threads].
    * rewrite critical_mid. cbn [concurrent.in_critical]. lia.
    * unfold concurrent.phase_ok. cbn [concurrent.proc concurrent.threads].
      rewrite existsb_mid. cbn [concurrent.at_store orb]. rewrite orb_false_r. exact Hp.
    * apply Forall_mid. repeat split; assumption.
  - (* AtRead *)
    inversion Hstep; subst c'; clear Hstep.
    at_thread Hnth (concurrent.Seen G (concurrent.snapshot G p)). unfold_inv Hm Hp Hl.
    destruct Hl as (H1 & Hd & H2). cbn [concurrent.local_ok] in Hd.
    constructor; cbn [concurrent.proc concurrent.mutex concurrent.threads].
    * rewrite critical_mid. exact Hm.
    * unfold concurrent.phase_ok. cbn [concurrent.proc concurrent.threads].
      rewrite existsb_mid. cbn [concurrent.at_store orb]. rewrite orb_false_r. exact Hp.
    * apply Forall_mid. repeat split; try assumption.
      destruct Hp as [[_ Hx] | [(Hx & _) | (Hx & _)]]; congruence.
  - (* Seen *)
    discriminate.
Qed.

Lemma run_inv (sched : list nat) :
  forall c, Inv c -> Inv (concurrent.run G sched c).
Proof.
  induction sched as [| i rest IH]; intros c Hc; [exact Hc |].
  cbn [concurrent.run].
  destruct (concurrent.step G i c) as [c1 |] eqn:Hstep.
  - apply IH. eapply step_inv; eassumption.
  - apply IH, Hc.
Qed.

Lemma load_mid (l1 l2 : list pc) (x : pc) :
  load (l1 ++ x :: l2) = (load l1 + concurrent.weight G x + load l2)%nat.
Proof.
  unfold concurrent.load.
  induction l1 as [| y tl IH]; cbn [app fold_right].
  - lia.
  - rewrite IH. lia.
Qed.

(** Every step uses up some of the steps that are left. *)
Lemma step_measure (i : nat) (c c' : Config) :
  concurrent.step G i c = Some c' ->
  (concurrent.measure G c' < concurrent.measure G c)%nat
  /\ List.length (concurrent.threads G c') = List.length (concurrent.threads G c).
Proof.
  unfold concurrent.step, concurrent.measure. intros Hstep.
  destruct (nth_error (concurrent.threads G c) i) as [x |] eqn:Hnth; [| discriminate].
  destruct x as [| | | | | | | s];
    try (destruct (concurrent.mutex G c); [discriminate |]);
    try discriminate;
    inversion Hstep; subst c'; clear Hstep;
    cbn [concurrent.threads];
    match goal with
    | |- context [concurrent.update G i ?y _] =>
        destruct (update_split _ _ _ y Hnth) as (l1 & l2 & El & Eu);
        rewrite Eu, El, !load_mid, !length_app; cbn [List.length]
    end;
    try (destruct (handlers.setupOnce G (concurrent.proc G c)));
    cbn [concurrent.weight]; lia.
Qed.

Lemma taken_bound (sched : list nat) :
  forall c,
    (concurrent.taken G sched c + concurrent.measure G (concurrent.run G sched c)
     <= concurrent.measure G c)%nat
    /\ List.length (concurrent.threads G (concurrent.run G sched c))
       = List.length (concurrent.threads G c).
Proof.
  induction sched as [| i rest IH]; intros c; cbn [concurrent.taken concurrent.run].
  - split; [lia | reflexivity].
  - destruct (concurrent.step G i c) as [c1 |] eqn:Hstep.
    + destruct (step_measure i c c1 Hstep) as [Hlt Hlen].
      destruct (IH c1) as [Hb Hl]. split; [lia | congruence].
    + apply IH.
Qed.

Lemma measure_init (n : nat) :
  concurrent.measure G (concurrent.init G seed n) = (7 * n)%nat.
Proof.
  unfold concurrent.measure, concurrent.init, concurrent.load.
  cbn [concurrent.threads].
  induction n as [| k IH]; [reflexivity |].
  cbn [repeat fold_right concurrent.weight]. rewrite IH. lia.
Qed.

Lemma find_enabled (m : bool) (l : list pc) :
  Forall (fun x => enabled m x = false) l
  \/ exists i x, nth_error l i = Some x /\ enabled m x = true.
Proof.
  induction l as [| y tl [IH | (i & x & Hn & He)]].
  - left. constructor.
  - destruct (enabled m y) eqn:Ey.
    + right. exists 0%nat, y. split; [reflexivity | exact Ey].
    + left. constructor; assumption.
  - right. exists (S i), x. split; assumption.
Qed.

Lemma enabled_steps (i : nat) (c : Config) (x : pc) :
  nth_error (concurrent.threads G c) i = Some x ->
  enabled (concurrent.mutex G c) x = true ->
  concurrent.step G i c <> None.
Proof.
  intros Hn He. unfold concurrent.step. rewrite Hn.
  destruct x; cbn in He; try discriminate.
  destruct (concurrent.mutex G c); discriminate.
Qed.

Lemma stuck_not_critical (l : list pc) :
  Forall (fun x => enabled true x = false) l -> critical l = 0%nat.
Proof.
  induction 1 as [| x tl Hx _ IH]; [reflexivity |].
  rewrite critical_cons, IH. destruct x; cbn in *; try discriminate; reflexivity.
Qed.

Lemma stuck_finished (l : list pc) :
  Forall (fun x => enabled false x = false) l ->
  forallb (concurrent.finished G) l = true.
Proof.
  induction 1 as [| x tl Hx _ IH]; [reflexivity |].
  cbn [forallb]. rewrite IH. destruct x; cbn in *; try discriminate; reflexivity.
Qed.

(** No deadlock: unless every goroutine has read the outcome, one can move. *)
Lemma progress (c : Config) :
  Inv c ->
  forallb (concurrent.finished G) (concurrent.threads G c) = true
  \/ exists i, concurrent.step G i c <> None.
Proof.
  intros [Hm _ _].
  destruct (find_enabled (concurrent.mutex G c) (concurrent.threads G c))
    as [Hall | (i & x & Hn & He)].
  - left. destruct (concurrent.mutex G c).
    + apply stuck_not_critical in Hall. rewrite Hall in Hm. discriminate.
    + apply stuck_finished, Hall.
  - right. exists i. eapply enabled_steps; eassumption.
Qed.

Lemma returned_settled (c : Config) (i : nat) (x : pc) :
  Inv c ->
  nth_error (concurrent.threads G c) i = Some x ->
  concurrent.returned G x = true ->
  concurrent.proc G c = settled
  /\ forall s, x = concurrent.Seen G s -> s = concurrent.snapshot G settled.
Proof.
  intros [_ Hp Hl] Hn Hr.
  rewrite Forall_forall in Hl. specialize (Hl x (nth_error_In _ _ Hn)).
  assert (Hd : handlers.setupOnce G (concurrent.proc G c) = true).
  { destruct x; cbn in Hr, Hl; try discriminate; [exact Hl | exact (proj1 Hl)]. }
  split.
  - destruct Hp as [[_ Hx] | [(Hx & _) | (Hx & _)]]; [exact Hx | congruence | congruence].
  - intros s ->. exact (proj2 Hl).
Qed.

Lemma runs_at_most_once (c : Config) :
  Inv c -> (handlers.setup_runs G (concurrent.proc G c) <= 1)%nat.
Proof.
  intros [_ Hp _].
  destruct Hp as [[_ Hx] | [(_ & _ & Hx) | (_ & _ & Hx)]]; rewrite Hx.
  - rewrite setup_runs_settled. lia.
  - rewrite setup_runs_closed. lia.
  - rewrite setup_runs_fresh. lia.
Qed.

End ConcurrentFacts.

(** C3. Setup idempotence under concurrency: let [n] goroutines call
    [initializeKeys] in a fresh process and then read the package-level
    variables, interleaved by an arbitrary schedule.  At every point of every
    schedule the back end's [Setup] has run at most once; a goroutine for
    which [initializeKeys] has returned finds the setup resolved, run exactly
    once, and the process in the state a single sequential call would have
    left, so all of them read the same keys or the same error; until all have
    read the outcome some goroutine can move; and no schedule takes more than
    [7 * n] steps. *)
Theorem setup_runs_once_under_concurrency
  (G : groth16.Backend) (seed n : nat) (sched : list nat) :
  let c := concurrent.run G sched (concurrent.init G seed n) in
  let outcome := handlers.initializeKeys G (handlers.start G seed) in
  (handlers.setup_runs G (concurrent.proc G c) <= 1)%nat
  /\ (forall i x,
        nth_error (concurrent.threads G c) i = Some x ->
        concurrent.returned G x = true ->
        concurrent.proc G c = outcome
        /\ handlers.setupOnce G (concurrent.proc G c) = true
        /\ handlers.setup_runs G (concurrent.proc G c) = 1%nat
        /\ forall s, x = concurrent.Seen G s -> s = concurrent.snapshot G outcome)
  /\ (forallb (concurrent.finished G) (concurrent.threads G c) = true
      \/ exists i, concurrent.step G i c <> None)
  /\ (concurrent.taken G sched (concurrent.init G seed n) + concurrent.measure G c
      <= 7 * n)%nat
  /\ List.length (concurrent.threads G c) = n.
Proof.
  intros c outcome.
  assert (Hinv : concurrent.Inv G seed c) by apply run_inv, Inv_init.
  split; [apply (runs_at_most_once G seed), Hinv |].
  split.
  { intros i x Hn Hr.
    destruct (returned_settled G seed c i x Hinv Hn Hr) as [Hp Hs].
    split; [exact Hp |]. rewrite Hp.
    split; [reflexivity |].
    split; [apply setup_runs_settled | exact Hs]. }
  split; [apply (progress G seed), Hinv |].
  destruct (taken_bound G sched (concurrent.init G seed n)) as [Hb Hl].
  rewrite measure_init in Hb.
  split; [exact Hb |].
  subst c. rewrite Hl. cbn. apply repeat_length.
Qed.

(** * Further properties of the code *)

(** ** The wire format of proofs *)

Ltac divmod := zify; Z.to_euclidean_division_equations; lia.

Lemma byte_bound (b : byte) : (Byte.to_N b < 256)%N.
Proof.
  pose proof (Byte.to_of_N_option_map (Byte.to_N b)) as H.
  rewrite Byte.of_to_N in H. cbn [option_map] in H.
  destruct (N.leb_spec (Byte.to_N b) 255) as [L | L]; [lia | discriminate].
Qed.

Lemma to_byte_of (m : N) (b : byte) :
  (m mod 256 = Byte.to_N b)%N -> base64.to_byte m = b.
Proof.
  intros H. unfold base64.to_byte. rewrite H, Byte.of_to_N. reflexivity.
Qed.

Lemma sextets_all (f : N -> bool) :
  forallb f sextets = true -> forall n, (n < 64)%N -> f n = true.
Proof.
  intros H n Hn. rewrite forallb_forall in H. apply H.
  unfold sextets. rewrite <- (Nnat.N2Nat.id n). apply in_map, in_seq. lia.
Qed.

Lemma sextet_alphabet (n : N) :
  (n < 64)%N -> base64.sextet (wire.alphabet n) = Some n.
Proof.
  intros Hn.
  pose proof (sextets_all
                (fun k => match base64.sextet (wire.alphabet k) with
                          | Some m => N.eqb m k
                          | None => false
                          end)) as H.
  specialize (H eq_refl n Hn). cbv beta in H.
  destruct (base64.sextet (wire.alphabet n)) as [m |]; [| discriminate].
  apply N.eqb_eq in H. congruence.
Qed.

Lemma alphabet_plain (n : N) :
  (n < 64)%N ->
  base64.is_pad (wire.alphabet n) = false
  /\ base64.is_newline (wire.alphabet n) = false.
Proof.
  intros Hn.
  pose proof (sextets_all
                (fun k => negb (base64.is_pad (wire.alphabet k))
                          && negb (base64.is_newline (wire.alphabet k)))) as H.
  specialize (H eq_refl n Hn). cbv beta in H.
  apply andb_true_iff in H. destruct H as [H1 H2].
  apply negb_true_iff in H1, H2. split; assumption.
Qed.

Lemma list_ind3 {A} (P : list A -> Prop) :
  P [] ->
  (forall a, P [a]) ->
  (forall a b, P [a; b]) ->
  (forall a b c l, P l -> P (a :: b :: c :: l)) ->
  forall l, P l.
Proof.
  intros H0 H1 H2 H3.
  assert (H : forall l, P l /\ (forall a, P (a :: l)) /\ (forall a b, P (a :: b :: l))).
  { induction l as [| x tl (IH0 & IH1 & IH2)].
    - repeat split; auto.
    - repeat split; auto. }
  intros l. apply H.
Qed.

Ltac sextet_step :=
  match goal with
  | |- context [base64.sextet (wire.alphabet ?n)] =>
      rewrite (sextet_alphabet n) by divmod
  | |- context [base64.is_pad (wire.alphabet ?n)] =>
      rewrite (proj1 (alphabet_plain n ltac:(divmod)))
  end.

(** Decoding undoes encoding, quantum by quantum. *)
Lemma quanta_encode (bs : list byte) :
  base64.quanta (wire.encode_quanta bs) = Some bs.
Proof.
  induction bs as [| b0 | b0 b1 | b0 b1 b2 rest IH] using list_ind3.
  - reflexivity.
  - pose proof (byte_bound b0) as B0.
    cbn [wire.encode_quanta base64.quanta]. cbv zeta.
    repeat sextet_step.
    change (base64.is_pad wire.pad) with true. cbv iota.
    f_equal. f_equal. apply to_byte_of. divmod.
  - pose proof (byte_bound b0) as B0. pose proof (byte_bound b1) as B1.
    cbn [wire.encode_quanta base64.quanta]. cbv zeta.
    repeat sextet_step.
    change (base64.is_pad wire.pad) with true. cbv iota.
    f_equal. f_equal; [apply to_byte_of; divmod |].
    f_equal. apply to_byte_of. divmod.
  - pose proof (byte_bound b0) as B0. pose proof (byte_bound b1) as B1.
    pose proof (byte_bound b2) as B2.
    cbn [wire.encode_quanta base64.quanta]. cbv zeta.
    repeat sextet_step.
    rewrite IH.
    f_equal. f_equal; [apply to_byte_of; divmod |].
    f_equal; [apply to_byte_of; divmod |].
    f_equal. apply to_byte_of. divmod.
Qed.

Lemma encode_quanta_plain (bs : list byte) :
  Forall (fun c => base64.is_newline c = false) (wire.encode_quanta bs).
Proof.
  induction bs as [| b0 | b0 b1 | b0 b1 b2 rest IH] using list_ind3;
    cbn [wire.encode_quanta]; cbv zeta.
  - constructor.
  - pose proof (byte_bound b0) as B0.
    repeat constructor; apply alphabet_plain; divmod.
  - pose proof (byte_bound b0) as B0. pose proof (byte_bound b1) as B1.
    repeat constructor; apply alphabet_plain; divmod.
  - pose proof (byte_bound b0) as B0. pose proof (byte_bound b1) as B1.
    pose proof (byte_bound b2) as B2.
    repeat (constructor; [apply alphabet_plain; divmod |]). exact IH.
Qed.

Lemma filter_all {A} (f : A -> bool) (l : list A) :
  Forall (fun x => f x = true) l -> filter f l = l.
Proof.
  induction 1 as [| x tl Hx _ IH]; [reflexivity |].
  cbn [filter]. rewrite Hx, IH. reflexivity.
Qed.

(** The base64 round trip. *)
Lemma DecodeString_EncodeToString (bs : list byte) :
  base64.DecodeString (wire.EncodeToString bs) = Some bs.
Proof.
  unfold base64.DecodeString, wire.EncodeToString.
  rewrite list_ascii_of_string_of_list_ascii.
  rewrite filter_all.
  - apply quanta_encode.
  - eapply Forall_impl; [| apply encode_quanta_plain].
    intros c Hc. cbv beta in Hc. rewrite Hc. reflexivity.
Qed.

(** What [encoding/json] writes for a byte slice reads back as that slice. *)
Lemma into_bytes_of_bytes (bs old : list byte) :
  json.into_bytes (wire.of_bytes bs) old = Ok bs.
Proof.
  destruct bs as [| b tl]; [reflexivity |].
  unfold wire.of_bytes. cbn [json.into_bytes].
  rewrite DecodeString_EncodeToString. reflexivity.
Qed.

Lemma ProofRequest_fields_eta (r : models.ProofRequest.t) :
  r = ProofRequest_of (models.ProofRequest.A r) (models.ProofRequest.B r)
        (models.ProofRequest.Sum r).
Proof. destruct r; reflexivity. Qed.

(** X6. The body of a successful generate response is a well-formed verify
    request: whenever the generate handler answers with proof bytes and a
    sum, the JSON object it encodes (proof in base64, sum, message) is
    decoded by the verify handler's decoder to exactly those bytes and that
    sum. *)
Theorem generate_response_is_a_verify_request
  (G : groth16.Backend) (p : handlers.Process G) (body : json.Body)
  (data : list byte) (sum : Z) :
  fst (handlers.GenerateProof G body p) = proof_response data sum ->
  decodes_verify
    (Some (wire.of_payload
             (handlers.ProofBody
                {| models.ProofResponse.Proof := data;
                   models.ProofResponse.Sum := sum;
                   models.ProofResponse.Message := handlers.msg_generated |})))
    data sum.
Proof.
  intros Hresp.
  assert (Hs : is_int sum = true).
  { revert Hresp. unfold handlers.GenerateProof. cbv zeta.
    destruct (handlers.setupErr G (handlers.initializeKeys G p)); [discriminate |].
    destruct (json.Decode json.ProofRequest_fields models.ProofRequest.zero body)
      as [req | e] eqn:Hdec; [| discriminate].
    destruct (handlers.provingKey G (handlers.initializeKeys G p)) as [pk |];
      [| discriminate].
    destruct (circuit.GenerateProof G pk _ _ _ _) as [[proof | e] e1];
      [| discriminate].
    destruct (groth16.WriteTo G proof e1) as [[bytes | e] e2]; [| discriminate].
    cbn [fst]. unfold handlers.respondWithJSON, proof_response. intros Hresp.
    inversion Hresp; subst.
    rewrite (ProofRequest_fields_eta req) in Hdec.
    apply (decodes_generate_range body _ _ _ Hdec). }
  unfold decodes_verify, wire.of_payload, json.Decode.
  cbn [models.ProofResponse.Proof models.ProofResponse.Sum models.ProofResponse.Message].
  cbn [json.object].
  change (json.lookup "proof" json.VerifyRequest_fields)
    with (Some (snd (nth 0 json.VerifyRequest_fields ("", fun _ r => Ok r)))).
  cbn [nth snd json.VerifyRequest_fields].
  rewrite into_bytes_of_bytes. cbn [json.mapr].
  change (json.lookup "sum" json.VerifyRequest_fields)
    with (Some (snd (nth 1 json.VerifyRequest_fields ("", fun _ r => Ok r)))).
  cbn [nth snd json.VerifyRequest_fields json.into_int models.VerifyRequest.Sum
       models.VerifyRequest.Proof models.VerifyRequest.zero].
  rewrite Hs. cbn [json.mapr].
  change (json.lookup "message" json.VerifyRequest_fields) with
    (@None (json.Value -> models.VerifyRequest.t -> result models.VerifyRequest.t)).
  reflexivity.
Qed.

Lemma generate_response_is_a_verify_request_witness :
  decodes_verify
    (Some (wire.of_payload
             (handlers.ProofBody
                {| models.ProofResponse.Proof := proof_of_8;
                   models.ProofResponse.Sum := 8;
                   models.ProofResponse.Message := handlers.msg_generated |})))
    proof_of_8 8.
Proof.
  apply (generate_response_is_a_verify_request mock.backend
           (handlers.start mock.backend 1) (generate_body 5 3 8)).
  reflexivity.
Defined.

(** ** Members the request structs do not name *)

Lemma object_known_members {T} (fields : json.FieldTable T)
  (members : list (string * json.Value)) :
  forall acc,
    json.object fields (filter (known_member fields) members) acc
    = json.object fields members acc.
Proof.
  induction members as [| [key v] rest IH]; intros acc; [reflexivity |].
  cbn [filter]. unfold known_member at 1. cbn [fst].
  destruct (json.lookup key fields) as [store |] eqn:Hl.
  - cbn [json.object]. rewrite Hl.
    destruct (store v acc) as [acc1 | e]; [apply IH | reflexivity].
  - cbn [json.object]. rewrite Hl. apply IH.
Qed.

(** X5. Members of the request object that name no field of the request
    struct are ignored: both handlers behave on a body exactly as on the
    same body with those members removed. *)
Theorem unknown_members_are_ignored
  (G : groth16.Backend) (p : handlers.Process G) (members : list (string * json.Value)) :
  handlers.GenerateProof G (Some (json.Object members)) p
  = handlers.GenerateProof G
      (Some (json.Object (filter (known_member json.ProofRequest_fields) members))) p
  /\ handlers.VerifyProof G (Some (json.Object members)) p
     = handlers.VerifyProof G
         (Some (json.Object (filter (known_member json.VerifyRequest_fields) members))) p.
Proof.
  split.
  - unfold handlers.GenerateProof, json.Decode. cbv zeta.
    rewrite object_known_members. reflexivity.
  - unfold handlers.VerifyProof, json.Decode. cbv zeta.
    rewrite object_known_members. reflexivity.
Qed.

(** ** The generate handler, case by case *)

(** X1. The answers of the generate handler in every reachable process
    state: 500 with the setup error when the setup has failed; otherwise 400
    exactly when the body does not decode; otherwise 500 "Failed to generate
    proof" when the back end's [Prove] fails on the decoded assignment, 500
    "Failed to serialize proof" when the proof it returns cannot be written,
    and 200 with the written bytes and the request's own sum otherwise. *)
Theorem generate_status_by_case
  (G : groth16.Backend) (p : handlers.Process G) (body : json.Body) :
  reachable G p ->
  let p1 := handlers.initializeKeys G p in
  let resp := fst (handlers.GenerateProof G body p) in
  (forall err, handlers.setupErr G p1 = Some err -> resp = setup_failed_response err)
  /\ (handlers.setupErr G p1 = None ->
      (is_ok (json.Decode json.ProofRequest_fields models.ProofRequest.zero body) = false ->
       resp = bad_request_response)
      /\ (forall a b sum,
            decodes_generate body a b sum ->
            exists pk,
              handlers.provingKey G p1 = Some pk
              /\ (let outcome :=
                    groth16.prove_fn G bn254_ccs pk
                      (full_witness ecc.BN254_ScalarField a b sum)
                      (groth16.entropy G (handlers.env G p1)) in
                  (is_ok outcome = false -> resp = prove_failed_response)
                  /\ (forall proof,
                        outcome = Ok proof ->
                        (is_ok (groth16.write_fn G proof) = false ->
                         resp = serialize_failed_response)
                        /\ (forall data,
                              groth16.write_fn G proof = Ok data ->
                              resp = proof_response data sum)))))
  /\ (handlers.status_of resp = Some 400
      <-> handlers.setupErr G p1 = None
          /\ is_ok (json.Decode json.ProofRequest_fields models.ProofRequest.zero body)
             = false).
Proof.
  intros Hreach p1 resp.
  pose proof (initializeKeys_keys G p (reachable_keys G p Hreach)) as Hkeys.
  assert (Hcases :
    handlers.setupErr G p1 = None ->
    forall a b sum,
      decodes_generate body a b sum ->
      exists pk,
        handlers.provingKey G p1 = Some pk
        /\ resp =
           match groth16.prove_fn G bn254_ccs pk
                   (full_witness ecc.BN254_ScalarField a b sum)
                   (groth16.entropy G (handlers.env G p1)) with
           | Err _ => prove_failed_response
           | Ok proof =>
               match groth16.write_fn G proof with
               | Err _ => serialize_failed_response
               | Ok data => proof_response data sum
               end
           end).
  { intros Herr a b sum Hdec.
    destruct (Hkeys (initializeKeys_done G p) Herr) as (n & pk & vk & _ & Hpk & _).
    exists pk. split; [exact Hpk |].
    subst resp.
    rewrite (GenerateProof_ready G p body a b sum pk Herr Hpk Hdec). cbv zeta.
    destruct (groth16.prove_fn G bn254_ccs pk _ _) as [proof | e]; [| reflexivity].
    destruct (groth16.write_fn G proof); reflexivity. }
  split; [| split].
  - intros err Herr. subst resp.
    rewrite (GenerateProof_setup_failed G p body err Herr). reflexivity.
  - intros Herr. split.
    + intros Hbad. subst resp.
      rewrite (GenerateProof_bad_body G p body Herr Hbad). reflexivity.
    + intros a b sum Hdec.
      destruct (Hcases Herr a b sum Hdec) as (pk & Hpk & Hresp).
      exists pk. split; [exact Hpk |]. cbv zeta.
      rewrite Hresp.
      destruct (groth16.prove_fn G bn254_ccs pk _ _) as [proof | e].
      * split; [discriminate |].
        intros proof' Hp. inversion Hp; subst proof'.
        destruct (groth16.write_fn G proof) as [data | e].
        -- split; [discriminate |]. intros data' Hd. inversion Hd. reflexivity.
        -- split; [reflexivity | discriminate].
      * split; [reflexivity | discriminate].
  - destruct (handlers.setupErr G p1) as [err |] eqn:Herr.
    + subst resp. rewrite (GenerateProof_setup_failed G p body err Herr).
      split; [discriminate | intros [N _]; discriminate].
    + destruct (json.Decode json.ProofRequest_fields models.ProofRequest.zero body)
        as [req | e] eqn:Hdec.
      * split; [| intros [_ N]; discriminate].
        intros H400. exfalso.
        rewrite (ProofRequest_fields_eta req) in Hdec.
        destruct (Hcases eq_refl _ _ _ Hdec) as (pk & _ & Hresp).
        rewrite Hresp in H400.
        destruct (groth16.prove_fn G bn254_ccs pk _ _) as [proof | e]; [| discriminate].
        destruct (groth16.write_fn G proof); discriminate.
      * split; [intros _; split; reflexivity |].
        intros _. subst resp.
        rewrite (GenerateProof_bad_body G p body Herr); [reflexivity |].
        rewrite Hdec. reflexivity.
Qed.

Lemma generate_status_by_case_witness :
  handlers.status_of
    (fst (handlers.GenerateProof mock.backend (generate_body 5 3 8)
            (handlers.start mock.backend 1)))
  = Some 400
  <-> handlers.setupErr mock.backend
        (handlers.initializeKeys mock.backend (handlers.start mock.backend 1)) = None
      /\ is_ok (json.Decode json.ProofRequest_fields models.ProofRequest.zero
                  (generate_body 5 3 8)) = false.
Proof.
  exact (proj2 (proj2 (generate_status_by_case mock.backend
                         (handlers.start mock.backend 1) (generate_body 5 3 8)
                         (reachable_start mock.backend 1)))).
Defined.

(** ** No request panics *)

Lemma serve1_answered (G : groth16.Backend) (r : handlers.Request)
  (p : handlers.Process G) :
  keys_from_setup G p -> answered (fst (handlers.serve1 G r p)).
Proof.
  intros Hp.
  pose proof (initializeKeys_keys G p Hp (initializeKeys_done G p)) as Hkeys.
  destruct r as [body | body |]; cbn [handlers.serve1].
  - unfold handlers.GenerateProof. cbv zeta.
    destruct (handlers.setupErr G (handlers.initializeKeys G p)) as [err |];
      [cbn; auto |].
    destruct (Hkeys eq_refl) as (n & pk & vk & _ & Hpk & _).
    destruct (json.Decode _ _ body) as [req | e]; [| cbn; auto].
    rewrite Hpk.
    destruct (circuit.GenerateProof G pk _ _ _ _) as [[proof | e] e1]; [| cbn; auto].
    destruct (groth16.WriteTo G proof e1) as [[data | e] e2]; cbn; auto.
  - unfold handlers.VerifyProof. cbv zeta.
    destruct (handlers.setupErr G (handlers.initializeKeys G p)) as [err |];
      [cbn; auto |].
    destruct (Hkeys eq_refl) as (n & pk & vk & _ & _ & Hvk).
    destruct (json.Decode _ _ body) as [req | e]; [| cbn; auto].
    destruct (groth16.ReadFrom G _ _) as [[proof | e] e1]; [| cbn; auto].
    cbn [handlers.verifyingKey handlers.with_env]. rewrite Hvk.
    destruct (circuit.VerifyProof G vk proof _ e1) as [[e |] e2]; cbn; auto.
  - cbn. auto.
Qed.

(** X2. No request panics on a nil key: along every run of the service
    from a fresh process, every request is answered, and with status 200,
    400 or 500. *)
Theorem every_request_is_answered
  (G : groth16.Backend) (seed : nat) (rs : list handlers.Request) :
  Forall answered (fst (handlers.serve G rs (handlers.start G seed))).
Proof.
  assert (H : forall p, keys_from_setup G p ->
                        Forall answered (fst (handlers.serve G rs p))).
  { induction rs as [| r rest IH]; intros p Hp.
    - constructor.
    - rewrite serve_cons. cbn [fst]. constructor.
      + apply serve1_answered, Hp.
      + apply IH, serve1_keys, Hp. }
  apply H. intros Hdone. discriminate.
Qed.

(** ** The setup is lazy *)

Lemma setup_runs_initializeKeys (G : groth16.Backend) (p : handlers.Process G) :
  handlers.setup_runs G (handlers.initializeKeys G p)
  = (handlers.setup_runs G p + (if handlers.setupOnce G p then 0 else 1))%nat.
Proof.
  unfold handlers.setup_runs. rewrite initializeKeys_trace, filter_app, length_app.
  destruct (handlers.setupOnce G p); reflexivity.
Qed.

Lemma serve1_after_initializeKeys (G : groth16.Backend) (r : handlers.Request)
  (p : handlers.Process G) :
  is_proof_request r = true ->
  handlers.serve1 G r (handlers.initializeKeys G p) = handlers.serve1 G r p.
Proof.
  intros Hr.
  assert (Hi : handlers.initializeKeys G (handlers.initializeKeys G p)
               = handlers.initializeKeys G p)
    by apply initializeKeys_idle, initializeKeys_done.
  destruct r as [body | body |]; [| | discriminate]; cbn [handlers.serve1].
  - unfold handlers.GenerateProof. cbv zeta. rewrite Hi. reflexivity.
  - unfold handlers.VerifyProof. cbv zeta. rewrite Hi. reflexivity.
Qed.

(** X3. The setup is lazy and runs once: serving a list of requests adds
    one run of the back end's [Setup] when the setup has not run yet and the
    list holds a generate or verify request, and none otherwise; health
    checks never trigger it. *)
Theorem setup_runs_at_first_proof_request
  (G : groth16.Backend) (rs : list handlers.Request) (p : handlers.Process G) :
  handlers.setup_runs G (snd (handlers.serve G rs p))
  = (handlers.setup_runs G p
     + (if handlers.setupOnce G p then 0
        else if existsb is_proof_request rs then 1 else 0))%nat.
Proof.
  revert p. induction rs as [| r rest IH]; intros p.
  - cbn. destruct (handlers.setupOnce G p); lia.
  - destruct (handlers.setupOnce G p) eqn:Hdone.
    + destruct (serve_settled G (r :: rest) p Hdone) as [_ Hn]. rewrite Hn. lia.
    + rewrite serve_cons. cbn [snd existsb].
      destruct (is_proof_request r) eqn:Hr.
      * cbn [orb].
        rewrite <- (serve1_after_initializeKeys G r p Hr).
        pose proof (initializeKeys_done G p) as Hd1.
        destruct (serve1_settled G r (handlers.initializeKeys G p) Hd1)
          as [(_ & _ & Hd2 & _) Hn1].
        rewrite Hd1 in Hd2.
        destruct (serve_settled G rest _ Hd2) as [_ Hn2].
        rewrite Hn2, Hn1, setup_runs_initializeKeys, Hdone. reflexivity.
      * destruct r; try discriminate. cbn [handlers.serve1 handlers.HealthCheck snd orb].
        rewrite IH, Hdone. reflexivity.
Qed.

(** ** Calls into the back end *)

(** X4. What one request asks of the back end, beyond the one-time setup.
    A generate request adds to the trace exactly: nothing when the setup has
    failed or the body does not decode; otherwise one call to [Prove] on the
    addition system with the process's proving key, the witness of the
    decoded [a], [b], [sum] and the next randomness, followed by [WriteTo] on
    the proof when [Prove] returned one.  A verify request adds exactly:
    nothing in those two cases; otherwise one call to [ReadFrom] on the
    decoded proof bytes, followed, when they deserialise, by [Verify] on the
    proof read, the process's verifying key and the public witness of the
    decoded sum.  So a generate request never verifies or deserialises, and
    a verify request never proves or serialises. *)
Theorem backend_call_discipline
  (G : groth16.Backend) (p : handlers.Process G) (body : json.Body) :
  groth16.trace G (handlers.env G (snd (handlers.GenerateProof G body p)))
  = groth16.trace G (handlers.env G (handlers.initializeKeys G p))
    ++ generate_calls G (handlers.initializeKeys G p) body
  /\ groth16.trace G (handlers.env G (snd (handlers.VerifyProof G body p)))
     = groth16.trace G (handlers.env G (handlers.initializeKeys G p))
       ++ verify_calls G (handlers.initializeKeys G p) body
  /\ forallb (proves_or_writes G) (generate_calls G (handlers.initializeKeys G p) body)
     = true
  /\ forallb (reads_or_verifies G) (verify_calls G (handlers.initializeKeys G p) body)
     = true.
Proof.
  split; [| split; [| split]].
  - unfold handlers.GenerateProof, generate_calls. cbv zeta.
    destruct (handlers.setupErr G (handlers.initializeKeys G p)) as [err |];
      [rewrite app_nil_r; reflexivity |].
    destruct (json.Decode _ _ body) as [req | e]; [| rewrite app_nil_r; reflexivity].
    destruct (handlers.provingKey G (handlers.initializeKeys G p)) as [pk |];
      [| rewrite app_nil_r; reflexivity].
    unfold circuit.GenerateProof. cbv zeta.
    rewrite NewWitness_full, Compile_shape. fold bn254_ccs.
    unfold groth16.bind, groth16.Prove, groth16.ret, groth16.WriteTo.
    destruct (groth16.prove_fn G bn254_ccs pk _ _) as [proof | e].
    + destruct (groth16.write_fn G proof) as [data | e]; cbn;
        rewrite <- app_assoc; reflexivity.
    + reflexivity.
  - unfold handlers.VerifyProof, verify_calls. cbv zeta.
    destruct (handlers.setupErr G (handlers.initializeKeys G p)) as [err |];
      [rewrite app_nil_r; reflexivity |].
    destruct (json.Decode _ _ body) as [req | e]; [| rewrite app_nil_r; reflexivity].
    unfold groth16.ReadFrom.
    destruct (groth16.read_fn G _) as [proof | e]; [| reflexivity].
    cbn [handlers.verifyingKey handlers.with_env].
    destruct (handlers.verifyingKey G (handlers.initializeKeys G p)) as [vk |];
      [| reflexivity].
    rewrite circuit_VerifyProof_run.
    destruct (groth16.verify_fn G proof vk _); cbn; rewrite <- app_assoc; reflexivity.
  - unfold generate_calls.
    destruct (handlers.setupErr G (handlers.initializeKeys G p)); [reflexivity |].
    destruct (json.Decode _ _ body) as [req | e]; [| reflexivity].
    destruct (handlers.provingKey G (handlers.initializeKeys G p)) as [pk |];
      [| reflexivity].
    cbv zeta. destruct (groth16.prove_fn G bn254_ccs pk _ _); reflexivity.
  - unfold verify_calls.
    destruct (handlers.setupErr G (handlers.initializeKeys G p)); [reflexivity |].
    destruct (json.Decode _ _ body) as [req | e]; [| reflexivity].
    cbv zeta. destruct (groth16.read_fn G _); [| reflexivity].
    destruct (handlers.verifyingKey G (handlers.initializeKeys G p)); reflexivity.
Qed.

(** ** The CORS middleware and the router *)

Lemma served_handlers_answer (G : groth16.Backend) (next : web.Handler G)
  (f : web.Request -> handlers.Process G -> handlers.Response * handlers.Process G) :
  In (next, f) (served_handlers G) -> answers_with G next f.
Proof.
  intros Hin r w p.
  destruct Hin as [E | [E | [E | []]]]; inversion E; subst next f; clear E.
  - unfold web.GenerateProof.
    destruct (handlers.GenerateProof G (web.Body r) p); reflexivity.
  - unfold web.VerifyProof.
    destruct (handlers.VerifyProof G (web.Body r) p); reflexivity.
  - unfold web.HealthCheck.
    destruct (handlers.HealthCheck G p); reflexivity.
Qed.

(** X7. Behind [corsMiddleware], each of the three handlers answers a
    preflight request (method OPTIONS) with status 200, the three CORS
    headers and no body, without running: the process state is untouched, so
    no setup is triggered.  For any other method the handler's own status
    and JSON payload are sent, with the content type and the three CORS
    headers, and the process state is the one the handler leaves. *)
Theorem cors_wraps_every_answer
  (G : groth16.Backend) (next : web.Handler G)
  (f : web.Request -> handlers.Process G -> handlers.Response * handlers.Process G)
  (r : web.Request) (p : handlers.Process G) :
  In (next, f) (served_handlers G) ->
  (web.Method r = "OPTIONS" ->
   server.corsMiddleware G next r web.fresh_writer p = (preflight_writer, p))
  /\ (web.Method r <> "OPTIONS" ->
      forall status payload,
        fst (f r p) = handlers.Respond status payload ->
        server.corsMiddleware G next r web.fresh_writer p
        = (json_writer status payload, snd (f r p))).
Proof.
  intros Hin. pose proof (served_handlers_answer G next f Hin) as Hnext.
  unfold server.corsMiddleware. cbv zeta. split.
  - intros Hm. rewrite Hm. reflexivity.
  - intros Hm status payload Hresp.
    destruct (String.eqb_spec (web.Method r) "OPTIONS") as [E | _]; [contradiction |].
    rewrite Hnext, Hresp. reflexivity.
Qed.

Lemma cors_wraps_every_answer_witness :
  server.corsMiddleware mock.backend (web.HealthCheck mock.backend)
    (request "OPTIONS" "/health" None) web.fresh_writer (handlers.start mock.backend 1)
  = (preflight_writer, handlers.start mock.backend 1).
Proof.
  apply (cors_wraps_every_answer mock.backend (web.HealthCheck mock.backend)
           (fun _ => handlers.HealthCheck mock.backend)
           (request "OPTIONS" "/health" None) (handlers.start mock.backend 1)).
  - right. right. left. reflexivity.
  - reflexivity.
Defined.

Lemma match_routes_options (G : groth16.Backend) (r : web.Request) :
  web.Method r = "OPTIONS" ->
  mux.match_routes G (mux.routes G (server.router G)) r false = mux.MethodMismatch G
  \/ mux.match_routes G (mux.routes G (server.router G)) r false = mux.NotFound G.
Proof.
  intros Hm.
  cbn [server.router mux.routes mux.match_routes mux.template mux.methods mux.handler
       mux.allows existsb].
  rewrite Hm.
  change (String.eqb "OPTIONS" "POST") with false.
  change (String.eqb "OPTIONS" "GET") with false.
  cbn [orb].
  destruct (String.eqb (web.Path r) "/api/proof/generate");
    destruct (String.eqb (web.Path r) "/api/proof/verify");
    destruct (String.eqb (web.Path r) "/health"); auto.
Qed.

(** X8. Through the router [main] builds, a preflight request never reaches
    [corsMiddleware]: whatever its path, a request with method OPTIONS is
    answered 301, 404 or 405 by the router itself, without the
    Access-Control-Allow-Origin header, and the process state is untouched.
    The routes allow POST or GET only, and the router runs the middleware on
    matched routes alone. *)
Theorem preflight_never_reaches_the_middleware
  (G : groth16.Backend) (r : web.Request) (p : handlers.Process G) :
  web.Method r = "OPTIONS" ->
  snd (mux.ServeHTTP G (server.router G) r web.fresh_writer p) = p
  /\ (let w := fst (mux.ServeHTTP G (server.router G) r web.fresh_writer p) in
      (web.status w = Some 301 \/ web.status w = Some 404 \/ web.status w = Some 405)
      /\ web.Header_Get "Access-Control-Allow-Origin" (web.sent_headers w) = None).
Proof.
  intros Hm. unfold mux.ServeHTTP. cbv zeta.
  destruct (negb (String.eqb (mux.cleanPath (web.Path r)) (web.Path r))).
  - split; [reflexivity |]. split; [left; reflexivity | reflexivity].
  - destruct (match_routes_options G r Hm) as [E | E]; rewrite E.
    + split; [reflexivity |]. split; [right; right; reflexivity | reflexivity].
    + split; [reflexivity |]. split; [right; left; reflexivity | reflexivity].
Qed.

Lemma preflight_never_reaches_the_middleware_witness :
  snd (mux.ServeHTTP mock.backend (server.router mock.backend)
         (request "OPTIONS" "/api/proof/generate" None) web.fresh_writer
         (handlers.start mock.backend 1))
  = handlers.start mock.backend 1.
Proof.
  apply (preflight_never_reaches_the_middleware mock.backend
           (request "OPTIONS" "/api/proof/generate" None)
           (handlers.start mock.backend 1)).
  reflexivity.
Defined.

(** X9. Routing: a POST to /api/proof/generate or /api/proof/verify and a
    GET to /health run the respective handler behind [corsMiddleware]; and
    no other request changes the process state: only a POST to one of the two
    proof paths can trigger the setup or reach the back end. *)
Theorem only_proof_posts_touch_the_process
  (G : groth16.Backend) (w : web.ResponseWriter) (p : handlers.Process G) :
  (forall body,
      mux.ServeHTTP G (server.router G) (request "POST" "/api/proof/generate" body) w p
      = server.corsMiddleware G (web.GenerateProof G)
          (request "POST" "/api/proof/generate" body) w p)
  /\ (forall body,
        mux.ServeHTTP G (server.router G) (request "POST" "/api/proof/verify" body) w p
        = server.corsMiddleware G (web.VerifyProof G)
            (request "POST" "/api/proof/verify" body) w p)
  /\ (forall body,
        mux.ServeHTTP G (server.router G) (request "GET" "/health" body) w p
        = server.corsMiddleware G (web.HealthCheck G) (request "GET" "/health" body) w p)
  /\ (forall r,
        ~ reaches_proof_handler r ->
        snd (mux.ServeHTTP G (server.router G) r w p) = p).
Proof.
  split; [| split; [| split]]; try (intros body; reflexivity).
  intros r Hr. unfold mux.ServeHTTP. cbv zeta.
  destruct (negb (String.eqb (mux.cleanPath (web.Path r)) (web.Path r)));
    [reflexivity |].
  cbn [server.router mux.routes mux.middlewares mux.match_routes mux.template
       mux.methods mux.handler mux.allows existsb].
  rewrite !orb_false_r.
  destruct (String.eqb_spec (web.Path r) "/api/proof/generate") as [Eg | _].
  - destruct (String.eqb_spec (web.Method r) "POST") as [Em | _].
    + exfalso. apply Hr. split; [exact Em | left; exact Eg].
    + rewrite Eg. reflexivity.
  - destruct (String.eqb_spec (web.Path r) "/api/proof/verify") as [Ev | _].
    + destruct (String.eqb_spec (web.Method r) "POST") as [Em | _].
      * exfalso. apply Hr. split; [exact Em | right; exact Ev].
      * rewrite Ev. reflexivity.
    + destruct (String.eqb (web.Path r) "/health"); [| reflexivity].
      destruct (String.eqb (web.Method r) "GET"); [| reflexivity].
      cbn [mux.wrap fold_right]. unfold server.corsMiddleware. cbv zeta.
      destruct (String.eqb (web.Method r) "OPTIONS"); reflexivity.
Qed.

Lemma only_proof_posts_touch_the_process_witness :
  snd (mux.ServeHTTP mock.backend (server.router mock.backend)
         (request "GET" "/api/proof/generate" (generate_body 5 3 8)) web.fresh_writer
         (handlers.start mock.backend 1))
  = handlers.start mock.backend 1.
Proof.
  apply (only_proof_posts_touch_the_process mock.backend web.fresh_writer
           (handlers.start mock.backend 1)).
  intros [Hm _]. discriminate.
Defined.

(** ** The circuit functions and the back end *)

(** X10. Each function of the circuit package makes exactly one call into
    the back end and returns what that call returns: for this circuit the
    compilation and the witness construction never fail, so the error
    returns that follow them are never taken.  [Setup] and [Prove] are given
    the addition system, [Prove] the full witness of the three values and
    [Verify] the public witness of the sum. *)
Theorem circuit_functions_return_the_backend_result
  (G : groth16.Backend) (e : groth16.Env G) :
  circuit.Setup G e
  = (groth16.setup_fn G bn254_ccs (groth16.entropy G e),
     groth16.draw G (groth16.emit G (groth16.EvSetup G bn254_ccs) e))
  /\ (forall pk a b sum,
        circuit.GenerateProof G pk a b sum e
        = (groth16.prove_fn G bn254_ccs pk (full_witness ecc.BN254_ScalarField a b sum)
             (groth16.entropy G e),
           groth16.draw G
             (groth16.emit G
                (groth16.EvProve G bn254_ccs pk
                   (full_witness ecc.BN254_ScalarField a b sum)) e)))
  /\ (forall vk proof sum,
        circuit.VerifyProof G vk proof sum e
        = (groth16.verify_fn G proof vk (public_witness ecc.BN254_ScalarField sum),
           groth16.emit G
             (groth16.EvVerify G proof vk (public_witness ecc.BN254_ScalarField sum)) e)).
Proof.
  split; [apply Setup_run | split].
  - intros pk a b sum. unfold circuit.GenerateProof. cbv zeta.
    rewrite NewWitness_full, Compile_shape. fold bn254_ccs.
    unfold groth16.bind, groth16.Prove, groth16.ret.
    destruct (groth16.prove_fn G bn254_ccs pk _ _); reflexivity.
  - intros vk proof sum. apply circuit_VerifyProof_run.
Qed.
